(** * cbuild: a shallow embedding of the recipe pipeline

    The development follows [src/cbuild1.0.cpp] function by function
    (and [src/cbuild.cpp], the earlier prototype, where the two differ
    on something we state).  The program is a driver of external tools:
    every stage builds a shell command line by string concatenation and
    hands it to [popen]/[system].  We therefore keep

    - paths and command lines as strings, built exactly as the C++ does;
    - the filesystem as a finite map from path strings to nodes;
    - the outside world (the shell, read-only pipelines, tool probing,
      [std::hash], directory enumeration order) as a record of oracles
      [Env], because none of it is code of this repository;
    - the control flow (early returns, [std::runtime_error] thrown by
      [exec_cmd_strict] and caught in [main], and the end of the process
      in [std::terminate]) as a small state-and-error monad over a
      [World] holding the filesystem and the event history;
    - the [Spinner] of fetch, extract and patch by what it does to the
      control flow: the class has no destructor, so a function that
      leaves its scope before [sp.stop()] destroys a joinable
      [std::thread], which ends the process ([spinner]).

    Not modelled: the frames the spinner thread draws and terminal
    colours; the log file is kept as the event history instead of a file
    of the modelled filesystem.  Paths are strings and compared as such:
    the filesystem map is meant to hold normalised paths ([Path.normal]),
    and creating directories and walking a directory are modelled where
    they succeed. *)

From stdpp Require Import gmap strings list fin_maps sorting pretty.
From Stdlib Require Import String Ascii ZArith.

Open Scope string_scope.
Open Scope list_scope.
Open Scope Z_scope.

(** ** Strings as the code uses them *)

Module Str.

(** The set [" \t\r\n"] of [find_first_not_of]/[find_last_not_of]. *)
Definition is_trim_ws (c : ascii) : bool :=
  match nat_of_ascii c with
  | 32%nat | 9%nat | 13%nat | 10%nat => true
  | _ => false
  end.

(** [::isspace] in the C locale: space, \t, \n, \v, \f, \r. *)
Definition isspace (c : ascii) : bool :=
  match nat_of_ascii c with
  | 32%nat | 9%nat | 10%nat | 11%nat | 12%nat | 13%nat => true
  | _ => false
  end.

Fixpoint drop_ws (s : string) : string :=
  match s with
  | String c s' => if is_trim_ws c then drop_ws s' else s
  | EmptyString => EmptyString
  end.

(** [t.erase(0, t.find_first_not_of(ws)); t.erase(t.find_last_not_of(ws)+1)] *)
Definition trim (s : string) : string :=
  String.rev (drop_ws (String.rev (drop_ws s))).

(** [s.erase(std::remove_if(s.begin(), s.end(), ::isspace), s.end())] *)
Fixpoint remove_spaces (s : string) : string :=
  match s with
  | String c s' => if isspace c then remove_spaces s' else String c (remove_spaces s')
  | EmptyString => EmptyString
  end.

(** The items read by [while (std::getline(ss, item, sep))]: the text
    between separators; nothing is read after a final separator or
    from an empty stream. *)
Fixpoint getlines (sep : ascii) (cur : string) (s : string) : list string :=
  match s with
  | EmptyString => if decide (cur = "") then [] else [cur]
  | String c s' =>
      if decide (c = sep) then cur :: getlines sep "" s'
      else getlines sep (cur +:+ String c "") s'
  end.

Definition starts_with (p s : string) : bool := String.prefix p s.

(** [s.find(sub) != npos] *)
Definition contains (sub s : string) : bool :=
  match String.index 0 sub s with Some _ => true | None => false end.

(** [s.size() >= n && s.substr(s.size()-n) == suf], [n] the size of [suf] *)
Definition ends_with (suf s : string) : bool :=
  String.prefix (String.rev suf) (String.rev s).

(** Position just after the last occurrence of [c], if any
    ([find_last_of(c)] followed by [substr(pos+1)]). *)
Fixpoint after_last (c : ascii) (s : string) : option string :=
  match s with
  | EmptyString => None
  | String a s' =>
      match after_last c s' with
      | Some r => Some r
      | None => if decide (a = c) then Some s' else None
      end
  end.

(** The text before the last occurrence of [c], if any. *)
Fixpoint before_last (c : ascii) (s : string) : option string :=
  match s with
  | EmptyString => None
  | String a s' =>
      match before_last c s' with
      | Some r => Some (String a r)
      | None => if decide (a = c) then Some "" else None
      end
  end.

Definition take (n : nat) (s : string) : string := String.substring 0 n s.

(** The one-character string "\n". *)
Definition nl : string := String (ascii_of_nat 10) "".

(** The escape character of the ANSI sequences. *)
Definition esc : string := String (ascii_of_nat 27) "".

(** [s.find(c)] with the two sides [substr(0,at)] and [substr(at+1)]. *)
Fixpoint split_at_first (c : ascii) (s : string) : option (string * string) :=
  match s with
  | EmptyString => None
  | String a s' =>
      if decide (a = c) then Some ("", s')
      else match split_at_first c s' with
           | Some (l, r) => Some (String a l, r)
           | None => None
           end
  end.

End Str.

(** ** [std::filesystem] paths and the filesystem *)

Inductive node :=
| Dir
| File (content : string).

#[global] Instance node_eq_dec : EqDecision node.
Proof. solve_decision. Defined.

Module Path.

Definition is_absolute (p : string) : bool := Str.starts_with "/" p.

(** [a / b]: an absolute [b] replaces [a]; otherwise the two are joined
    by one separator. *)
Definition join (a b : string) : string :=
  if is_absolute b then b
  else if bool_decide (a = "") then b
  else if Str.ends_with "/" a then a +:+ b
  else a +:+ "/" +:+ b.

Definition filename (p : string) : string :=
  match Str.after_last "/" p with Some f => f | None => p end.

Definition parent_path (p : string) : string :=
  match Str.before_last "/" p with Some d => d | None => "" end.

(** [path::extension()]: from the last dot of the filename, except for
    a filename that starts with its only dot, and for "." and "..". *)
Definition extension (p : string) : string :=
  let f := filename p in
  if decide (f = "." ∨ f = "..") then ""
  else match Str.before_last "." f, Str.after_last "." f with
       | Some stem, Some e => if decide (stem = "") then "" else "." +:+ e
       | _, _ => ""
       end.

Definition stem_path (p : string) : string :=
  Str.take (String.length p - String.length (extension p)) p.

(** [p.replace_extension(ext)], [ext] given with its dot. *)
Definition replace_extension (p ext : string) : string :=
  stem_path p +:+ ext.

(** [p] lies strictly below directory [d]. *)
Definition under (d p : string) : bool := Str.starts_with (d +:+ "/") p.

(** The components of [p] between separators, the empty ones included. *)
Fixpoint components (cur : string) (p : string) : list string :=
  match p with
  | EmptyString => [cur]
  | String ch p' =>
      if decide (ch = "/"%char) then cur :: components "" p'
      else components (cur +:+ String ch "") p'
  end.

(** A path as the filesystem map keys it: not empty, no trailing or
    doubled separator, no [.] or [..] component.  Only on such paths do
    string equality and string prefix agree with what [std::filesystem]
    resolves. *)
Definition normal (p : string) : bool :=
  negb (bool_decide (p = ""))
  && match components "" p with
     | first :: rest =>
         negb (bool_decide (first = ".")) && negb (bool_decide (first = ".."))
         && negb (bool_decide (first = "" ∧ rest = []))
         && forallb (λ x, negb (bool_decide (x = "")) && negb (bool_decide (x = "."))
                          && negb (bool_decide (x = ".."))) rest
     | [] => false
     end.

End Path.

Module FS.

Definition exists_ (p : string) (fs : gmap string node) : bool :=
  bool_decide (is_Some (fs !! p)).

Definition is_directory (p : string) (fs : gmap string node) : bool :=
  bool_decide (fs !! p = Some Dir).

Definition is_regular_file (p : string) (fs : gmap string node) : bool :=
  match fs !! p with Some (File _) => true | _ => false end.

Definition has_entries (d : string) (fs : gmap string node) : bool :=
  negb (bool_decide (map_Forall (λ k _, Path.under d k = false) fs)).

(** [fs::is_empty(p)] on an existing path: a directory without entries
    or a file of size zero. *)
Definition is_empty (p : string) (fs : gmap string node) : bool :=
  match fs !! p with
  | Some (File c) => bool_decide (c = "")
  | _ => negb (has_entries p fs)
  end.

(** [fs::remove_all(p)]: [p] and everything below it. *)
Definition remove_all (p : string) (fs : gmap string node) : gmap string node :=
  filter (λ kv, kv.1 ≠ p ∧ Path.under p kv.1 = false) fs.

(** [fs::remove(p, ec)]: a file or an empty directory; any error
    (non-empty directory) is swallowed by [ec]. *)
Definition remove (p : string) (fs : gmap string node) : gmap string node :=
  match fs !! p with
  | Some (File _) => delete p fs
  | Some Dir => if has_entries p fs then fs else delete p fs
  | None => fs
  end.

(** The proper ancestors of [p] and [p] itself, outermost first. *)
Fixpoint chain (cur : string) (s : string) : list string :=
  match s with
  | EmptyString => if decide (cur = "") then [] else [cur]
  | String c s' =>
      if decide (c = "/"%char)
      then (if decide (cur = "") then [] else [cur]) ++ chain (cur +:+ "/") s'
      else chain (cur +:+ String c "") s'
  end.

Definition mkdir (fs : gmap string node) (p : string) : gmap string node :=
  match fs !! p with Some _ => fs | None => <[p := Dir]> fs end.

(** [fs::create_directories(p)] *)
Definition create_directories (p : string) (fs : gmap string node) : gmap string node :=
  foldl mkdir fs (chain "" p).

(** [std::ofstream out(p); out << text;]: fails when the parent is not
    a directory, else creates or truncates [p]. *)
Definition write_file (p text : string) (fs : gmap string node) : option (gmap string node) :=
  if is_directory (Path.parent_path p) fs && negb (is_directory p fs)
  then Some (<[p := File text]> fs) else None.

(** Keys strictly below [d], in the map's own order. *)
Definition below (d : string) (fs : gmap string node) : list string :=
  List.filter (Path.under d) (map_to_list fs).*1.

(** Direct children of [d]. *)
Definition children (d : string) (fs : gmap string node) : list string :=
  List.filter (λ k, bool_decide (Path.parent_path k = d)) (below d fs).

End FS.


(** ** The world a stage runs in *)

Inductive level := INFO | OK | WARN | ERR.

(** What a run leaves behind, oldest first: the lines handed to the
    [Logger], every command line given to [exec_cmd]'s [popen], and the
    text written to [std::cout]. *)
Inductive event :=
| Log (lv : level) (msg : string)
| Spawn (cmd : string)
| Stdout (text : string).

#[global] Instance level_eq_dec : EqDecision level.
Proof. solve_decision. Defined.

#[global] Instance event_eq_dec : EqDecision event.
Proof. solve_decision. Defined.

Record World := mkWorld {
  files : gmap string node;
  events : list event
}.

(** How [popen(cmd + " 2>&1")] ... [pclose] ended. *)
Inductive proc :=
| PopenFail
| WaitFail (after : gmap string node)
| Exited (code : Z) (after : gmap string node).

(** The collaborators outside the repository. *)
Record Env := mkEnv {
  (** a command line run by [exec_cmd] on a filesystem *)
  sh : string → gmap string node → proc;
  (** the chunks [fgets] returns from a read-only pipeline opened with
      [popen(cmd, "r")]; [None] when [popen] fails *)
  popen_read : string → gmap string node → option (list string);
  (** the status of [system(cmd)] for the probing commands *)
  system_rc : string → gmap string node → Z;
  (** [std::hash<std::string>] *)
  str_hash : string → N;
  (** the order in which a directory iterator hands out a set of entries *)
  iter_order : list string → list string
}.

(** A computation returns, throws [std::runtime_error], or ends the
    process in [std::terminate]. *)
Inductive result (A : Type) :=
| Done (a : A)
| Thrown (what : string)
| Aborted.
Arguments Done {A} a.
Arguments Thrown {A} what.
Arguments Aborted {A}.

Definition M (A : Type) : Type := World → result A * World.

Definition ret {A} (a : A) : M A := λ w, (Done a, w).

Definition throw {A} (what : string) : M A := λ w, (Thrown what, w).

Definition bind {A B} (m : M A) (k : A → M B) : M B :=
  λ w, match m w with
       | (Done a, w') => k a w'
       | (Thrown e, w') => (Thrown e, w')
       | (Aborted, w') => (Aborted, w')
       end.

Notation "x <- m ;; k" := (bind m (λ x, k))
  (at level 100, m at next level, right associativity).
Notation "m ;;; k" := (bind m (λ _, k))
  (at level 100, right associativity).

Definition get_fs : M (gmap string node) := λ w, (Done (files w), w).

Definition modify_fs (f : gmap string node → gmap string node) : M unit :=
  λ w, (Done tt, mkWorld (f (files w)) (events w)).

Definition emit (e : event) : M unit :=
  λ w, (Done tt, mkWorld (files w) (events w ++ [e])).

Definition log (lv : level) (msg : string) : M unit := emit (Log lv msg).

(** The commands a world has seen, in order. *)
Definition spawned (w : World) : list string :=
  omap (λ e, match e with Spawn c => Some c | _ => None end) (events w).

Definition logged (lv : level) (w : World) : list string :=
  omap (λ e, match e with
             | Log l m => if decide (l = lv) then Some m else None
             | _ => None
             end) (events w).

(** How a function that has started its [Spinner] comes to its end:
    through [sp.stop()] and the [return] after it, or through an earlier
    [return] while the thread is still running. *)
Inductive leave (A : Type) :=
| Stopped (a : A)
| Running (a : A).
Arguments Stopped {A} a.
Arguments Running {A} a.

(** [Spinner sp; sp.start(...); body]: [Spinner] has no destructor, so
    when the scope is left with the thread still joinable (by an early
    [return], or by an exception passing through) [std::thread]'s
    destructor calls [std::terminate]. *)
Definition spinner {A} (body : M (leave A)) : M A :=
  λ w, match body w with
       | (Done (Stopped a), w') => (Done a, w')
       | (Done (Running _), w') => (Aborted, w')
       | (Thrown _, w') => (Aborted, w')
       | (Aborted, w') => (Aborted, w')
       end.

(** What [main] turns a stage into: the stage's own status, or 100 for
    an exception caught by the umbrella handler.  A process ended by
    [std::terminate] dies of SIGABRT, which a shell reports as 134. *)
Definition exit_status (r : result Z) : Z :=
  match r with Done rc => rc | Thrown _ => 100 | Aborted => 134 end.

(** ** Configuration and recipes *)

Record Config := mkConfig {
  base : string; recipes : string; sources : string; work : string;
  destroot : string; logs : string; repo : string; snapshots : string
}.

(** [make_default_config] for a given base directory. *)
Definition make_default_config (b : string) : Config :=
  mkConfig b (Path.join b "recipes") (Path.join b "sources") (Path.join b "work")
           (Path.join b "destdir") (Path.join b "logs") (Path.join b "repo")
           (Path.join b "snapshots").

Record Recipe := mkRecipe {
  name : string; version : string; url : string; sha256 : string;
  vcs : string; patches : string; postremove : string;
  strip : bool; submodules : bool;
  prebuild : string; configure : string; prepare : string;
  build : string; install : string; postinstall : string
}.

(** [Recipe::split_list]: comma-separated, trimmed, empty items dropped. *)
Definition split_list (s : string) : list string :=
  List.filter (λ t, negb (bool_decide (t = ""))) (Str.trim <$> Str.getlines "," "" s).

Definition name_version (r : Recipe) : string := name r +:+ "-" +:+ version r.

Definition recipe_dir (c : Config) (nm : string) : string := Path.join (recipes c) nm.

Definition recipe_ini (c : Config) (nm : string) : string :=
  Path.join (recipe_dir c nm) "recipe.ini".

(** [source_paths]: one destination per listed URL, named after the
    URL's last segment. *)
Definition source_paths (c : Config) (r : Recipe) : list string :=
  let urls := split_list (url r) in
  match urls with
  | [] => if negb (bool_decide (vcs r = "")) then []
          else [Path.join (sources c) (name_version r +:+ ".tar")]
  | _ => (λ u, Path.join (sources c)
                 (match Str.after_last "/" u with
                  | None => name_version r +:+ ".tar.gz"
                  | Some f => f
                  end)) <$> urls
  end.

Definition work_dir (c : Config) (r : Recipe) : string :=
  Path.join (work c) (name_version r).

Definition destdir_pkg (c : Config) (r : Recipe) : string :=
  Path.join (destroot c) (name_version r).

Definition install_manifest (c : Config) (r : Recipe) : string :=
  Path.join (logs c) (name_version r +:+ ".manifest").

Definition snapshot_tar (c : Config) (r : Recipe) : string :=
  Path.join (snapshots c) (name_version r +:+ ".tar.zst").

(** [is_elf]: the first four bytes are 0x7f 'E' 'L' 'F'. *)
Definition elf_magic : string := String (ascii_of_nat 127) "ELF".

Definition is_elf (p : string) (fs : gmap string node) : bool :=
  match fs !! p with
  | Some (File c) => Str.starts_with elf_magic c
  | _ => false
  end.

Definition required_tools : list string :=
  ["curl"; "git"; "tar"; "patch"; "sha256sum"; "ldd"; "strip"; "unzip"; "xz"; "gzip"].

Definition is_url (s : string) : bool :=
  Str.starts_with "http://" s || Str.starts_with "https://" s.

Definition is_git (s : string) : bool := Str.starts_with "git:" s.

(** [s.substr(n)] *)
Definition drop_str (n : nat) (s : string) : string :=
  String.substring n (String.length s - n) s.

Section Pipeline.

Variable E : Env.

(** [exec_cmd] *)
Definition exec_cmd (cmd : string) : M Z :=
  log INFO ("$ " +:+ cmd) ;;;
  emit (Spawn cmd) ;;;
  fs <- get_fs ;;
  match sh E cmd fs with
  | PopenFail => log ERR ("Falha ao executar: " +:+ cmd) ;;; ret 127
  | WaitFail fs' => modify_fs (λ _, fs') ;;; ret 127
  | Exited code fs' =>
      modify_fs (λ _, fs') ;;;
      (if decide (code = 0) then log OK "rc=0" else log ERR ("rc=" +:+ pretty code)) ;;;
      ret code
  end.

(** [exec_cmd_strict] *)
Definition exec_cmd_strict (cmd ctx : string) : M unit :=
  rc <- exec_cmd cmd ;;
  if decide (rc ≠ 0)
  then throw ("Falha em: " +:+ (if decide (ctx = "") then cmd else ctx)
              +:+ " (rc=" +:+ pretty rc +:+ ")")
  else ret tt.

(** [system(cmd)] for a probe: read-only. *)
Definition probe (cmd : string) : M Z :=
  fs <- get_fs ;; ret (system_rc E cmd fs).

(** [check_tools] *)
Fixpoint check_tools (strict : bool) (tools : list string) : M unit :=
  match tools with
  | [] => ret tt
  | t :: rest =>
      rc <- probe ("command -v " +:+ t +:+ " >/dev/null 2>&1") ;;
      (if decide (rc ≠ 0)
       then (if strict then throw ("Ferramenta ausente: " +:+ t)
             else log WARN ("Ferramenta ausente: " +:+ t))
       else ret tt) ;;;
      check_tools strict rest
  end.

(** [sha256_file]: the first chunk of the digest pipeline, spaces removed. *)
Definition sha256_cmd (p : string) : string :=
  "sha256sum '" +:+ p +:+ "' | awk '{print $1}'".

Definition sha256_file (p : string) (fs : gmap string node) : string :=
  match popen_read E (sha256_cmd p) fs with
  | None => ""
  | Some chunks => Str.remove_spaces (default "" (head chunks))
  end.

Definition curl_cmd (dst u : string) : string :=
  "curl -L --fail -o '" +:+ dst +:+ "' '" +:+ u +:+ "'".

(** The loop body of [cmd_fetch], first half: download unless the
    destination is there.  [Some rc] is an early [return rc], [None]
    goes on. *)
Definition obtain (dst u : string) : M (option Z) :=
  fs <- get_fs ;;
  if negb (FS.exists_ dst fs)
  then rc <- exec_cmd (curl_cmd dst u) ;; ret (if decide (rc ≠ 0) then Some rc else None)
  else log INFO ("Fonte já presente: " +:+ dst) ;;; ret None.

(** The loop body of [cmd_fetch], second half: compare the digest with
    the checksum declared at the same index, if there is one. *)
Definition verify (sums : list string) (i : nat) (dst : string) : M (option Z) :=
  match sums !! i with
  | Some sum =>
      if negb (bool_decide (sum = "")) then
        fs <- get_fs ;;
        let got := sha256_file dst fs in
        if decide (got ≠ sum)
        then log ERR ("sha256 diferente: " +:+ got +:+ " != " +:+ sum) ;;; ret (Some 3)
        else log OK ("sha256 ok: " +:+ Path.filename dst) ;;; ret None
      else ret None
  | None => ret None
  end.

(** One turn of the loop of [cmd_fetch] over the source indices;
    [source_paths(c,r).at(i)] throws when out of range. *)
Definition fetch_one (c : Config) (r : Recipe) (sums : list string)
    (i : nat) (u : string) : M (option Z) :=
  match source_paths c r !! i with
  | None => throw "vector::at"
  | Some dst =>
      o <- obtain dst u ;;
      match o with
      | Some rc => ret (Some rc)
      | None => verify sums i dst
      end
  end.

Fixpoint fetch_loop (c : Config) (r : Recipe) (sums : list string)
    (i : nat) (urls : list string) : M (option Z) :=
  match urls with
  | [] => ret None
  | u :: rest =>
      o <- fetch_one c r sums i u ;;
      match o with
      | Some rc => ret (Some rc)
      | None => fetch_loop c r sums (S i) rest
      end
  end.

Definition git_dir (c : Config) (r : Recipe) : string :=
  Path.join (sources c) (name r +:+ "-git").

(** [cmd_fetch] *)
Definition cmd_fetch (c : Config) (r : Recipe) : M Z :=
  check_tools true required_tools ;;;
  modify_fs (FS.create_directories (sources c)) ;;;
  spinner
    (o <- fetch_loop c r (split_list (sha256 r)) 0 (split_list (url r)) ;;
     match o with
     | Some rc => ret (Running rc)
     | None =>
         if negb (bool_decide (vcs r = "")) && Str.starts_with "git:" (vcs r) then
           let u := drop_str 4 (vcs r) in
           let d := git_dir c r in
           fs <- get_fs ;;
           rc <- (if negb (FS.exists_ d fs)
                  then exec_cmd ("git clone '" +:+ u +:+ "' '" +:+ d +:+ "'")
                  else rc <- exec_cmd ("git -C '" +:+ d +:+ "' fetch --all --tags") ;;
                       (if submodules r
                        then exec_cmd ("git -C '" +:+ d +:+ "' submodule update --init --recursive") ;;; ret tt
                        else ret tt) ;;;
                       ret rc) ;;
           if decide (rc ≠ 0) then ret (Running rc) else ret (Stopped rc)
         else ret (Stopped 0)
     end).

(** [extract_one]: dispatch on the artifact's name. *)
Definition extract_one (src dst : string) : M Z :=
  let s := src in
  if Str.ends_with ".zip" s then
    exec_cmd ("unzip -qq '" +:+ s +:+ "' -d '" +:+ dst +:+ "'")
  else if Str.contains ".tar.gz" s || Str.contains ".tgz" s then
    exec_cmd ("tar -xzf '" +:+ s +:+ "' -C '" +:+ dst +:+ "' --strip-components=1")
  else if Str.contains ".tar.xz" s then
    exec_cmd ("tar -xJf '" +:+ s +:+ "' -C '" +:+ dst +:+ "' --strip-components=1")
  else if Str.contains ".tar.bz2" s then
    exec_cmd ("tar -xjf '" +:+ s +:+ "' -C '" +:+ dst +:+ "' --strip-components=1")
  else if Str.ends_with ".xz" s then
    exec_cmd ("mkdir -p '" +:+ (dst +:+ "/.tmpx") +:+ "' && xz -dc '" +:+ s +:+ "' > '"
              +:+ (dst +:+ "/.tmpx/arch") +:+ "' && tar -xf '" +:+ (dst +:+ "/.tmpx/arch")
              +:+ "' -C '" +:+ dst +:+ "' --strip-components=1 && rm -rf '"
              +:+ (dst +:+ "/.tmpx") +:+ "'")
  else if Str.ends_with ".gz" s then
    exec_cmd ("mkdir -p '" +:+ (dst +:+ "/.tmpg") +:+ "' && gzip -dc '" +:+ s +:+ "' > '"
              +:+ (dst +:+ "/.tmpg/arch") +:+ "' && tar -xf '" +:+ (dst +:+ "/.tmpg/arch")
              +:+ "' -C '" +:+ dst +:+ "' --strip-components=1 && rm -rf '"
              +:+ (dst +:+ "/.tmpg") +:+ "'")
  else
    exec_cmd ("tar -xf '" +:+ s +:+ "' -C '" +:+ dst +:+ "' --strip-components=1").

(** The loop of [cmd_extract] over the source artifacts. *)
Fixpoint extract_loop (dst : string) (srcs : list string) : M (option Z) :=
  match srcs with
  | [] => ret None
  | src :: rest =>
      fs <- get_fs ;;
      if negb (FS.exists_ src fs)
      then log ERR ("Fonte não encontrada: " +:+ src) ;;; ret (Some 4)
      else rc <- extract_one src dst ;;
           if decide (rc ≠ 0) then ret (Some rc) else extract_loop dst rest
  end.

(** [cmd_extract] *)
Definition cmd_extract (c : Config) (r : Recipe) : M Z :=
  modify_fs (FS.create_directories (work c)) ;;;
  let dst := work_dir c r in
  fs <- get_fs ;;
  (if FS.exists_ dst fs
   then log WARN ("Removendo work antigo: " +:+ dst) ;;; modify_fs (FS.remove_all dst)
   else ret tt) ;;;
  modify_fs (FS.create_directories dst) ;;;
  let srcs := source_paths c r in
  spinner
    match srcs with
    | _ :: _ =>
        o <- extract_loop dst srcs ;;
        match o with Some rc => ret (Running rc) | None => ret (Stopped 0) end
    | [] =>
        if negb (bool_decide (vcs r = "")) && Str.starts_with "git:" (vcs r) then
          rc <- exec_cmd ("cp -a '" +:+ git_dir c r +:+ "'/. '" +:+ dst +:+ "/'") ;;
          if decide (rc ≠ 0) then ret (Running rc)
          else (if submodules r
                then exec_cmd ("git -C '" +:+ dst +:+ "' submodule update --init --recursive") ;;; ret tt
                else ret tt) ;;;
               ret (Stopped 0)
        else log ERR "Nada para extrair (sem arquivo fonte nem VCS)" ;;; ret (Running 4)
    end.

(** [ensure_git_repo] *)
Definition ensure_git_repo (wd : string) : M unit :=
  fs <- get_fs ;;
  if negb (FS.exists_ (Path.join wd ".git") fs) then
    exec_cmd_strict ("git -C '" +:+ wd +:+ "' init") "git init" ;;;
    exec_cmd ("git -C '" +:+ wd +:+ "' add -A") ;;;
    exec_cmd ("git -C '" +:+ wd +:+ "' -c user.email=cbuild@local -c user.name=cbuild commit -m base || true") ;;;
    ret tt
  else ret tt.

Definition git_am_cmd (patch wd : string) : string :=
  "bash -lc 'cd " +:+ wd +:+ " && git am --3way --keep-cr " +:+ patch +:+ "'".

Definition patch_cmd (lvl patch wd : string) : string :=
  "patch -d '" +:+ wd +:+ "' -p" +:+ lvl +:+ " < '" +:+ patch +:+ "'".

(** [apply_patch_file]: [git am], then [patch -p1], then [patch -p0]. *)
Definition apply_patch_file (patch wd : string) : M Z :=
  rc <- exec_cmd (git_am_cmd patch wd) ;;
  if decide (rc = 0) then ret 0
  else
    rc <- exec_cmd (patch_cmd "1" patch wd) ;;
    if decide (rc ≠ 0) then exec_cmd (patch_cmd "0" patch wd) else ret rc.

Fixpoint apply_patch_files (files : list string) (wd : string) : M Z :=
  match files with
  | [] => ret 0
  | p :: rest =>
      rc <- apply_patch_file p wd ;;
      if decide (rc ≠ 0) then ret rc else apply_patch_files rest wd
  end.

Definition is_patch_ext (p : string) : bool :=
  let ext := Path.extension p in
  bool_decide (ext = ".patch") || bool_decide (ext = ".diff") || bool_decide (ext = ".mbox").

(** [apply_patches_from_dir]: the regular files of [dir] with a patch
    extension, sorted by name, applied in that order. *)
Definition patch_files_of_dir (dir : string) (fs : gmap string node) : list string :=
  merge_sort String.le
    (List.filter (λ p, FS.is_regular_file p fs && is_patch_ext p)
                 (iter_order E (FS.children dir fs))).

Definition apply_patches_from_dir (dir wd : string) : M Z :=
  fs <- get_fs ;;
  apply_patch_files (patch_files_of_dir dir fs) wd.

Definition tmpref : string := "refs/tmp/cbuild".

(** [cherry_pick_ref] *)
Definition cherry_pick_ref (repo_url refspec wd : string) : M Z :=
  exec_cmd_strict ("git -C '" +:+ wd +:+ "' fetch '" +:+ repo_url +:+ "' '"
                   +:+ refspec +:+ ":" +:+ tmpref +:+ "'") ("git fetch " +:+ refspec) ;;;
  rc <- exec_cmd ("bash -lc 'cd " +:+ wd +:+ " && git cherry-pick -x " +:+ tmpref +:+ "'") ;;
  exec_cmd ("git -C '" +:+ wd +:+ "' update-ref -d " +:+ tmpref) ;;;
  ret rc.

(** One entry of the patch list, already trimmed and non-empty. *)
Definition patch_entry (c : Config) (r : Recipe) (wd t : string) : M Z :=
  if is_git t then
    let rest := drop_str 4 t in
    match Str.split_at_first "@" rest with
    | None => log ERR ("patch git sem @ref: " +:+ t) ;;; ret 6
    | Some (u, ref) => cherry_pick_ref u ref wd
    end
  else if is_url t then
    let pf := Path.join (sources c) (name r +:+ "-" +:+ pretty (str_hash E t) +:+ ".patch") in
    rc <- exec_cmd (curl_cmd pf t) ;;
    if decide (rc ≠ 0) then ret rc else apply_patch_file pf wd
  else
    let p := if Path.is_absolute t then t else Path.join (recipe_dir c (name r)) t in
    fs <- get_fs ;;
    if negb (FS.exists_ p fs) then log ERR ("Patch não encontrado: " +:+ p) ;;; ret 6
    else if FS.is_directory p fs then apply_patches_from_dir p wd
    else apply_patch_file p wd.

(** The entries of [r.patches] the loop of [cmd_patch] acts on; the
    loop's status is that of the first entry that fails ([return rc]
    inside the loop), 0 when it runs to its end. *)
Definition patch_entries (r : Recipe) : list string := split_list (patches r).

Fixpoint patch_loop (c : Config) (r : Recipe) (wd : string) (ts : list string) : M Z :=
  match ts with
  | [] => ret 0
  | t :: rest =>
      rc <- patch_entry c r wd t ;;
      if decide (rc ≠ 0) then ret rc else patch_loop c r wd rest
  end.

(** [cmd_patch] *)
Definition cmd_patch (c : Config) (r : Recipe) : M Z :=
  if bool_decide (patches r = "") then log INFO "Sem patches" ;;; ret 0
  else
    let wd := work_dir c r in
    fs <- get_fs ;;
    if negb (FS.exists_ wd fs)
    then log ERR "work inexistente, rode extract primeiro" ;;; ret 5
    else
      ensure_git_repo wd ;;;
      spinner
        (rc <- patch_loop c r wd (patch_entries r) ;;
         if decide (rc ≠ 0) then ret (Running rc) else ret (Stopped 0)).

(** [run_step] *)
Definition run_step (label wd cmd : string) : M Z :=
  if bool_decide (cmd = "") then log INFO (label +:+ ": (vazio)") ;;; ret 0
  else exec_cmd ("bash -lc 'cd " +:+ wd +:+ " && set -e; " +:+ cmd +:+ "'").

(** [fakeroot_if_available] *)
Definition fakeroot_if_available : M string :=
  rc <- probe "command -v fakeroot >/dev/null 2>&1" ;;
  ret (if decide (rc = 0) then "fakeroot " else "").

(** [fs::relative(p, dest)] for [p] below [dest]. *)
Definition relative (p dest : string) : string :=
  drop_str (String.length dest + 1) p.

(** What [fs::recursive_directory_iterator(dest)] hands out. *)
Definition walk (dest : string) (fs : gmap string node) : list string :=
  iter_order E (FS.below dest fs).

(** [collect_manifest] *)
Definition manifest_text (dest : string) (fs : gmap string node) : string :=
  String.concat ""
    ((λ p, relative p dest +:+ Str.nl) <$>
       List.filter (λ p, FS.is_regular_file p fs) (walk dest fs)).

Definition collect_manifest (dest manifest : string) : M Z :=
  fs <- get_fs ;;
  match FS.write_file manifest "" fs with
  | None => ret 1
  | Some fs0 =>
      modify_fs (λ _, <[manifest := File (manifest_text dest fs0)]> fs0) ;;; ret 0
  end.

(** [strip_binaries] *)
Fixpoint strip_loop (rc : Z) (ps : list string) : M Z :=
  match ps with
  | [] => ret rc
  | p :: rest =>
      fs <- get_fs ;;
      if FS.is_regular_file p fs && is_elf p fs
      then rc' <- exec_cmd ("strip --strip-unneeded '" +:+ p +:+ "' || true") ;;
           strip_loop (Z.lor rc rc') rest
      else strip_loop rc rest
  end.

Definition strip_binaries (dest : string) : M Z :=
  fs <- get_fs ;; strip_loop 0 (walk dest fs).

(** [cmd_build_all] *)
Definition cmd_build_all (c : Config) (r : Recipe) : M Z :=
  let wd := work_dir c r in
  fs <- get_fs ;;
  if negb (FS.exists_ wd fs) then log ERR "work inexistente, rode extract/patch" ;;; ret 7
  else
    rc <- run_step "prebuild" wd (prebuild r) ;;
    if decide (rc ≠ 0) then ret rc else
    rc <- run_step "prepare" wd (prepare r) ;;
    if decide (rc ≠ 0) then ret rc else
    rc <- run_step "configure" wd (configure r) ;;
    if decide (rc ≠ 0) then ret rc else
    rc <- run_step "build" wd (build r) ;;
    if decide (rc ≠ 0) then ret rc else ret 0.

Definition zstd_probe : string := "command -v zstd >/dev/null 2>&1".

(** The gzip sibling of the snapshot: [snap.replace_extension(".tar.gz")]. *)
Definition gz_of (snap : string) : string := Path.replace_extension snap ".tar.gz".

Definition snapshot_zstd_cmd (dest snap : string) : string :=
  "bash -lc 'cd " +:+ dest +:+ " && tar -cf - . " +:+ (" | zstd -cq > '" +:+ snap +:+ "'") +:+ "'".

Definition snapshot_gzip_cmd (dest snap : string) : string :=
  "bash -lc 'cd " +:+ dest +:+ " && tar -czf " +:+ gz_of snap +:+ " .'".

(** [make_snapshot] *)
Definition make_snapshot (dest snap : string) : M unit :=
  modify_fs (FS.create_directories (Path.parent_path snap)) ;;;
  has_zstd <- probe zstd_probe ;;
  fs <- get_fs ;;
  if FS.exists_ dest fs && negb (FS.is_empty dest fs) then
    if decide (has_zstd = 0)
    then exec_cmd_strict (snapshot_zstd_cmd dest snap) "snapshot zstd"
    else exec_cmd_strict (snapshot_gzip_cmd dest snap) "snapshot gzip"
  else ret tt.

(** The name [restore_snapshot] looks for besides [snap]:
    [snap.parent_path() / (filename.substr(0, size-4) + ".tar.gz")]. *)
Definition gz_probe_of (snap : string) : string :=
  let f := Path.filename snap in
  Path.join (Path.parent_path snap)
            ((if decide (String.length f < 4)%nat then f else Str.take (String.length f - 4) f)
             +:+ ".tar.gz").

Definition restore_zstd_cmd (dest snap : string) : string :=
  "bash -lc 'cd " +:+ dest +:+ " && zstd -dc < " +:+ snap +:+ " | tar -xf -'".

Definition restore_gzip_cmd (dest snap : string) : string :=
  "bash -lc 'cd " +:+ dest +:+ " && tar -xzf " +:+ gz_of snap +:+ "'".

(** [restore_snapshot] *)
Definition restore_snapshot (dest snap : string) : M unit :=
  fs <- get_fs ;;
  if negb (FS.exists_ snap fs) && negb (FS.exists_ (gz_probe_of snap) fs) then ret tt
  else
    modify_fs (FS.remove_all dest) ;;;
    modify_fs (FS.create_directories dest) ;;;
    has_zstd <- probe zstd_probe ;;
    fs' <- get_fs ;;
    if bool_decide (has_zstd = 0) && FS.exists_ snap fs'
    then exec_cmd_strict (restore_zstd_cmd dest snap) "restore zstd"
    else if FS.exists_ (gz_of snap) fs'
         then exec_cmd_strict (restore_gzip_cmd dest snap) "restore gzip"
         else ret tt.

(** [ensure_destdir_in_install] *)
Definition ensure_destdir_in_install (cmd : string) : string :=
  if Str.contains "DESTDIR=" cmd then cmd else cmd +:+ " DESTDIR=${DESTDIR}".

Definition install_cmd (wd fr dest hook : string) : string :=
  "bash -lc 'cd " +:+ wd +:+ " && " +:+ fr +:+ " DESTDIR=" +:+ dest +:+ " " +:+ hook +:+ "'".

Definition install_hook (r : Recipe) : string :=
  ensure_destdir_in_install (if bool_decide (install r = "") then "make install" else install r).

(** [cmd_install] from the install hook on: what follows the snapshot. *)
Definition install_body (c : Config) (r : Recipe) : M Z :=
  let wd := work_dir c r in
  let dest := destdir_pkg c r in
  let snap := snapshot_tar c r in
  fr <- fakeroot_if_available ;;
  rc <- exec_cmd (install_cmd wd fr dest (install_hook r)) ;;
  if decide (rc ≠ 0) then
    log ERR "Instalação falhou — restaurando snapshot" ;;;
    restore_snapshot dest snap ;;;
    ret rc
  else
    (if strip r then strip_binaries dest ;;; ret tt else ret tt) ;;;
    collect_manifest dest (install_manifest c r) ;;;
    rc <- run_step "postinstall" wd (postinstall r) ;;
    if decide (rc ≠ 0) then ret rc
    else log OK ("Instalado em DESTDIR: " +:+ dest) ;;; ret 0.

(** [cmd_install] *)
Definition cmd_install (c : Config) (r : Recipe) : M Z :=
  let dest := destdir_pkg c r in
  modify_fs (FS.remove_all dest) ;;;
  modify_fs (FS.create_directories dest) ;;;
  make_snapshot dest (snapshot_tar c r) ;;;
  install_body c r.

(** The lines of a manifest, as [std::getline] reads them. *)
Definition manifest_lines (manf : string) (fs : gmap string node) : list string :=
  match fs !! manf with
  | Some (File text) => Str.getlines "010" "" text
  | _ => []
  end.

(** [cmd_remove] *)
Definition cmd_remove (c : Config) (r : Recipe) : M Z :=
  let dest := destdir_pkg c r in
  let manf := install_manifest c r in
  let snap := snapshot_tar c r in
  make_snapshot dest snap ;;;
  fs <- get_fs ;;
  if FS.exists_ manf fs then
    modify_fs (λ fs, foldl (λ acc rel, FS.remove (Path.join dest rel) acc) fs (manifest_lines manf fs)) ;;;
    modify_fs (FS.remove_all dest) ;;;
    log OK ("Removido DESTDIR: " +:+ dest) ;;;
    (if negb (bool_decide (postremove r = "")) then exec_cmd (postremove r) ;;; ret tt else ret tt) ;;;
    ret 0
  else
    log WARN ("Manifesto não encontrado: " +:+ manf +:+ ", limpando DESTDIR") ;;;
    modify_fs (FS.remove_all dest) ;;;
    (if negb (bool_decide (postremove r = "")) then exec_cmd (postremove r) ;;; ret tt else ret tt) ;;;
    ret 0.

(** ** Reverse dependencies *)

Definition ldd_cmd (p : string) : string :=
  "ldd '" +:+ p +:+ "' | awk '{print $1}' | sed -e 's/://g'".

(** The library names read for one binary: each [fgets] chunk with its
    spaces removed, empty ones skipped. *)
Definition libs_of (p : string) (fs : gmap string node) : list string :=
  match popen_read E (ldd_cmd p) fs with
  | None => []
  | Some chunks =>
      List.filter (λ l, negb (bool_decide (l = ""))) (Str.remove_spaces <$> chunks)
  end.

(** [dep2bins[lib].insert(bin)] on [std::map<string, std::set<string>>] *)
Definition dep_insert (bin : string) (m : gmap string (gset string)) (lib : string)
    : gmap string (gset string) :=
  <[lib := {[bin]} ∪ default ∅ (m !! lib)]> m.

(** The body of the scanning loop for one directory entry. *)
Definition scan_entry (dest : string) (fs : gmap string node)
    (m : gmap string (gset string)) (p : string) : gmap string (gset string) :=
  if FS.is_regular_file p fs && is_elf p fs
  then foldl (dep_insert (relative p dest)) m (libs_of p fs)
  else m.

(** [dep2bins] after the loop over an enumeration [ps] of the root. *)
Definition dep2bins (dest : string) (fs : gmap string node) (ps : list string)
    : gmap string (gset string) :=
  foldl (scan_entry dest fs) ∅ ps.

(** In-order traversal of the ordered containers. *)
Definition sorted_elems (s : gset string) : list string :=
  merge_sort String.le (elements s).

Definition report (m : gmap string (gset string)) : list (string * list string) :=
  omap (λ k, (λ s, (k, sorted_elems s)) <$> m !! k) (sorted_elems (dom m)).

Definition ansi_bold : string := Str.esc +:+ "[1m".
Definition ansi_reset : string := Str.esc +:+ "[0m".

Definition report_line (kv : string * list string) : string :=
  ansi_bold +:+ kv.1 +:+ ansi_reset +:+ " <- " +:+ String.concat ", " kv.2 +:+ Str.nl.

Fixpoint print_all (ls : list string) : M unit :=
  match ls with
  | [] => ret tt
  | l :: rest => emit (Stdout l) ;;; print_all rest
  end.

(** [cmd_revdep] *)
Definition cmd_revdep (c : Config) (r : Recipe) : M Z :=
  let dest := destdir_pkg c r in
  fs <- get_fs ;;
  if negb (FS.exists_ dest fs) then log ERR ("DESTDIR inexistente: " +:+ dest) ;;; ret 1
  else
    print_all (report_line <$> report (dep2bins dest fs (walk dest fs))) ;;;
    ret 0.

End Pipeline.


(** ** The earlier prototype, [src/cbuild.cpp]

    Only the functions the properties below compare with: there is one
    source URL, the checksum is the whole [sha256] field, and a patch
    file is applied with [patch] alone. *)

Module Proto.

(** [source_path] *)
Definition source_path (c : Config) (r : Recipe) : string :=
  if negb (bool_decide (url r = "")) then
    Path.join (sources c)
      (match Str.after_last "/" (url r) with
       | None => name_version r +:+ ".tar.gz"
       | Some f => f
       end)
  else Path.join (sources c) (name_version r +:+ ".tar").

(** [apply_patch_file]: [patch -p1], then [patch -p0]. *)
Definition apply_patch_file (E : Env) (patch wd : string) : M Z :=
  rc <- exec_cmd E (patch_cmd "1" patch wd) ;;
  if decide (rc ≠ 0) then exec_cmd E (patch_cmd "0" patch wd) else ret rc.

(** [cmd_fetch] *)
Definition cmd_fetch (E : Env) (c : Config) (r : Recipe) : M Z :=
  modify_fs (FS.create_directories (sources c)) ;;;
  spinner (
  o <- (if negb (bool_decide (url r = "")) then
          let dst := source_path c r in
          fs <- get_fs ;;
          got <- (if negb (FS.exists_ dst fs)
                  then rc <- exec_cmd E (curl_cmd dst (url r)) ;;
                       ret (if decide (rc ≠ 0) then Some rc else None)
                  else log INFO ("Fonte já presente: " +:+ dst) ;;; ret None) ;;
          match got with
          | Some rc => ret (Some rc)
          | None =>
              if negb (bool_decide (sha256 r = "")) then
                fs' <- get_fs ;;
                let sum := sha256_file E dst fs' in
                if decide (sum ≠ sha256 r)
                then log ERR ("sha256 diferente: " +:+ sum +:+ " != " +:+ sha256 r) ;;;
                     ret (Some 3)
                else log OK "sha256 ok" ;;; ret None
              else ret None
          end
        else ret None) ;;
  match o with
  | Some rc => ret (Running rc)
  | None =>
      if negb (bool_decide (vcs r = "")) && Str.starts_with "git:" (vcs r) then
        let d := git_dir c r in
        fs <- get_fs ;;
        rc <- (if negb (FS.exists_ d fs)
               then exec_cmd E ("git clone '" +:+ drop_str 4 (vcs r) +:+ "' '" +:+ d +:+ "'")
               else exec_cmd E ("git -C '" +:+ d +:+ "' fetch --all --tags")) ;;
        if decide (rc ≠ 0) then ret (Running rc) else ret (Stopped rc)
      else ret (Stopped 0)
  end).

End Proto.

(** ** Recipes on disk: [Recipe::load], [cmd_init], [ensure_recipe] *)

Module Ini.

(** A default-constructed [Recipe]. *)
Definition blank : Recipe :=
  mkRecipe "" "" "" "" "" "" "" false false "" "" "" "" "" "".

Fixpoint drop_spaces (s : string) : string :=
  match s with
  | String ch s' => if Str.isspace ch then drop_spaces s' else s
  | EmptyString => EmptyString
  end.

(** No character of [s] is a line terminator: what [.*] can match. *)
Fixpoint no_line_end (s : string) : bool :=
  match s with
  | String ch s' =>
      negb (bool_decide (ch = "010"%char)) && negb (bool_decide (ch = "013"%char))
      && no_line_end s'
  | EmptyString => true
  end.

(** [std::regex_match(line, std::regex("\\s*\\[.*\\]\\s*"))] together
    with the text between the first '[' and the last ']', trimmed: the
    line is white space, '[', a run without line terminators, ']',
    white space. *)
Definition section_header (line : string) : option string :=
  match drop_spaces line with
  | String "["%char rest =>
      match drop_spaces (String.rev rest) with
      | String "]"%char rmid =>
          if no_line_end rmid then Some (Str.trim (String.rev rmid)) else None
      | _ => None
      end
  | _ => None
  end.

(** [v=="1"||v=="true"||v=="yes"] *)
Definition truthy (v : string) : bool :=
  bool_decide (v = "1") || bool_decide (v = "true") || bool_decide (v = "yes").

(** The assignments of the [package] section. *)
Definition set_package (k v : string) (r : Recipe) : Recipe :=
  if bool_decide (k = "name") then
    mkRecipe v (version r) (url r) (sha256 r) (vcs r) (patches r) (postremove r) (strip r)
             (submodules r) (prebuild r) (configure r) (prepare r) (build r) (install r)
             (postinstall r)
  else if bool_decide (k = "version") then
    mkRecipe (name r) v (url r) (sha256 r) (vcs r) (patches r) (postremove r) (strip r)
             (submodules r) (prebuild r) (configure r) (prepare r) (build r) (install r)
             (postinstall r)
  else if bool_decide (k = "url") then
    mkRecipe (name r) (version r) v (sha256 r) (vcs r) (patches r) (postremove r) (strip r)
             (submodules r) (prebuild r) (configure r) (prepare r) (build r) (install r)
             (postinstall r)
  else if bool_decide (k = "sha256") then
    mkRecipe (name r) (version r) (url r) v (vcs r) (patches r) (postremove r) (strip r)
             (submodules r) (prebuild r) (configure r) (prepare r) (build r) (install r)
             (postinstall r)
  else if bool_decide (k = "vcs") then
    mkRecipe (name r) (version r) (url r) (sha256 r) v (patches r) (postremove r) (strip r)
             (submodules r) (prebuild r) (configure r) (prepare r) (build r) (install r)
             (postinstall r)
  else if bool_decide (k = "patches") then
    mkRecipe (name r) (version r) (url r) (sha256 r) (vcs r) v (postremove r) (strip r)
             (submodules r) (prebuild r) (configure r) (prepare r) (build r) (install r)
             (postinstall r)
  else if bool_decide (k = "strip") then
    mkRecipe (name r) (version r) (url r) (sha256 r) (vcs r) (patches r) (postremove r)
             (truthy v) (submodules r) (prebuild r) (configure r) (prepare r) (build r)
             (install r) (postinstall r)
  else if bool_decide (k = "postremove") then
    mkRecipe (name r) (version r) (url r) (sha256 r) (vcs r) (patches r) v (strip r)
             (submodules r) (prebuild r) (configure r) (prepare r) (build r) (install r)
             (postinstall r)
  else if bool_decide (k = "submodules") then
    mkRecipe (name r) (version r) (url r) (sha256 r) (vcs r) (patches r) (postremove r)
             (strip r) (truthy v) (prebuild r) (configure r) (prepare r) (build r)
             (install r) (postinstall r)
  else r.

(** The assignments of the [options] section. *)
Definition set_options (k v : string) (r : Recipe) : Recipe :=
  if bool_decide (k = "prebuild") then
    mkRecipe (name r) (version r) (url r) (sha256 r) (vcs r) (patches r) (postremove r)
             (strip r) (submodules r) v (configure r) (prepare r) (build r) (install r)
             (postinstall r)
  else if bool_decide (k = "configure") then
    mkRecipe (name r) (version r) (url r) (sha256 r) (vcs r) (patches r) (postremove r)
             (strip r) (submodules r) (prebuild r) v (prepare r) (build r) (install r)
             (postinstall r)
  else if bool_decide (k = "prepare") then
    mkRecipe (name r) (version r) (url r) (sha256 r) (vcs r) (patches r) (postremove r)
             (strip r) (submodules r) (prebuild r) (configure r) v (build r) (install r)
             (postinstall r)
  else if bool_decide (k = "build") then
    mkRecipe (name r) (version r) (url r) (sha256 r) (vcs r) (patches r) (postremove r)
             (strip r) (submodules r) (prebuild r) (configure r) (prepare r) v (install r)
             (postinstall r)
  else if bool_decide (k = "install") then
    mkRecipe (name r) (version r) (url r) (sha256 r) (vcs r) (patches r) (postremove r)
             (strip r) (submodules r) (prebuild r) (configure r) (prepare r) (build r) v
             (postinstall r)
  else if bool_decide (k = "postinstall") then
    mkRecipe (name r) (version r) (url r) (sha256 r) (vcs r) (patches r) (postremove r)
             (strip r) (submodules r) (prebuild r) (configure r) (prepare r) (build r)
             (install r) v
  else r.

(** One turn of the reading loop on the current section and recipe. *)
Definition step (st : string * Recipe) (line : string) : string * Recipe :=
  let '(section, r) := st in
  match line with
  | String ch _ =>
      if bool_decide (ch = "#"%char) || bool_decide (ch = ";"%char) then st
      else
        match section_header line with
        | Some sec => (sec, r)
        | None =>
            match Str.split_at_first "=" line with
            | None => st
            | Some (kraw, vraw) =>
                let k := Str.trim kraw in
                let v := Str.trim vraw in
                if bool_decide (section = "package") then (section, set_package k v r)
                else if bool_decide (section = "options") then (section, set_options k v r)
                else st
            end
        end
  | EmptyString => st
  end.

(** The recipe the loop has built when the stream ends. *)
Definition parse (text : string) : Recipe :=
  snd (foldl step ("", blank) (Str.getlines "010" "" text)).

(** The end of [Recipe::load]: the name is required, the version has a
    default. *)
Definition finish (r : Recipe) : result Recipe :=
  if bool_decide (name r = "") then Thrown "Campo [package].name ausente na receita"
  else if bool_decide (version r = "") then
    Done (mkRecipe (name r) "1.0.0" (url r) (sha256 r) (vcs r) (patches r) (postremove r)
                   (strip r) (submodules r) (prebuild r) (configure r) (prepare r) (build r)
                   (install r) (postinstall r))
  else Done r.

(** [Recipe::load]: a missing file cannot be opened; a directory opens
    but yields no line. *)
Definition load (file : string) (fs : gmap string node) : result Recipe :=
  match fs !! file with
  | None => Thrown ("Não foi possível abrir receita: " +:+ file)
  | Some Dir => finish (parse "")
  | Some (File text) => finish (parse text)
  end.

(** The recipe [cmd_init] writes. *)
Definition template (nm : string) : string :=
  ("[package]" +:+ Str.nl +:+ "name=" +:+ nm +:+ Str.nl +:+ "version=1.0.0" +:+ Str.nl
   +:+ "url=" +:+ Str.nl +:+ "sha256=" +:+ Str.nl +:+ "vcs=" +:+ Str.nl +:+ "patches=" +:+ Str.nl
   +:+ "strip=true" +:+ Str.nl +:+ "postremove=" +:+ Str.nl +:+ "submodules=false" +:+ Str.nl
   +:+ Str.nl)
  +:+ ("[options]" +:+ Str.nl +:+ "prebuild=" +:+ Str.nl +:+ "configure=" +:+ Str.nl
       +:+ "prepare=" +:+ Str.nl +:+ "build=" +:+ Str.nl +:+ "install=" +:+ Str.nl
       +:+ "postinstall=" +:+ Str.nl).

End Ini.

(** [cmd_init] *)
Definition cmd_init (c : Config) (nm : string) : M Z :=
  modify_fs (FS.create_directories (recipe_dir c nm)) ;;;
  modify_fs (FS.create_directories (sources c)) ;;;
  modify_fs (FS.create_directories (work c)) ;;;
  modify_fs (FS.create_directories (destroot c)) ;;;
  modify_fs (FS.create_directories (logs c)) ;;;
  modify_fs (FS.create_directories (repo c)) ;;;
  modify_fs (FS.create_directories (snapshots c)) ;;;
  let ini := recipe_ini c nm in
  fs <- get_fs ;;
  if negb (FS.exists_ ini fs) then
    modify_fs (λ fs, default fs (FS.write_file ini (Ini.template nm) fs)) ;;;
    log OK ("Receita criada: " +:+ ini) ;;; ret 0
  else log WARN ("Receita já existe: " +:+ ini) ;;; ret 0.

(** [ensure_recipe]: [None] is status 2, [Some r] is status 0 with the
    recipe loaded into [r]. *)
Definition ensure_recipe (c : Config) (nm : string) : M (option Recipe) :=
  let ini := recipe_ini c nm in
  fs <- get_fs ;;
  if negb (FS.exists_ ini fs) then log ERR ("Receita não encontrada: " +:+ ini) ;;; ret None
  else match Ini.load ini fs with
       | Done r => ret (Some r)
       | Thrown e => throw e
       | Aborted => λ w, (Aborted, w)
       end.

(** [cmd_mkpkg] *)
Definition cmd_mkpkg (c : Config) (nm : string) : M Z :=
  rc <- cmd_init c nm ;;
  let dummy := mkRecipe nm "1.0.0" "" "" "" "" "" false false "" "" "" "" "" "" in
  modify_fs (FS.create_directories (work_dir c dummy)) ;;;
  log OK ("Estrutura criada para programa+receita: " +:+ nm) ;;;
  ret rc.

(** [cmd_info] *)
Definition cmd_info (r : Recipe) : M Z :=
  log INFO ("name=" +:+ name r +:+ " version=" +:+ version r) ;;;
  (if negb (bool_decide (url r = "")) then log INFO ("url=" +:+ url r) else ret tt) ;;;
  (if negb (bool_decide (vcs r = "")) then log INFO ("vcs=" +:+ vcs r) else ret tt) ;;;
  (if negb (bool_decide (patches r = "")) then log INFO ("patches=" +:+ patches r) else ret tt) ;;;
  log INFO ("strip=" +:+ (if strip r then "true" else "false")) ;;;
  log INFO ("submodules=" +:+ (if submodules r then "true" else "false")) ;;;
  ret 0.

(** [cmd_sync] *)
Definition cmd_sync (E : Env) (c : Config) : M Z :=
  fs <- get_fs ;;
  if negb (FS.exists_ (recipes c) fs) then log ERR "recipes/ não existe" ;;; ret 1
  else
    exec_cmd E ("git -C '" +:+ recipes c +:+ "' init") ;;;
    exec_cmd E ("git -C '" +:+ recipes c +:+ "' add -A") ;;;
    exec_cmd E ("git -C '" +:+ recipes c
                +:+ "' -c user.email=cbuild@local -c user.name=cbuild commit -m 'cbuild sync' || true") ;;;
    rc <- probe E ("git -C '" +:+ recipes c +:+ "' remote get-url origin >/dev/null 2>&1") ;;
    (if decide (rc = 0)
     then exec_cmd E ("git -C '" +:+ recipes c +:+ "' push origin HEAD") ;;; ret tt
     else ret tt) ;;;
    ret 0.

(** ** Command names: [aliases] and [resolve_cmd] *)

Definition aliases : list (string * string) :=
  [ ("dl", "fetch"); ("x", "extract"); ("p", "patch"); ("b", "build"); ("i", "install");
    ("rm", "remove"); ("srch", "search"); ("inf", "info"); ("rv", "revdep"); ("mk", "mkpkg") ].

Definition commands : list string :=
  [ "help"; "init"; "fetch"; "extract"; "patch"; "build"; "install"; "remove"; "info";
    "search"; "sync"; "revdep"; "mkpkg" ].

Definition alias_of (c : string) : option string :=
  snd <$> List.find (λ kv, bool_decide (kv.1 = c)) aliases.

(** [resolve_cmd]: an alias, else the one command [c] is a prefix of,
    else [c] itself. *)
Definition resolve_cmd (c : string) : string :=
  match alias_of c with
  | Some full => full
  | None =>
      match List.filter (Str.starts_with c) commands with
      | [m] => m
      | _ => c
      end
  end.

(** * Vocabulary of the properties *)

(** ** Single commands *)

Definition code_of (p : proc) : Z :=
  match p with Exited code _ => code | _ => 127 end.

Definition fs_after (fs : gmap string node) (p : proc) : gmap string node :=
  match p with PopenFail => fs | WaitFail fs' => fs' | Exited _ fs' => fs' end.

(** The log lines [exec_cmd] writes once the command is over. *)
Definition verdict (cmd : string) (p : proc) : list event :=
  match p with
  | PopenFail => [Log ERR ("Falha ao executar: " +:+ cmd)]
  | WaitFail _ => []
  | Exited code _ =>
      [if decide (code = 0) then Log OK "rc=0" else Log ERR ("rc=" +:+ pretty code)]
  end.

(** The world after [exec_cmd cmd]. *)
Definition ran (E : Env) (cmd : string) (w : World) : World :=
  let p := sh E cmd (files w) in
  mkWorld (fs_after (files w) p)
          (events w ++ [Log INFO ("$ " +:+ cmd); Spawn cmd] ++ verdict cmd p).

Definition rc_of (E : Env) (cmd : string) (w : World) : Z :=
  code_of (sh E cmd (files w)).

(** [sub] occurs in [s]. *)
Definition mentions (sub s : string) : Prop := ∃ l r, s = l +:+ sub +:+ r.

(** ** Where the filesystem model is exact *)

(** [fs::create_directories(p)] can do its work on [fs]: no component
    of [p] is a regular file. *)
Definition creatable (p : string) (fs : gmap string node) : Prop :=
  Forall (λ q, FS.is_regular_file q fs = false) (FS.chain "" p).

#[global] Instance creatable_dec (p : string) (fs : gmap string node) :
  Decision (creatable p fs).
Proof. unfold creatable. apply _. Defined.

(** Every path of the tree is normalised, as a real tree's paths are. *)
Definition tidy (fs : gmap string node) : Prop :=
  map_Forall (λ k _, Path.normal k = true) fs.

#[global] Instance tidy_dec (fs : gmap string node) : Decision (tidy fs).
Proof. unfold tidy. apply _. Defined.

(** ** Patching *)

(** The spec's wording of the single-file procedure: try the given
    command lines in order, the first success wins, and the status of
    the last attempt is the result. *)
Fixpoint first_success (E : Env) (last : Z) (cmds : list string) : M Z :=
  match cmds with
  | [] => ret last
  | cmd :: rest =>
      rc <- exec_cmd E cmd ;;
      if decide (rc = 0) then ret 0 else first_success E rc rest
  end.

(** The three attempts on one patch file, as command lines: three-way
    mailbox apply, unified diff at strip level 1, at strip level 0. *)
Definition strategies (patch wd : string) : list string :=
  [ "bash -lc 'cd " +:+ wd +:+ " && git am --3way --keep-cr " +:+ patch +:+ "'";
    "patch -d '" +:+ wd +:+ "' -p1 < '" +:+ patch +:+ "'";
    "patch -d '" +:+ wd +:+ "' -p0 < '" +:+ patch +:+ "'" ].

(** ** Scripted worlds for the examples *)

Module Demo.

(** One line of a scripted shell: a command line containing [pat] exits
    with [code] after writing [writes]. *)
Record rule := mkRule {
  pat : string;
  code : Z;
  writes : list (string * node)
}.

Definition write_all (ws : list (string * node)) (fs : gmap string node) : gmap string node :=
  foldl (λ acc kv, <[kv.1 := kv.2]> acc) fs ws.

Definition scripted_sh (rules : list rule) (cmd : string) (fs : gmap string node) : proc :=
  match List.find (λ r, Str.contains (pat r) cmd) rules with
  | Some r => Exited (code r) (write_all (writes r) fs)
  | None => Exited 0 fs
  end.

(** Read-only pipelines answer from a table keyed by a word of the
    command line. *)
Definition scripted_read (table : list (string * list string)) (cmd : string)
    (fs : gmap string node) : option (list string) :=
  match List.find (λ kv, Str.contains kv.1 cmd) table with
  | Some kv => Some kv.2
  | None => Some []
  end.

(** Probes fail exactly for the tools listed as missing. *)
Definition scripted_probe (missing : list string) (cmd : string)
    (fs : gmap string node) : Z :=
  if existsb (λ t, Str.contains (" " +:+ t +:+ " ") cmd) missing then 1 else 0.

Definition env (rules : list rule) (table : list (string * list string))
    (missing : list string) (order : list string → list string) : Env :=
  mkEnv (scripted_sh rules) (scripted_read table) (scripted_probe missing) (λ _, 7%N) order.

Definition cfg : Config := make_default_config "/b".

Definition hello (urls sums pats : string) : Recipe :=
  mkRecipe "hello" "2.12" urls sums "" pats "" false false "" "" "" "" "" "".

Definition dirs (ps : list string) : gmap string node :=
  foldl (λ acc p, FS.create_directories p acc) ∅ ps.

Definition layout : gmap string node :=
  Eval vm_compute in
  (dirs ["/b/recipes/hello"; "/b/sources"; "/b/work"; "/b/destdir"; "/b/logs"; "/b/snapshots"]).

Definition world (fs : gmap string node) : World := mkWorld fs [].

End Demo.

Module DemoPatch.

(** No strategy applies to [b.patch]; [a.patch] and [c.patch] apply at
    strip level 1. *)
Definition rules : list Demo.rule :=
  [ Demo.mkRule "git am" 128 [];
    Demo.mkRule "b.patch" 1 [];
    Demo.mkRule "-p1 < '/b/recipes/hello/a.patch'" 0 [("/b/work/hello-2.12/A", File "patched")];
    Demo.mkRule "-p1 < '/b/recipes/hello/c.patch'" 0 [("/b/work/hello-2.12/C", File "patched")] ].

Definition E : Env := Demo.env rules [] [] id.

Definition fs0 : gmap string node :=
  Eval vm_compute in
  (<["/b/recipes/hello/a.patch" := File "a"]>
  (<["/b/recipes/hello/b.patch" := File "b"]>
  (<["/b/recipes/hello/c.patch" := File "c"]>
  (Demo.dirs ["/b/work/hello-2.12/.git"] ∪ Demo.layout)))).

Definition r : Recipe := Demo.hello "" "" "a.patch, b.patch, c.patch".

End DemoPatch.

(** ** Checksums *)

(** ASCII lower-casing of the letters a hex digest can contain. *)
Definition to_lower_char (ch : ascii) : ascii :=
  let n := nat_of_ascii ch in
  if (65 <=? n)%nat && (n <=? 90)%nat then ascii_of_nat (n + 32) else ch.

Fixpoint to_lower (s : string) : string :=
  match s with
  | EmptyString => EmptyString
  | String ch s' => String (to_lower_char ch) (to_lower s')
  end.

(** The same recipe with another [sha256] field. *)
Definition with_sha256 (sums : string) (r : Recipe) : Recipe :=
  mkRecipe (name r) (version r) (url r) sums (vcs r) (patches r) (postremove r)
           (strip r) (submodules r) (prebuild r) (configure r) (prepare r)
           (build r) (install r) (postinstall r).

(** World [w] with one more log line. *)
Definition noted (lv : level) (msg : string) (w : World) : World :=
  mkWorld (files w) (events w ++ [Log lv msg]).

(** Every node of [fs] is still there, unchanged, in [fs']. *)
Definition keeps (fs fs' : gmap string node) : Prop :=
  ∀ p n, fs !! p = Some n → fs' !! p = Some n.

Module DemoFetch.

Definition artifact : string := "/b/sources/hello-2.12.tar.gz".

Definition digest : string :=
  "9f86d081884c7d659a2feaa0c55ad015a3bf4f1b2b0b822cd15d6c15b0f00a08".

Definition declared : string :=
  "2c26b46b68ffc68ff99b453c1d30413413422d706483bfa0f98a5e886266e7ae".

Definition shouting : string :=
  "9F86D081884C7D659A2FEAA0C55AD015A3BF4F1B2B0B822CD15D6C15B0F00A08".

(** [curl] delivers a (corrupted) artifact whose digest is [digest];
    [tar] unpacks whatever it is given. *)
Definition rules : list Demo.rule :=
  [ Demo.mkRule "curl" 0 [(artifact, File "corrupted bytes")];
    Demo.mkRule "tar -xzf" 0 [("/b/work/hello-2.12/README", File "unpacked")] ].

Definition E : Env := Demo.env rules [("sha256sum", [digest +:+ Str.nl])] [] id.

Definition url0 : string := "https://ftp.gnu.org/gnu/hello/hello-2.12.tar.gz".

(** A recipe declaring a checksum the download does not have. *)
Definition r : Recipe := Demo.hello url0 declared "".

(** A recipe declaring the right checksum in upper case. *)
Definition r_upper : Recipe := Demo.hello url0 shouting "".

(** A recipe declaring the right checksum as the tool prints it. *)
Definition r_ok : Recipe := Demo.hello url0 digest "".

Definition present : gmap string node :=
  Eval vm_compute in
  (<[artifact := File "corrupted bytes"]> Demo.layout).

End DemoFetch.

(** ** Install and remove *)

(** The prefix [fakeroot_if_available] yields on a filesystem. *)
Definition fakeroot_of (E : Env) (fs : gmap string node) : string :=
  if decide (system_rc E "command -v fakeroot >/dev/null 2>&1" fs = 0) then "fakeroot " else "".

(** The command line of the install hook as [cmd_install] runs it. *)
Definition hook_cmd (E : Env) (c : Config) (r : Recipe) (fs : gmap string node) : string :=
  install_cmd (work_dir c r) (fakeroot_of E fs) (destdir_pkg c r) (install_hook r).

(** The installation root wiped and recreated, then the snapshot
    directory created: the filesystem [cmd_install] reaches before it
    calls [make_snapshot]'s archiver or the hook. *)
Definition recreated (c : Config) (r : Recipe) (fs : gmap string node) : gmap string node :=
  FS.create_directories (Path.parent_path (snapshot_tar c r))
    (FS.create_directories (destdir_pkg c r) (FS.remove_all (destdir_pkg c r) fs)).

(** The snapshot directory does not lie inside the installation root. *)
Definition snapshots_outside (c : Config) (r : Recipe) : Prop :=
  Forall (λ p, Path.under (destdir_pkg c r) p = false)
         (FS.chain "" (Path.parent_path (snapshot_tar c r))).

(** The archiver command [make_snapshot] picks. *)
Definition snapshot_cmd (E : Env) (dest snap : string) (fs : gmap string node) : string :=
  if decide (system_rc E zstd_probe fs = 0)
  then snapshot_zstd_cmd dest snap else snapshot_gzip_cmd dest snap.

Definition snapshot_ctx (E : Env) (fs : gmap string node) : string :=
  if decide (system_rc E zstd_probe fs = 0) then "snapshot zstd" else "snapshot gzip".

Definition install_failed_msg : string := "Instalação falhou — restaurando snapshot".

(** The content of the installation root: the nodes strictly below it. *)
Definition root_content (dest : string) (fs : gmap string node) : gmap string node :=
  filter (λ kv, Path.under dest kv.1 = true) fs.

Module DemoInstall.

Definition dest : string := "/b/destdir/hello-2.12".
Definition snap : string := "/b/snapshots/hello-2.12.tar.zst".

(** The archiver and the unarchiver do their job on one fixed file; the
    default hook installs a binary; the hook of [r_bad] writes half of
    it and exits with status 2. *)
Definition rules : list Demo.rule :=
  [ Demo.mkRule "tar -cf" 0 [(snap, File "archive of v1")];
    Demo.mkRule "zstd -dc" 0 [("/b/destdir/hello-2.12/old", File "v1")];
    Demo.mkRule "broken-install" 2 [("/b/destdir/hello-2.12/bin", Dir);
                                    ("/b/destdir/hello-2.12/bin/hello", File "half")];
    Demo.mkRule "make install" 0 [("/b/destdir/hello-2.12/bin", Dir);
                                  ("/b/destdir/hello-2.12/bin/hello", File "whole")];
    Demo.mkRule "exit 1" 1 [] ].

Definition E : Env := Demo.env rules [] ["fakeroot"] id.

Definition r_good : Recipe :=
  mkRecipe "hello" "2.12" "" "" "" "" "" false false "" "" "" "" "" "".

Definition r_bad : Recipe :=
  mkRecipe "hello" "2.12" "" "" "" "" "" false false "" "" "" "" "make broken-install" "".


(** A previous generation is installed. *)
Definition installed : gmap string node :=
  Eval vm_compute in
  (<["/b/destdir/hello-2.12/old" := File "v1"]> (Demo.dirs [dest] ∪ Demo.layout)).

End DemoInstall.

(** The world once [cmd_remove] has deleted the manifest's files and
    the whole root (or, without manifest, warned and deleted the root),
    starting from the world [w1] the snapshot step left. *)
Definition swept (c : Config) (r : Recipe) (w1 : World) : World :=
  let dest := destdir_pkg c r in
  let manf := install_manifest c r in
  if FS.exists_ manf (files w1)
  then mkWorld (FS.remove_all dest
                  (foldl (λ acc rel, FS.remove (Path.join dest rel) acc) (files w1)
                         (manifest_lines manf (files w1))))
               (events w1 ++ [Log OK ("Removido DESTDIR: " +:+ dest)])
  else mkWorld (FS.remove_all dest (files w1))
               (events w1 ++ [Log WARN ("Manifesto não encontrado: " +:+ manf +:+ ", limpando DESTDIR")]).

(** The postremove hook, when one is declared, run on [w]. *)
Definition postremove_run (E : Env) (r : Recipe) (w : World) : World :=
  if bool_decide (postremove r = "") then w else ran E (postremove r) w.

Module DemoRemove.

(** The archiver is broken. *)
Definition rules : list Demo.rule := [ Demo.mkRule "tar -cf" 1 [] ].

Definition E : Env := Demo.env rules [] ["fakeroot"] id.

End DemoRemove.

(** ** Reverse dependencies *)



Module DemoRevdep.

Definition root : gmap string node :=
  Eval vm_compute in
  (<["/b/destdir/hello-2.12/bin/hello" := File (elf_magic +:+ "...")]>
  (<["/b/destdir/hello-2.12/bin/hi" := File (elf_magic +:+ "...")]>
  (<["/b/destdir/hello-2.12/share/README" := File "text"]>
  (Demo.dirs ["/b/destdir/hello-2.12/bin"; "/b/destdir/hello-2.12/share"] ∪ Demo.layout)))).

Definition ldd : list (string * list string) :=
  [ ("bin/hello'", ["libm.so.6" +:+ Str.nl; "libc.so.6" +:+ Str.nl]);
    ("bin/hi'", ["libc.so.6" +:+ Str.nl]) ].

(** Two directory iterators: one in the map's order, one reversed. *)
Definition E1 : Env := Demo.env [] ldd [] id.
Definition E2 : Env := Demo.env [] ldd [] (@rev string).

Definition r : Recipe := Demo.hello "" "" "".

End DemoRevdep.

(** ** Recorded runs of the scripted worlds *)

Module RunPatch.

Definition wd : string := Eval vm_compute in work_dir Demo.cfg DemoPatch.r.

(** After [ensure_git_repo], after [a.patch], after the attempt on [b.patch]. *)
Definition w0 : World :=
  Eval vm_compute in snd (ensure_git_repo DemoPatch.E wd (Demo.world DemoPatch.fs0)).
Definition w1 : World :=
  Eval vm_compute in snd (patch_loop DemoPatch.E Demo.cfg DemoPatch.r wd ["a.patch"] w0).
Definition w2 : World :=
  Eval vm_compute in snd (patch_entry DemoPatch.E Demo.cfg DemoPatch.r wd "b.patch" w1).


End RunPatch.

Module RunFetch.

(** A fetch into the empty layout: after the directory is created, and
    after the download. *)
Definition w1 : World :=
  Eval vm_compute in
  mkWorld (FS.create_directories (sources Demo.cfg) Demo.layout) [].
Definition w2 : World :=
  Eval vm_compute in snd (obtain DemoFetch.E DemoFetch.artifact DemoFetch.url0 w1).

(** The world the rejected fetch leaves, and the one the extract that
    follows leaves. *)
Definition rejected : World :=
  Eval vm_compute in
  snd (cmd_fetch DemoFetch.E Demo.cfg DemoFetch.r (Demo.world Demo.layout)).
Definition unpacked : World :=
  Eval vm_compute in snd (cmd_extract DemoFetch.E Demo.cfg DemoFetch.r rejected).

End RunFetch.

Module RunInstall.

(** The successful install over a previous generation. *)
Definition done : World :=
  Eval vm_compute in
  snd (cmd_install DemoInstall.E Demo.cfg DemoInstall.r_good (Demo.world DemoInstall.installed)).

(** Remove after that install. *)
Definition done_removed : World :=
  Eval vm_compute in snd (cmd_remove DemoInstall.E Demo.cfg DemoInstall.r_good done).

(** The failing install over a previous generation. *)
Definition failed : World :=
  Eval vm_compute in
  snd (cmd_install DemoInstall.E Demo.cfg DemoInstall.r_bad (Demo.world DemoInstall.installed)).

(** Remove of the previous generation, then a failing install. *)
Definition removed : World :=
  Eval vm_compute in
  snd (cmd_remove DemoInstall.E Demo.cfg DemoInstall.r_bad (Demo.world DemoInstall.installed)).
Definition rolled_back : World :=
  Eval vm_compute in
  snd (cmd_install DemoInstall.E Demo.cfg DemoInstall.r_bad removed).

Definition snapshotted : World :=
  Eval vm_compute in
  snd (make_snapshot DemoInstall.E DemoInstall.dest DemoInstall.snap
         (Demo.world DemoInstall.installed)).

End RunInstall.

(** * Vocabulary of the further properties *)

(** The characters of a string. *)
Definition chars (s : string) : list ascii := list_ascii_of_string s.

(** The message [check_tools] uses for a missing tool. *)
Definition missing_msg (t : string) : string := "Ferramenta ausente: " +:+ t.

Definition tool_probe (t : string) : string := "command -v " +:+ t +:+ " >/dev/null 2>&1".

(** The tools of [ts] whose probe fails on [fs], in order. *)
Definition missing_tools (E : Env) (fs : gmap string node) (ts : list string) : list string :=
  List.filter (λ t, negb (bool_decide (system_rc E (tool_probe t) fs = 0))) ts.

(** The command lines of [cherry_pick_ref]. *)
Definition cp_fetch_cmd (repo_url refspec wd : string) : string :=
  "git -C '" +:+ wd +:+ "' fetch '" +:+ repo_url +:+ "' '" +:+ refspec +:+ ":" +:+ tmpref +:+ "'".
Definition cp_pick_cmd (wd : string) : string :=
  "bash -lc 'cd " +:+ wd +:+ " && git cherry-pick -x " +:+ tmpref +:+ "'".
Definition cp_drop_cmd (wd : string) : string :=
  "git -C '" +:+ wd +:+ "' update-ref -d " +:+ tmpref.

(** The command line [run_step] runs for a non-empty hook. *)
Definition step_cmd (wd hook : string) : string :=
  "bash -lc 'cd " +:+ wd +:+ " && set -e; " +:+ hook +:+ "'".

(** Fail-fast sequencing of hooks, as a recursion on the list. *)
Fixpoint run_hooks (E : Env) (wd : string) (hooks : list (string * string)) : M Z :=
  match hooks with
  | [] => ret 0
  | (label, hook) :: rest =>
      rc <- run_step E label wd hook ;;
      if decide (rc ≠ 0) then ret rc else run_hooks E wd rest
  end.

(** The hooks of the build stage with their labels, in order. *)
Definition build_stage (r : Recipe) : list (string * string) :=
  [("prebuild", prebuild r); ("prepare", prepare r);
   ("configure", configure r); ("build", build r)].

(** The world one hook leaves: an empty hook is noted, a declared one
    is run. *)
Definition hook_run (E : Env) (wd : string) (lh : string * string) (w : World) : World :=
  if bool_decide (lh.2 = "") then noted INFO (lh.1 +:+ ": (vazio)") w
  else ran E (step_cmd wd lh.2) w.

(** The status of one hook on [w]: 0 for an empty hook. *)
Definition hook_rc (E : Env) (wd : string) (lh : string * string) (w : World) : Z :=
  if bool_decide (lh.2 = "") then 0 else rc_of E (step_cmd wd lh.2) w.

(** The world after the first [n] hooks, each on the world the hook
    before it left. *)
Definition after_hooks (E : Env) (wd : string) (hooks : list (string * string))
    (n : nat) (w : World) : World :=
  foldl (λ w lh, hook_run E wd lh w) w (take n hooks).

(** The filesystem on which [cmd_fetch] starts its loop. *)
Definition with_sources (c : Config) (w : World) : World :=
  mkWorld (FS.create_directories (sources c) (files w)) (events w).

Definition git_clone_cmd (c : Config) (r : Recipe) : string :=
  "git clone '" +:+ drop_str 4 (vcs r) +:+ "' '" +:+ git_dir c r +:+ "'".
Definition git_fetch_cmd (c : Config) (r : Recipe) : string :=
  "git -C '" +:+ git_dir c r +:+ "' fetch --all --tags".
Definition git_submodule_cmd (d : string) : string :=
  "git -C '" +:+ d +:+ "' submodule update --init --recursive".

Module DemoTools.

(** [curl] is not installed. *)
Definition E : Env := Demo.env [] [] ["curl"] id.

(** A live VCS source with submodules, nothing cloned yet. *)
Definition r_git : Recipe :=
  mkRecipe "hello" "2.12" "" "" "git:https://example.org/hello.git" "" "" false true
           "" "" "" "" "" "".

Definition E_git : Env := Demo.env [] [] [] id.

(** The remote cannot be cloned. *)
Definition E_nogit : Env := Demo.env [Demo.mkRule "git clone" 128 []] [] [] id.

End DemoTools.

Module DemoBuild.

(** [prepare] succeeds, [configure] fails with status 2, [build] would
    succeed. *)
Definition r : Recipe :=
  mkRecipe "hello" "2.12" "" "" "" "" "" false false
           "" "./configure-broken" "autoreconf -fi" "make" "" "".

Definition E : Env := Demo.env [Demo.mkRule "configure-broken" 2 []] [] [] id.

Definition stopped : World :=
  Eval vm_compute in snd (cmd_build_all E Demo.cfg r (Demo.world DemoPatch.fs0)).

End DemoBuild.

(** The work tree as [cmd_extract] prepares it: the work directory is
    created, an existing tree is removed, an empty one is created. *)
Definition fresh_tree (c : Config) (r : Recipe) (fs : gmap string node) : gmap string node :=
  let fs0 := FS.create_directories (work c) fs in
  FS.create_directories (work_dir c r)
    (if FS.exists_ (work_dir c r) fs0 then FS.remove_all (work_dir c r) fs0 else fs0).

(** The events of [cmd_extract] up to the unpacking. *)
Definition fresh_events (c : Config) (r : Recipe) (w : World) : list event :=
  if FS.exists_ (work_dir c r) (FS.create_directories (work c) (files w))
  then events w ++ [Log WARN ("Removendo work antigo: " +:+ work_dir c r)]
  else events w.

(** The world in which the install hook has run, [strip] has been
    applied if requested, and the manifest has been collected. *)
Definition installed_world (E : Env) (c : Config) (r : Recipe) (w1 : World) : World :=
  let w2 := ran E (hook_cmd E c r (files w1)) w1 in
  let w3 := if strip r then snd (strip_binaries E (destdir_pkg c r) w2) else w2 in
  snd (collect_manifest E (destdir_pkg c r) (install_manifest c r) w3).

Module DemoPost.

(** The install succeeds, the postinstall hook fails. *)
Definition r : Recipe :=
  mkRecipe "hello" "2.12" "" "" "" "" "" false false "" "" "" "" "" "exit 1".

(** A zstd archive exists, but neither zstd nor a gzip sibling. *)
Definition E_nozstd : Env := Demo.env DemoInstall.rules [] ["zstd"; "fakeroot"] id.

Definition archived : gmap string node :=
  Eval vm_compute in
  (<[DemoInstall.snap := File "archive of v1"]> DemoInstall.installed).

End DemoPost.

Module RunPost.

Definition failed_post : World :=
  Eval vm_compute in
  snd (cmd_install DemoInstall.E Demo.cfg DemoPost.r (Demo.world DemoInstall.installed)).

End RunPost.

(** The recipe [cmd_init]'s template describes. *)
Definition initial_recipe (nm : string) : Recipe :=
  mkRecipe nm "1.0.0" "" "" "" "" "" true false "" "" "" "" "" "".

(** The relative paths [collect_manifest] lists on [fs]. *)
Definition listed (E : Env) (dest : string) (fs : gmap string node) : list string :=
  (λ p, relative p dest) <$> List.filter (λ p, FS.is_regular_file p fs) (walk E dest fs).

(** [line] assigns [v] to key [k]: its first '=' splits it into [k] and
    [v], up to blanks around each. *)
Definition assigns (k v line : string) : Prop :=
  ∃ kraw vraw, Str.split_at_first "=" line = Some (kraw, vraw)
               ∧ Str.trim kraw = k ∧ Str.trim vraw = v.

(** [v] is empty, or the value a line of [lines] assigns to [k]. *)
Definition came_from (lines : list string) (k v : string) : Prop :=
  v = "" ∨ ∃ line, line ∈ lines ∧ assigns k v line.

(** The text fields of a recipe with their keys. *)
Definition text_fields : list (string * (Recipe → string)) :=
  [ ("name", name); ("version", version); ("url", url); ("sha256", sha256); ("vcs", vcs);
    ("patches", patches); ("postremove", postremove); ("prebuild", prebuild);
    ("configure", configure); ("prepare", prepare); ("build", build);
    ("install", install); ("postinstall", postinstall) ].

(** Every text field of [r] came from [lines]. *)
Definition read_from (lines : list string) (r : Recipe) : Prop :=
  Forall (λ kf, came_from lines kf.1 (kf.2 r)) text_fields.

Module DemoIni.

Definition text : string :=
  Eval vm_compute in
  (" [package] " +:+ Str.nl +:+ "name = hello " +:+ Str.nl +:+ "# version=9" +:+ Str.nl
   +:+ "strip=yes" +:+ Str.nl +:+ "[options]" +:+ Str.nl +:+ "build=make -j4" +:+ Str.nl
   +:+ "name=ignored" +:+ Str.nl).

Definition fs : gmap string node :=
  Eval vm_compute in (<["/b/recipes/hello/recipe.ini" := File text]> Demo.layout).

Definition loaded : Recipe :=
  mkRecipe "hello" "1.0.0" "" "" "" "" "" true false "" "" "" "make -j4" "" "".

End DemoIni.

Module DemoManifest.

(** A manifest that names a file outside the installation root. *)
Definition fs : gmap string node :=
  Eval vm_compute in
  (<["/b/logs/hello-2.12.manifest" := File ("old" +:+ Str.nl +:+ "/b/sources/precious" +:+ Str.nl)]>
   (<["/b/sources/precious" := File "data"]> DemoInstall.installed)).

(** The manifest install wrote. *)
Definition fs_ok : gmap string node :=
  Eval vm_compute in
  (<["/b/logs/hello-2.12.manifest" := File ("old" +:+ Str.nl)]>
   (<["/b/sources/precious" := File "data"]> DemoInstall.installed)).

Definition snapshotted (fs : gmap string node) : World :=
  snd (make_snapshot DemoInstall.E DemoInstall.dest DemoInstall.snap (Demo.world fs)).

Definition w1 : World := Eval vm_compute in snapshotted fs.
Definition w1_ok : World := Eval vm_compute in snapshotted fs_ok.

(** Two files staged below the root, no manifest yet; and the same
    tree once the manifest has been opened for writing. *)
Definition staged : gmap string node :=
  Eval vm_compute in
  (<["/b/destdir/hello-2.12/bin/hello" := File "whole"]>
   (<["/b/destdir/hello-2.12/bin" := Dir]> DemoInstall.installed)).

Definition staged0 : gmap string node :=
  Eval vm_compute in (<["/b/logs/hello-2.12.manifest" := File ""]> staged).

End DemoManifest.

(** A canonical list item: not empty, without comma, without blanks at
    either end. *)
Definition canonical_item (x : string) : Prop :=
  x ≠ "" ∧ ","%char ∉ chars x ∧ Str.trim x = x.

(** A string that is empty or starts with a character [trim] keeps. *)
Definition head_kept (s : string) : Prop :=
  match s with
  | String ch _ => Str.is_trim_ws ch = false
  | EmptyString => True
  end.

(** The template of [cmd_init] after the line that holds the name. *)
Definition template_rest : string :=
  Eval vm_compute in
  ("version=1.0.0" +:+ Str.nl +:+ "url=" +:+ Str.nl +:+ "sha256=" +:+ Str.nl +:+ "vcs=" +:+ Str.nl
   +:+ "patches=" +:+ Str.nl +:+ "strip=true" +:+ Str.nl +:+ "postremove=" +:+ Str.nl
   +:+ "submodules=false" +:+ Str.nl +:+ Str.nl
   +:+ "[options]" +:+ Str.nl +:+ "prebuild=" +:+ Str.nl +:+ "configure=" +:+ Str.nl
   +:+ "prepare=" +:+ Str.nl +:+ "build=" +:+ Str.nl +:+ "install=" +:+ Str.nl
   +:+ "postinstall=" +:+ Str.nl).

Module DemoInit.

(** The demonstration tree after [cmd_init] for a new package. *)
Definition created : World :=
  Eval vm_compute in (snd (cmd_init Demo.cfg "zlib" (Demo.world Demo.layout))).

End DemoInit.

(** The patch files of a directory, by its content alone: the regular
    files directly in it that carry a patch extension, in ascending
    order of their paths. *)
Definition sorted_patches (dir : string) (fs : gmap string node) : list string :=
  merge_sort String.le
    (List.filter (λ p, FS.is_regular_file p fs
                       && bool_decide (Path.extension p ∈ [".patch"; ".diff"; ".mbox"]))
                 (FS.children dir fs)).

(** The three-way mailbox apply of one patch file. *)
Definition mailbox_cmd (wd patch : string) : string :=
  "bash -lc 'cd " +:+ wd +:+ " && git am --3way --keep-cr " +:+ patch +:+ "'".

Module DemoPatchDir.

(** The patch runs of [DemoPatch], with a directory iterator that hands
    out the entries in reverse. *)
Definition E_rev : Env := Demo.env DemoPatch.rules [] [] (@rev string).

(** A recipe directory that holds three patches, the recipe and a
    subdirectory. *)
Definition tree : gmap string node :=
  Eval vm_compute in
  (<["/b/recipes/hello/recipe.ini" := File "x"]>
   (<["/b/recipes/hello/old.patch" := Dir]> DemoPatch.fs0)).

End DemoPatchDir.

(** * Properties *)

(** ** Strings *)

Lemma append_cons (x : ascii) (a b : string) : String x a +:+ b = String x (a +:+ b).
Proof. reflexivity. Qed.

Lemma append_assoc (a b c : string) : (a +:+ b) +:+ c = a +:+ (b +:+ c).
Proof. induction a as [|x a IH]; [done|]. rewrite !append_cons; simpl. by rewrite IH. Qed.

Lemma append_nil_r (a : string) : a +:+ "" = a.
Proof. induction a as [|x a IH]; [done|]. rewrite !append_cons; simpl. by rewrite IH. Qed.

Lemma length_append (a b : string) :
  String.length (a +:+ b) = (String.length a + String.length b)%nat.
Proof. induction a as [|x a IH]; [done|]. rewrite !append_cons; simpl. by rewrite IH. Qed.

(** ** Reasoning about single commands *)

Lemma exec_cmd_eq E cmd w : exec_cmd E cmd w = (Done (rc_of E cmd w), ran E cmd w).
Proof.
  unfold exec_cmd, ran, rc_of, bind, log, emit, get_fs, modify_fs, ret; simpl.
  destruct (sh E cmd (files w)) as [|fs'|code fs']; simpl.
  - by rewrite <- !app_assoc.
  - by rewrite <- !app_assoc.
  - destruct (decide (code = 0)); simpl; by rewrite <- !app_assoc.
Qed.

Lemma spawned_app w evs :
  spawned (mkWorld (files w) (events w ++ evs))
  = spawned w ++ omap (λ e, match e with Spawn c => Some c | _ => None end) evs.
Proof. unfold spawned; simpl. by rewrite omap_app. Qed.

Lemma spawned_ran E cmd w : spawned (ran E cmd w) = spawned w ++ [cmd].
Proof.
  unfold ran, spawned; simpl. rewrite omap_app; simpl. f_equal.
  destruct (sh E cmd (files w)) as [| |code ?]; simpl; try done.
  by destruct (decide (code = 0)).
Qed.

Lemma spawned_log w lv msg :
  spawned (mkWorld (files w) (events w ++ [Log lv msg])) = spawned w.
Proof. unfold spawned; simpl. rewrite omap_app; simpl. by rewrite app_nil_r. Qed.

(** ** C5: the strategies of [apply_patch_file] *)

Lemma logged_app lv w evs :
  logged lv (mkWorld (files w) (events w ++ evs))
  = logged lv w ++ omap (λ e, match e with
                             | Log l m => if decide (l = lv) then Some m else None
                             | _ => None
                             end) evs.
Proof. unfold logged; simpl. by rewrite omap_app. Qed.



Lemma apply_patch_file_eq E patch wd w :
  apply_patch_file E patch wd w
  = (if decide (rc_of E (git_am_cmd patch wd) w = 0)
     then (Done 0, ran E (git_am_cmd patch wd) w)
     else if decide (rc_of E (patch_cmd "1" patch wd) (ran E (git_am_cmd patch wd) w) = 0)
          then (Done 0, ran E (patch_cmd "1" patch wd) (ran E (git_am_cmd patch wd) w))
          else (Done (rc_of E (patch_cmd "0" patch wd)
                        (ran E (patch_cmd "1" patch wd) (ran E (git_am_cmd patch wd) w))),
                ran E (patch_cmd "0" patch wd)
                  (ran E (patch_cmd "1" patch wd) (ran E (git_am_cmd patch wd) w)))).
Proof.
  unfold apply_patch_file, bind. rewrite !exec_cmd_eq.
  destruct (decide (rc_of E (git_am_cmd patch wd) w = 0)); [done|].
  rewrite !exec_cmd_eq.
  destruct (decide (rc_of E (patch_cmd "1" patch wd) (ran E (git_am_cmd patch wd) w) = 0))
    as [e|ne].
  - rewrite decide_False by (intros H; by apply H). unfold ret. by rewrite e.
  - rewrite decide_True by done. by rewrite exec_cmd_eq.
Qed.


(** ** C4: the patch list *)

Lemma patch_loop_app E c r wd pre post w :
  patch_loop E c r wd (pre ++ post) w
  = match patch_loop E c r wd pre w with
    | (Done 0, w1) => patch_loop E c r wd post w1
    | other => other
    end.
Proof.
  revert w. induction pre as [|t pre IH]; intros w; simpl; [done|].
  unfold bind. destruct (patch_entry E c r wd t w) as [[rc|e|] w1]; [|done|done].
  destruct (decide (rc ≠ 0)) as [ne|e0].
  - unfold ret. destruct rc; done.
  - apply IH.
Qed.

Lemma failed_status (res : result Z) : res ≠ Done 0 → exit_status res ≠ 0.
Proof. destruct res as [rc|e|]; simpl; [congruence|done|done]. Qed.

(** C4. The entries of the patch list are applied in listed order, each
    on the world the previous one left.  When the entries before [b]
    succeed and [b] fails (a non-zero status or an exception), the loop
    ends there with [b]'s failure: the world is the one [b]'s failed
    attempt left on top of the earlier entries' effects, whatever
    entries [post] follow, so nothing is rolled back and nothing of
    [post] is attempted.  But [cmd_patch] does not report that failure:
    it leaves its scope with the spinner still running, and the process
    ends in [std::terminate]. *)
Theorem patch_first_failure_aborts (E : Env) (c : Config) (r : Recipe)
    (pre post : list string) (b : string) (w w0 w1 w2 : World) (res : result Z) :
  patches r ≠ "" →
  FS.exists_ (work_dir c r) (files w) = true →
  patch_entries r = pre ++ b :: post →
  ensure_git_repo E (work_dir c r) w = (Done tt, w0) →
  patch_loop E c r (work_dir c r) pre w0 = (Done 0, w1) →
  patch_entry E c r (work_dir c r) b w1 = (res, w2) →
  res ≠ Done 0 →
  patch_loop E c r (work_dir c r) (pre ++ b :: post) w0 = (res, w2)
  ∧ patch_loop E c r (work_dir c r) (pre ++ [b]) w0 = (res, w2)
  ∧ cmd_patch E c r w = (Aborted, w2)
  ∧ exit_status (fst (cmd_patch E c r w)) = 134.
Proof.
  intros Hne Hwd Hsplit Hgit Hpre Hb Hfail.
  assert (∀ post', patch_loop E c r (work_dir c r) (pre ++ b :: post') w0 = (res, w2)) as Hloop.
  { intros post'. rewrite patch_loop_app, Hpre. simpl. unfold bind. rewrite Hb.
    destruct res as [rc|e|]; [|done|done].
    destruct (decide (rc ≠ 0)) as [ne|e0]; [done|].
    destruct Hfail. f_equal. by apply dec_stable. }
  assert (cmd_patch E c r w = (Aborted, w2)) as Hrun.
  { unfold cmd_patch. rewrite bool_decide_eq_false_2 by done.
    unfold bind at 1. unfold get_fs. rewrite Hwd. simpl.
    unfold bind at 1. rewrite Hgit, Hsplit. unfold spinner, bind. rewrite Hloop.
    destruct res as [rc|e|]; [|done|done].
    destruct (decide (rc ≠ 0)) as [ne|e0]; [done|].
    destruct Hfail. f_equal. by apply dec_stable. }
  split; [apply Hloop|]. split; [apply Hloop|]. split; [exact Hrun|].
  by rewrite Hrun.
Qed.

(** ** The filesystem *)

Lemma mkdir_keeps fs p : keeps fs (FS.mkdir fs p).
Proof.
  intros q n Hq. unfold FS.mkdir. destruct (fs !! p) eqn:Hp; [done|].
  rewrite lookup_insert_ne; [done|]. intros ->. congruence.
Qed.

Lemma foldl_mkdir_keeps l fs : keeps fs (foldl FS.mkdir fs l).
Proof.
  revert fs. induction l as [|p l IH]; intros fs q n Hq; simpl; [done|].
  apply IH. by apply mkdir_keeps.
Qed.

Lemma create_directories_keeps d fs : keeps fs (FS.create_directories d fs).
Proof. apply foldl_mkdir_keeps. Qed.

Lemma mkdir_present fs p : is_Some (FS.mkdir fs p !! p).
Proof.
  unfold FS.mkdir. destruct (fs !! p) eqn:Hp; [by rewrite Hp|].
  rewrite lookup_insert_eq. by eexists.
Qed.

Lemma foldl_mkdir_present l fs p : p ∈ l → is_Some (foldl FS.mkdir fs l !! p).
Proof.
  revert fs. induction l as [|q l IH]; intros fs Hin; [by apply elem_of_nil in Hin|].
  apply elem_of_cons in Hin as [->|Hin]; simpl; [|by apply IH].
  destruct (mkdir_present fs q) as [n Hn].
  exists n. by apply foldl_mkdir_keeps.
Qed.

Lemma foldl_mkdir_id l fs : (∀ p, p ∈ l → is_Some (fs !! p)) → foldl FS.mkdir fs l = fs.
Proof.
  induction l as [|q l IH]; intros Hall; simpl; [done|].
  destruct (Hall q) as [n Hn]; [by left|].
  unfold FS.mkdir at 2. rewrite Hn. apply IH. intros p Hp. apply Hall. by right.
Qed.

Lemma create_directories_idem d fs :
  FS.create_directories d (FS.create_directories d fs) = FS.create_directories d fs.
Proof.
  unfold FS.create_directories at 1. apply foldl_mkdir_id.
  intros p Hp. by apply foldl_mkdir_present.
Qed.

Lemma exists_keeps fs fs' p : keeps fs fs' → FS.exists_ p fs = true → FS.exists_ p fs' = true.
Proof.
  unfold FS.exists_. intros Hk [n Hn]%bool_decide_eq_true.
  apply bool_decide_eq_true. exists n. by apply Hk.
Qed.

(** ** Fetching *)

Lemma check_tools_quiet E strict ts w res w' :
  check_tools E strict ts w = (res, w') → files w' = files w ∧ spawned w' = spawned w.
Proof.
  revert w. induction ts as [|t ts IH]; intros w; simpl.
  - unfold ret. by intros [= <- <-].
  - unfold bind, probe, get_fs, ret; simpl.
    destruct (decide (system_rc E _ (files w) ≠ 0)); [destruct strict|]; simpl.
    + unfold throw. by intros [= <- <-].
    + intros H. apply IH in H as [-> ->]. split; [done|]. apply spawned_log.
    + apply IH.
Qed.

Lemma obtain_present E dst u w :
  FS.exists_ dst (files w) = true →
  obtain E dst u w = (Done None, noted INFO ("Fonte já presente: " +:+ dst) w).
Proof. intros Hex. unfold obtain, bind, get_fs. by rewrite Hex. Qed.

Lemma verify_quiet E sums i dst w res w' :
  verify E sums i dst w = (res, w') →
  files w' = files w ∧ spawned w' = spawned w ∧ (res = Done None ∨ res = Done (Some 3)).
Proof.
  unfold verify. destruct (sums !! i) as [sum|]; [|by intros [= <- <-]; auto].
  destruct (negb (bool_decide (sum = ""))); [|by intros [= <- <-]; auto].
  unfold bind, get_fs, log, emit, ret; simpl.
  destruct (decide (_ ≠ sum)); intros [= <- <-]; simpl;
    (split; [done|split; [apply spawned_log|auto]]).
Qed.

Lemma fetch_one_present E c r sums i u dst w res w' :
  source_paths c r !! i = Some dst →
  FS.exists_ dst (files w) = true →
  fetch_one E c r sums i u w = (res, w') →
  files w' = files w ∧ spawned w' = spawned w ∧ (res = Done None ∨ res = Done (Some 3)).
Proof.
  intros Hdst Hex. unfold fetch_one. rewrite Hdst. unfold bind.
  rewrite obtain_present by done. intros H.
  apply verify_quiet in H as (-> & -> & Hres). simpl.
  split; [done|]. split; [apply spawned_log|done].
Qed.

Lemma fetch_loop_present E c r sums urls i w res w' :
  (∀ j u, urls !! j = Some u → ∃ dst, source_paths c r !! (i + j)%nat = Some dst
                                      ∧ FS.exists_ dst (files w) = true) →
  fetch_loop E c r sums i urls w = (res, w') →
  files w' = files w ∧ spawned w' = spawned w ∧ ∃ o, res = Done o.
Proof.
  revert i w. induction urls as [|u urls IH]; intros i w Hall; simpl.
  - intros [= <- <-]. eauto.
  - destruct (Hall 0%nat u eq_refl) as (dst & Hdst & Hex).
    rewrite Nat.add_0_r in Hdst.
    unfold bind. destruct (fetch_one E c r sums i u w) as [res1 w1] eqn:H1.
    destruct (fetch_one_present _ _ _ _ _ _ _ _ _ _ Hdst Hex H1) as (Hf & Hs & [-> | ->]).
    + intros H. apply IH in H as (-> & -> & Ho); [by rewrite Hf, Hs|].
      intros j u' Hj. destruct (Hall (S j) u' Hj) as (d & Hd & He).
      exists d. rewrite Hf. split; [|done].
      by replace (S i + j)%nat with (i + S j)%nat by lia.
    + intros [= <- <-]. eauto.
Qed.

Lemma check_tools_strict E ts w res w' :
  check_tools E true ts w = (res, w') → w' = w.
Proof.
  revert w. induction ts as [|t ts IH]; intros w; simpl.
  - by intros [= <- <-].
  - unfold bind, probe, get_fs, ret; simpl.
    destruct (decide (system_rc E _ (files w) ≠ 0)); simpl.
    + by intros [= <- <-].
    + apply IH.
Qed.

Lemma source_paths_lookup c r j u :
  split_list (url r) !! j = Some u →
  ∃ dst, source_paths c r !! j = Some dst ∧ dst ∈ source_paths c r.
Proof.
  intros Hj.
  assert (∃ dst, source_paths c r !! j = Some dst) as [dst Hd].
  { unfold source_paths.
    destruct (split_list (url r)) as [|u0 urls] eqn:Hurls; [done|].
    rewrite list_lookup_fmap, Hj. simpl. eauto. }
  exists dst. split; [done|]. by eapply list_elem_of_lookup_2.
Qed.

Lemma cmd_fetch_present E c r w res w' :
  (∀ dst, dst ∈ source_paths c r → FS.exists_ dst (files w) = true) →
  Str.starts_with "git:" (vcs r) = false →
  cmd_fetch E c r w = (res, w') →
  spawned w' = spawned w
  ∧ (w' = w ∨ files w' = FS.create_directories (sources c) (files w)).
Proof.
  intros Hall Hvcs. unfold cmd_fetch. unfold bind at 1.
  destruct (check_tools E true required_tools w) as [[[]|e|] w0] eqn:Htools;
    apply check_tools_strict in Htools as ->;
    [|intros [= <- <-]; auto|intros [= <- <-]; auto].
  unfold bind at 1. unfold modify_fs at 1. unfold spinner. unfold bind at 1.
  destruct (fetch_loop E c r _ 0 _ _) as [res1 w1] eqn:Hloop.
  apply fetch_loop_present in Hloop as (Hf1 & Hs1 & o & ->); simpl in *.
  - rewrite Hvcs, andb_false_r.
    destruct o; unfold ret; intros [= <- <-]; (split; [done|]); by right.
  - intros j u Hj. destruct (source_paths_lookup c r j u Hj) as (dst & Hdst & Hin).
    exists dst. split; [done|].
    eapply exists_keeps; [apply create_directories_keeps|]. by apply Hall.
Qed.

(** C7. A source index whose destination exists is skipped: that turn
    of the fetch loop runs no command and leaves the filesystem as it
    was.  Hence, when every destination exists (and no live VCS source
    is declared), a whole fetch runs no command and keeps every
    existing node, and fetching once more changes nothing at all. *)
Theorem fetch_skips_present (E : Env) (c : Config) (r : Recipe) :
  (∀ sums i u dst w,
      source_paths c r !! i = Some dst →
      FS.exists_ dst (files w) = true →
      ∃ o w', fetch_one E c r sums i u w = (Done o, w')
              ∧ files w' = files w ∧ spawned w' = spawned w)
  ∧ (∀ w res w',
      (∀ dst, dst ∈ source_paths c r → FS.exists_ dst (files w) = true) →
      Str.starts_with "git:" (vcs r) = false →
      cmd_fetch E c r w = (res, w') →
      spawned w' = spawned w
      ∧ keeps (files w) (files w')
      ∧ ∀ res2 w2, cmd_fetch E c r w' = (res2, w2) →
                   files w2 = files w' ∧ spawned w2 = spawned w').
Proof.
  split.
  - intros sums i u dst w Hdst Hex.
    destruct (fetch_one E c r sums i u w) as [res w'] eqn:Hrun.
    destruct (fetch_one_present _ _ _ _ _ _ _ _ _ _ Hdst Hex Hrun) as (Hf & Hs & [-> | ->]);
      eauto.
  - intros w res w' Hall Hvcs Hrun.
    destruct (cmd_fetch_present _ _ _ _ _ _ Hall Hvcs Hrun) as [Hs Hf].
    assert (keeps (files w) (files w')) as Hk.
    { destruct Hf as [-> | ->]; [by intros ??|apply create_directories_keeps]. }
    split; [done|]. split; [done|].
    intros res2 w2 Hrun2.
    assert (∀ dst, dst ∈ source_paths c r → FS.exists_ dst (files w') = true) as Hall'.
    { intros dst Hin. eapply exists_keeps; [exact Hk|]. by apply Hall. }
    destruct (cmd_fetch_present _ _ _ _ _ _ Hall' Hvcs Hrun2) as [Hs2 Hf2].
    split; [|done].
    destruct Hf as [-> | Hf].
    { (* nothing changed, so the second run is the first *)
      rewrite Hrun in Hrun2. by injection Hrun2 as _ <-. }
    destruct Hf2 as [-> | ->]; [done|].
    rewrite Hf. apply create_directories_idem.
Qed.

(** ** C10: how the checksum is compared *)

Lemma remove_spaces_clean s :
  Forall (λ ch, Str.isspace ch = false) (list_ascii_of_string (Str.remove_spaces s)).
Proof.
  induction s as [|ch s IH]; simpl; [constructor|].
  destruct (Str.isspace ch) eqn:Hch; [done|]. simpl. by constructor.
Qed.

Lemma sha256_file_clean E p fs :
  Forall (λ ch, Str.isspace ch = false) (list_ascii_of_string (sha256_file E p fs)).
Proof.
  unfold sha256_file. destruct (popen_read E _ fs); [apply remove_spaces_clean|constructor].
Qed.

Lemma split_list_items s item :
  item ∈ split_list s → item ≠ "" ∧ ∃ raw, raw ∈ Str.getlines "," "" s ∧ item = Str.trim raw.
Proof.
  unfold split_list. intros Hin.
  apply list_elem_of_In, filter_In in Hin as [Hin Hne].
  apply list_elem_of_In, list_elem_of_fmap in Hin as (raw & -> & Hraw).
  split; [|eauto].
  apply negb_true_iff, bool_decide_eq_false in Hne. done.
Qed.

(** C10. The declared checksum (a trimmed, non-empty item of the
    [sha256] list) is compared with the digest (the tool's first output
    line with all white space removed) by plain string equality:
    verification passes exactly when the two strings are equal and
    yields status 3 exactly when they differ.  In particular a declared
    checksum that equals the digest up to letter case but contains an
    upper-case digit is rejected. *)
Theorem checksum_compared_exactly (E : Env) (sums : list string) (i : nat)
    (dst sum : string) (w : World) :
  sums !! i = Some sum →
  sum ≠ "" →
  let got := sha256_file E dst (files w) in
  Forall (λ ch, Str.isspace ch = false) (list_ascii_of_string got)
  ∧ (∀ s, sum ∈ split_list s → ∃ raw, raw ∈ Str.getlines "," "" s ∧ sum = Str.trim raw)
  ∧ (got = sum ↔
     verify E sums i dst w = (Done None, noted OK ("sha256 ok: " +:+ Path.filename dst) w))
  ∧ (got ≠ sum ↔
     verify E sums i dst w
     = (Done (Some 3), noted ERR ("sha256 diferente: " +:+ got +:+ " != " +:+ sum) w))
  ∧ (to_lower sum = got → sum ≠ to_lower sum →
     verify E sums i dst w
     = (Done (Some 3), noted ERR ("sha256 diferente: " +:+ got +:+ " != " +:+ sum) w)).
Proof.
  intros Hsum Hne got.
  assert (verify E sums i dst w
          = if decide (got ≠ sum)
            then (Done (Some 3), noted ERR ("sha256 diferente: " +:+ got +:+ " != " +:+ sum) w)
            else (Done None, noted OK ("sha256 ok: " +:+ Path.filename dst) w)) as Hv.
  { unfold verify. rewrite Hsum. rewrite bool_decide_eq_false_2 by done. simpl.
    unfold bind, get_fs. fold got. by destruct (decide (got ≠ sum)). }
  split; [apply sha256_file_clean|].
  split; [intros s Hin; by apply split_list_items in Hin as [_ ?]|].
  rewrite Hv. destruct (decide (got ≠ sum)) as [Hd|Hd].
  - repeat split; try done; try congruence.
  - apply dec_stable in Hd. repeat split; try done; congruence.
Qed.

(** ** C3: a checksum mismatch *)

Lemma fetch_loop_app E c r sums pre post i w :
  fetch_loop E c r sums i (pre ++ post) w
  = match fetch_loop E c r sums i pre w with
    | (Done None, w1) => fetch_loop E c r sums (i + List.length pre) post w1
    | other => other
    end.
Proof.
  revert i w. induction pre as [|u pre IH]; intros i w; simpl.
  - by rewrite Nat.add_0_r.
  - unfold bind. destruct (fetch_one E c r sums i u w) as [[[rc|]|e|] w1]; [done| |done|done].
    rewrite IH. by replace (S i + List.length pre)%nat with (i + S (List.length pre))%nat by lia.
Qed.

Lemma cmd_extract_ignores_sha256 E c r sums w :
  cmd_extract E c (with_sha256 sums r) w = cmd_extract E c r w.
Proof. reflexivity. Qed.

(** C3. When the digest of the artifact at a source index differs from
    the checksum matched with that index (the item at that index of the
    [sha256] list once its empty items are dropped), the loop of fetch
    ends there after logging both strings: nothing is downloaded or
    verified after it and the filesystem stays as the download left it,
    artifact included.  [cmd_fetch] then leaves by [return 3] with the
    spinner still running, so the process ends in [std::terminate] and
    no status 3 is reported.  Extraction does not look at checksums at
    all: its behaviour is the same whatever the recipe declares. *)
Theorem checksum_mismatch_stops_fetch (E : Env) (c : Config) (r : Recipe)
    (pre post : list string) (u dst sum : string) (w w1 w2 : World) :
  creatable (sources c) (files w) →
  check_tools E true required_tools w = (Done tt, w) →
  split_list (url r) = pre ++ u :: post →
  fetch_loop E c r (split_list (sha256 r)) 0 pre
    (mkWorld (FS.create_directories (sources c) (files w)) (events w)) = (Done None, w1) →
  source_paths c r !! List.length pre = Some dst →
  obtain E dst u w1 = (Done None, w2) →
  split_list (sha256 r) !! List.length pre = Some sum →
  sha256_file E dst (files w2) ≠ sum →
  let w3 := noted ERR ("sha256 diferente: " +:+ sha256_file E dst (files w2)
                       +:+ " != " +:+ sum) w2 in
  fetch_loop E c r (split_list (sha256 r)) 0 (split_list (url r))
    (mkWorld (FS.create_directories (sources c) (files w)) (events w)) = (Done (Some 3), w3)
  ∧ cmd_fetch E c r w = (Aborted, w3)
  ∧ exit_status (fst (cmd_fetch E c r w)) = 134
  ∧ files w3 = files w2 ∧ spawned w3 = spawned w2
  ∧ (∀ sums' w0, cmd_extract E c (with_sha256 sums' r) w0 = cmd_extract E c r w0).
Proof.
  intros _ Htools Hurls Hpre Hdst Hget Hsum Hdiff w3.
  assert (fetch_loop E c r (split_list (sha256 r)) 0 (split_list (url r))
            (mkWorld (FS.create_directories (sources c) (files w)) (events w))
          = (Done (Some 3), w3)) as Hloop.
  { rewrite Hurls, fetch_loop_app, Hpre. simpl.
    unfold bind at 1. unfold fetch_one. rewrite Hdst. unfold bind at 1. rewrite Hget.
    assert (sum ≠ "") as Hne.
    { apply list_elem_of_lookup_2, split_list_items in Hsum. tauto. }
    unfold verify. rewrite Hsum, bool_decide_eq_false_2 by done. simpl.
    unfold bind, get_fs. by destruct (decide (_ ≠ sum)). }
  assert (cmd_fetch E c r w = (Aborted, w3)) as Hrun.
  { unfold cmd_fetch. unfold bind at 1. rewrite Htools.
    unfold bind at 1. unfold modify_fs at 1. unfold spinner. unfold bind at 1.
    by rewrite Hloop. }
  split; [exact Hloop|]. split; [exact Hrun|]. split; [by rewrite Hrun|].
  split; [done|]. split; [apply spawned_log|].
  intros; apply cmd_extract_ignores_sha256.
Qed.

(** ** The installation root after it is recreated *)

Lemma prefix_length a b : String.prefix a b = true → (String.length a ≤ String.length b)%nat.
Proof.
  revert b. induction a as [|x a IH]; intros b; simpl; [lia|].
  destruct b as [|y b]; [done|]. simpl.
  destruct (ascii_dec x y); [|done]. intros H%IH. lia.
Qed.

Lemma under_longer d p : Path.under d p = true → (String.length d < String.length p)%nat.
Proof.
  unfold Path.under, Str.starts_with. intros H%prefix_length.
  rewrite length_append in H. simpl in H. lia.
Qed.

Lemma chain_short cur s p :
  p ∈ FS.chain cur s → (String.length p ≤ String.length cur + String.length s)%nat.
Proof.
  revert cur. induction s as [|x s IH]; intros cur; simpl.
  - destruct (decide (cur = "")); [by intros ?%elem_of_nil|].
    intros ->%list_elem_of_singleton. lia.
  - destruct (decide (x = "/"%char)).
    + intros [Hin|Hin]%elem_of_app.
      * destruct (decide (cur = "")); [by apply elem_of_nil in Hin|].
        apply list_elem_of_singleton in Hin as ->. lia.
      * apply IH in Hin. rewrite length_append in Hin. simpl in Hin. lia.
    + intros Hin%IH. rewrite length_append in Hin. simpl in Hin. lia.
Qed.

Lemma chain_not_under d p : p ∈ FS.chain "" d → Path.under d p = false.
Proof.
  intros Hin%chain_short. simpl in Hin.
  destruct (Path.under d p) eqn:Hu; [|done]. apply under_longer in Hu. lia.
Qed.

Lemma foldl_mkdir_lookup l fs k n :
  foldl FS.mkdir fs l !! k = Some n → fs !! k = Some n ∨ (k ∈ l ∧ n = Dir).
Proof.
  revert fs. induction l as [|p l IH]; intros fs; simpl; [auto|].
  intros [H|[Hin ->]]%IH; [|right; split; [by right|done]].
  unfold FS.mkdir in H. destruct (fs !! p) eqn:Hp; [auto|].
  destruct (decide (p = k)) as [->|Hne].
  - rewrite lookup_insert_eq in H. injection H as <-. right. split; [by left|done].
  - rewrite lookup_insert_ne in H by done. auto.
Qed.

Lemma remove_all_lookup d fs k n :
  FS.remove_all d fs !! k = Some n ↔ fs !! k = Some n ∧ k ≠ d ∧ Path.under d k = false.
Proof. unfold FS.remove_all. by rewrite map_lookup_filter_Some. Qed.

Lemma has_entries_false d fs :
  (∀ k n, fs !! k = Some n → Path.under d k = false) → FS.has_entries d fs = false.
Proof.
  intros H. unfold FS.has_entries. apply negb_false_iff, bool_decide_eq_true.
  intros k n Hk. by eapply H.
Qed.

Lemma has_entries_true d fs k n :
  fs !! k = Some n → Path.under d k = true → FS.has_entries d fs = true.
Proof.
  intros Hk Hu. unfold FS.has_entries. apply negb_true_iff, bool_decide_eq_false.
  intros H. specialize (H k n Hk). simpl in H. congruence.
Qed.

(** Whatever was there, the recreated root holds nothing, also after
    directories outside of it are created. *)
Lemma recreated_nodes d fs others k n :
  Forall (λ p, Path.under d p = false) others →
  foldl FS.mkdir (FS.create_directories d (FS.remove_all d fs)) others !! k = Some n →
  Path.under d k = false ∧ (k = d → n = Dir) ∧ (n ≠ Dir → fs !! k = Some n).
Proof.
  intros Hothers Hk.
  apply foldl_mkdir_lookup in Hk as [Hk|[Hin ->]].
  - apply foldl_mkdir_lookup in Hk as [Hk|[Hin ->]].
    + apply remove_all_lookup in Hk as (Hk & Hne & Hu). by repeat split.
    + split; [by apply chain_not_under|done].
  - rewrite Forall_forall in Hothers. split; [by apply Hothers|done].
Qed.

Lemma recreated_root_empty d fs others :
  Forall (λ p, Path.under d p = false) others →
  let fs0 := foldl FS.mkdir (FS.create_directories d (FS.remove_all d fs)) others in
  FS.exists_ d fs0 && negb (FS.is_empty d fs0) = false.
Proof.
  intros Hothers fs0.
  apply andb_false_iff. right. apply negb_false_iff.
  unfold FS.is_empty.
  assert (FS.has_entries d fs0 = false) as He.
  { apply has_entries_false. intros k n Hk.
    by eapply recreated_nodes in Hk as [? _]. }
  destruct (fs0 !! d) as [[|content]|] eqn:Hd; rewrite ?He; try done.
  eapply recreated_nodes in Hd as (_ & Hd & _); [|done]. by specialize (Hd eq_refl).
Qed.

Lemma remove_all_gone d fs :
  FS.exists_ d (FS.remove_all d fs) = false
  ∧ root_content d (FS.remove_all d fs) = ∅.
Proof.
  split.
  - unfold FS.exists_. apply bool_decide_eq_false. intros [n Hn].
    apply remove_all_lookup in Hn. tauto.
  - apply map_eq. intros k. rewrite lookup_empty.
    apply eq_None_not_Some. intros [n Hn].
    apply map_lookup_filter_Some in Hn as [Hn Hu]. simpl in Hu.
    apply remove_all_lookup in Hn. destruct Hn as (_ & _ & Hn). congruence.
Qed.

(** ** Snapshots *)

Lemma make_snapshot_empty E dest snap w :
  let fs1 := FS.create_directories (Path.parent_path snap) (files w) in
  FS.exists_ dest fs1 && negb (FS.is_empty dest fs1) = false →
  make_snapshot E dest snap w = (Done tt, mkWorld fs1 (events w)).
Proof.
  intros fs1 Hempty. unfold make_snapshot, bind, modify_fs, probe, get_fs, ret; simpl.
  fold fs1. by rewrite Hempty.
Qed.

Lemma make_snapshot_nonempty E dest snap w :
  let fs1 := FS.create_directories (Path.parent_path snap) (files w) in
  FS.exists_ dest fs1 && negb (FS.is_empty dest fs1) = true →
  make_snapshot E dest snap w
  = exec_cmd_strict E (snapshot_cmd E dest snap fs1) (snapshot_ctx E fs1)
                    (mkWorld fs1 (events w)).
Proof.
  intros fs1 Hfull. unfold make_snapshot, bind, modify_fs, probe, get_fs, ret; simpl.
  fold fs1. rewrite Hfull. unfold snapshot_cmd, snapshot_ctx.
  by destruct (decide (system_rc E zstd_probe fs1 = 0)).
Qed.

Lemma restore_snapshot_absent E dest snap w :
  FS.exists_ snap (files w) = false →
  FS.exists_ (gz_probe_of snap) (files w) = false →
  restore_snapshot E dest snap w = (Done tt, w).
Proof.
  intros H1 H2. unfold restore_snapshot, bind, get_fs. by rewrite H1, H2.
Qed.

Lemma restore_snapshot_zstd E dest snap w :
  let fs' := FS.create_directories dest (FS.remove_all dest (files w)) in
  FS.exists_ snap (files w) = true →
  FS.exists_ snap fs' = true →
  system_rc E zstd_probe fs' = 0 →
  restore_snapshot E dest snap w
  = exec_cmd_strict E (restore_zstd_cmd dest snap) "restore zstd" (mkWorld fs' (events w)).
Proof.
  intros fs' H1 H2 Hz.
  unfold restore_snapshot, bind, get_fs, modify_fs, probe, ret; simpl.
  rewrite H1. simpl. fold fs'. rewrite Hz, H2. done.
Qed.

Lemma exec_cmd_strict_eq E cmd ctx w :
  exec_cmd_strict E cmd ctx w
  = (if decide (rc_of E cmd w ≠ 0)
     then Thrown ("Falha em: " +:+ (if decide (ctx = "") then cmd else ctx)
                  +:+ " (rc=" +:+ pretty (rc_of E cmd w) +:+ ")")
     else Done tt, ran E cmd w).
Proof.
  unfold exec_cmd_strict, bind. rewrite exec_cmd_eq.
  by destruct (decide (rc_of E cmd w ≠ 0)).
Qed.

(** ** Install *)

Lemma cmd_install_prelude E c r w :
  snapshots_outside c r →
  cmd_install E c r w = install_body E c r (mkWorld (recreated c r (files w)) (events w)).
Proof.
  intros Hout. unfold cmd_install, bind at 1, modify_fs at 1.
  unfold bind at 1, modify_fs at 1. simpl. unfold bind at 1.
  rewrite make_snapshot_empty; [done|]. simpl.
  by apply recreated_root_empty.
Qed.

Lemma install_body_failed E c r w :
  let cmd := hook_cmd E c r (files w) in
  rc_of E cmd w ≠ 0 →
  install_body E c r w
  = match restore_snapshot E (destdir_pkg c r) (snapshot_tar c r)
            (noted ERR install_failed_msg (ran E cmd w)) with
    | (Done _, w') => (Done (rc_of E cmd w), w')
    | (Thrown e, w') => (Thrown e, w')
    | (Aborted, w') => (Aborted, w')
    end.
Proof.
  intros cmd Hrc. unfold install_body, bind at 1, fakeroot_if_available.
  unfold bind at 1, probe, bind at 1, get_fs, ret. simpl.
  unfold bind at 1. fold (fakeroot_of E (files w)). fold (hook_cmd E c r (files w)). fold cmd.
  rewrite exec_cmd_eq. destruct (decide (rc_of E cmd w ≠ 0)); [|done].
  unfold bind at 1, log, emit. simpl. unfold bind at 1.
  fold (noted ERR install_failed_msg (ran E cmd w)).
  by destruct (restore_snapshot _ _ _ _) as [[[]|e|] w'].
Qed.

(** C2. [cmd_install] calls the snapshot step only after it has wiped
    and recreated the installation root.  The step archives a root when
    the root exists and is not empty; the recreated root is empty, so
    during install the step runs no command and writes no file: the
    hook starts on the filesystem [recreated], whose files were all
    there before, and no archive of the pre-install content is made. *)
Theorem install_snapshot_is_skipped (E : Env) (c : Config) (r : Recipe) (w : World) :
  creatable (destdir_pkg c r) (FS.remove_all (destdir_pkg c r) (files w)) →
  creatable (Path.parent_path (snapshot_tar c r)) (files w) →
  snapshots_outside c r →
  cmd_install E c r w = install_body E c r (mkWorld (recreated c r (files w)) (events w))
  ∧ root_content (destdir_pkg c r) (recreated c r (files w)) = ∅
  ∧ (∀ p content, recreated c r (files w) !! p = Some (File content) →
                  files w !! p = Some (File content))
  ∧ (∀ dest snap w0,
       creatable (Path.parent_path snap) (files w0) →
       let fs1 := FS.create_directories (Path.parent_path snap) (files w0) in
       make_snapshot E dest snap w0
       = if FS.exists_ dest fs1 && negb (FS.is_empty dest fs1)
         then exec_cmd_strict E (snapshot_cmd E dest snap fs1) (snapshot_ctx E fs1)
                              (mkWorld fs1 (events w0))
         else (Done tt, mkWorld fs1 (events w0))).
Proof.
  intros _ _ Hout. split; [by apply cmd_install_prelude|]. split; [|split].
  - apply map_eq. intros k. rewrite lookup_empty.
    apply eq_None_not_Some. intros [n Hn].
    apply map_lookup_filter_Some in Hn as [Hn Hu]. simpl in Hu.
    eapply recreated_nodes in Hn as [Hn _]; [|exact Hout]. congruence.
  - intros p content Hp.
    eapply recreated_nodes in Hp as (_ & _ & Hp); [|exact Hout]. by apply Hp.
  - intros dest snap w0 _ fs1.
    destruct (FS.exists_ dest fs1 && negb (FS.is_empty dest fs1)) eqn:Hc.
    + by apply make_snapshot_nonempty.
    + by apply make_snapshot_empty.
Qed.

(** C1: failing install.  When the hook fails and no snapshot archive
    exists at that moment (install itself never makes one), the rollback
    returns at once: the root is left exactly as the failed hook left
    it, and the hook's status is returned. *)
Theorem failed_install_keeps_partial_root (E : Env) (c : Config) (r : Recipe) (w : World) :
  let w1 := mkWorld (recreated c r (files w)) (events w) in
  let cmd := hook_cmd E c r (files w1) in
  snapshots_outside c r →
  rc_of E cmd w1 ≠ 0 →
  FS.exists_ (snapshot_tar c r) (files (ran E cmd w1)) = false →
  FS.exists_ (gz_probe_of (snapshot_tar c r)) (files (ran E cmd w1)) = false →
  cmd_install E c r w = (Done (rc_of E cmd w1), noted ERR install_failed_msg (ran E cmd w1)).
Proof.
  intros w1 cmd Hout Hrc Hs Hg.
  rewrite cmd_install_prelude by done. fold w1.
  rewrite install_body_failed by done. fold cmd.
  by rewrite restore_snapshot_absent.
Qed.

(** ** Remove *)

Lemma cmd_remove_eq E c r w :
  cmd_remove E c r w
  = match make_snapshot E (destdir_pkg c r) (snapshot_tar c r) w with
    | (Done _, w1) => (Done 0, postremove_run E r (swept c r w1))
    | (Thrown e, w1) => (Thrown e, w1)
    | (Aborted, w1) => (Aborted, w1)
    end.
Proof.
  unfold cmd_remove, bind at 1.
  destruct (make_snapshot E _ _ w) as [[[]|e|] w1]; [|done|done].
  unfold bind at 1, get_fs. unfold swept, postremove_run.
  destruct (FS.exists_ (install_manifest c r) (files w1)).
  - unfold bind at 1, modify_fs at 1. unfold bind at 1, modify_fs at 1.
    unfold bind at 1, log, emit. simpl. unfold bind at 1.
    destruct (bool_decide (postremove r = "")); simpl; [done|].
    unfold bind. by rewrite exec_cmd_eq.
  - unfold bind at 1, log, emit. simpl. unfold bind at 1, modify_fs at 1. simpl.
    unfold bind at 1.
    destruct (bool_decide (postremove r = "")); simpl; [done|].
    unfold bind. by rewrite exec_cmd_eq.
Qed.

Lemma swept_root_gone c r w1 :
  FS.exists_ (destdir_pkg c r) (files (swept c r w1)) = false
  ∧ root_content (destdir_pkg c r) (files (swept c r w1)) = ∅.
Proof.
  unfold swept. destruct (FS.exists_ _ (files w1)); simpl; apply remove_all_gone.
Qed.

Lemma spawned_swept c r w1 : spawned (swept c r w1) = spawned w1.
Proof.
  unfold swept. destruct (FS.exists_ _ (files w1)); unfold spawned; simpl;
    rewrite omap_app; simpl; by rewrite app_nil_r.
Qed.

Lemma spawned_postremove_run E r w :
  spawned (postremove_run E r w)
  = spawned w ++ (if bool_decide (postremove r = "") then [] else [postremove r]).
Proof.
  unfold postremove_run. destruct (bool_decide (postremove r = "")).
  - by rewrite app_nil_r.
  - apply spawned_ran.
Qed.



(** ** C9: one archive path for two purposes *)

Lemma snapshot_cmds_mention dest snap :
  mentions snap (snapshot_zstd_cmd dest snap)
  ∧ mentions snap (restore_zstd_cmd dest snap)
  ∧ mentions (gz_of snap) (snapshot_gzip_cmd dest snap)
  ∧ mentions (gz_of snap) (restore_gzip_cmd dest snap).
Proof.
  unfold snapshot_zstd_cmd, restore_zstd_cmd, snapshot_gzip_cmd, restore_gzip_cmd.
  repeat split.
  - exists ("bash -lc 'cd " +:+ dest +:+ " && tar -cf - . " +:+ " | zstd -cq > '"), "''".
    by rewrite !append_assoc.
  - exists ("bash -lc 'cd " +:+ dest +:+ " && zstd -dc < "), " | tar -xf -'".
    by rewrite !append_assoc.
  - exists ("bash -lc 'cd " +:+ dest +:+ " && tar -czf "), " .'".
    by rewrite !append_assoc.
  - exists ("bash -lc 'cd " +:+ dest +:+ " && tar -xzf "), "'".
    by rewrite !append_assoc.
Qed.

Lemma cmd_remove_archives E c r w :
  let dest := destdir_pkg c r in
  let snap := snapshot_tar c r in
  let fs1 := FS.create_directories (Path.parent_path snap) (files w) in
  FS.exists_ dest fs1 && negb (FS.is_empty dest fs1) = true →
  ∃ res w' rest, cmd_remove E c r w = (res, w')
                 ∧ res ≠ Aborted
                 ∧ spawned w' = spawned w ++ snapshot_cmd E dest snap fs1 :: rest.
Proof.
  intros dest snap fs1 Hfull. rewrite cmd_remove_eq.
  fold dest snap. rewrite make_snapshot_nonempty by done. fold fs1.
  rewrite exec_cmd_strict_eq.
  set (w1 := mkWorld fs1 (events w)).
  assert (spawned w1 = spawned w) as Hw1 by done.
  destruct (decide (rc_of E _ w1 ≠ 0)).
  - eexists _, _, []. split; [done|]. split; [done|]. by rewrite spawned_ran, Hw1.
  - eexists _, _, _. split; [done|]. split; [done|].
    rewrite spawned_postremove_run, spawned_swept, spawned_ran, Hw1.
    by rewrite <- app_assoc.
Qed.

Lemma cmd_install_restores E c r w :
  let dest := destdir_pkg c r in
  let snap := snapshot_tar c r in
  let w1 := mkWorld (recreated c r (files w)) (events w) in
  let cmd := hook_cmd E c r (files w1) in
  let fs' := FS.create_directories dest (FS.remove_all dest (files (ran E cmd w1))) in
  snapshots_outside c r →
  rc_of E cmd w1 ≠ 0 →
  FS.exists_ snap (files (ran E cmd w1)) = true →
  FS.exists_ snap fs' = true →
  system_rc E zstd_probe fs' = 0 →
  ∃ res w', cmd_install E c r w = (res, w')
            ∧ spawned w' = spawned w ++ [cmd; restore_zstd_cmd dest snap].
Proof.
  intros dest snap w1 cmd fs' Hout Hrc Hs Hs' Hz.
  rewrite cmd_install_prelude by done. fold w1.
  rewrite install_body_failed by done. fold cmd dest snap.
  rewrite restore_snapshot_zstd by done.
  rewrite exec_cmd_strict_eq.
  set (W2 := mkWorld _ (events (noted ERR install_failed_msg (ran E cmd w1)))).
  assert (spawned W2 = spawned w ++ [cmd]) as Hw2.
  { change (spawned W2) with (spawned (noted ERR install_failed_msg (ran E cmd w1))).
    unfold noted. by rewrite spawned_log, spawned_ran. }
  destruct (decide (rc_of E _ W2 ≠ 0)); eexists _, _; (split; [done|]);
    by rewrite spawned_ran, Hw2, <- app_assoc.
Qed.

(** C9. Install's rollback and remove's pre-removal snapshot use the
    one archive path [snapshot_tar c r] (and the one gzip sibling):
    the archiver writes it and the unarchiver reads it.  Remove, on a
    non-empty root, starts by running the archiver onto that path; and
    a failing install, when that archive exists, wipes the root and
    unpacks from that very path.  Install itself, however, never writes
    the archive: its snapshot step always sees an empty root.  So remove
    has no install snapshot to overwrite, and the archive a rollback
    restores is the one the last remove wrote. *)
Theorem snapshot_path_is_shared (E : Env) (c : Config) (r : Recipe) :
  let dest := destdir_pkg c r in
  let snap := snapshot_tar c r in
  (snapshot_zstd_cmd dest snap
   = "bash -lc 'cd " +:+ dest +:+ " && tar -cf - .  | zstd -cq > '" +:+ snap +:+ "''"
   ∧ restore_zstd_cmd dest snap
     = "bash -lc 'cd " +:+ dest +:+ " && zstd -dc < " +:+ snap +:+ " | tar -xf -'"
   ∧ mentions (gz_of snap) (snapshot_gzip_cmd dest snap)
   ∧ mentions (gz_of snap) (restore_gzip_cmd dest snap))
  ∧ (∀ w, let fs1 := FS.create_directories (Path.parent_path snap) (files w) in
          creatable (Path.parent_path snap) (files w) →
          FS.exists_ dest fs1 && negb (FS.is_empty dest fs1) = true →
          ∃ res w' rest, cmd_remove E c r w = (res, w')
                         ∧ res ≠ Aborted
                         ∧ spawned w' = spawned w ++ snapshot_cmd E dest snap fs1 :: rest)
  ∧ (∀ w, creatable dest (FS.remove_all dest (files w)) →
          creatable (Path.parent_path snap) (files w) →
          snapshots_outside c r →
          cmd_install E c r w
          = install_body E c r (mkWorld (recreated c r (files w)) (events w))
          ∧ (∀ p content, recreated c r (files w) !! p = Some (File content) →
                          files w !! p = Some (File content)))
  ∧ (∀ w, let w1 := mkWorld (recreated c r (files w)) (events w) in
          let cmd := hook_cmd E c r (files w1) in
          let fs' := FS.create_directories dest (FS.remove_all dest (files (ran E cmd w1))) in
          creatable dest (FS.remove_all dest (files w)) →
          creatable (Path.parent_path snap) (files w) →
          creatable dest (FS.remove_all dest (files (ran E cmd w1))) →
          snapshots_outside c r →
          rc_of E cmd w1 ≠ 0 →
          FS.exists_ snap (files (ran E cmd w1)) = true →
          FS.exists_ snap fs' = true →
          system_rc E zstd_probe fs' = 0 →
          ∃ res w', cmd_install E c r w = (res, w')
                    ∧ spawned w' = spawned w ++ [cmd; restore_zstd_cmd dest snap]).
Proof.
  intros dest snap. split; [|split; [|split]].
  - split; [|split; [|apply snapshot_cmds_mention]].
    + unfold snapshot_zstd_cmd. by rewrite !append_assoc.
    + done.
  - intros w fs1 _. apply cmd_remove_archives.
  - intros w _ _ Hout. split; [by apply cmd_install_prelude|].
    intros p content Hp.
    eapply recreated_nodes in Hp as (_ & _ & Hp); [|exact Hout]. by apply Hp.
  - intros w w1 cmd fs' _ _ _. apply cmd_install_restores.
Qed.

(** ** C8: reverse dependencies *)















(** ** The prototype agrees where it overlaps *)

(** The prototype's single-file procedure is the same first-success
    loop without the three-way mailbox attempt. *)
Lemma proto_apply_patch_file_strategies E patch wd w :
  Proto.apply_patch_file E patch wd w
  = first_success E 0 [patch_cmd "1" patch wd; patch_cmd "0" patch wd] w.
Proof.
  unfold Proto.apply_patch_file, first_success, bind. rewrite !exec_cmd_eq.
  destruct (decide (rc_of E (patch_cmd "1" patch wd) w ≠ 0)) as [ne|e].
  - rewrite decide_False by done. rewrite exec_cmd_eq. unfold ret.
    by destruct (decide (_ = 0)) as [->|].
  - apply dec_stable in e. rewrite decide_True by done. unfold ret. by rewrite e.
Qed.

(** The prototype skips the download of a present destination, too. *)
Lemma proto_fetch_skips_present E c r w res w' :
  FS.exists_ (Proto.source_path c r) (files w) = true →
  Str.starts_with "git:" (vcs r) = false →
  Proto.cmd_fetch E c r w = (res, w') →
  spawned w' = spawned w
  ∧ files w' = FS.create_directories (sources c) (files w).
Proof.
  intros Hex Hvcs.
  assert (FS.exists_ (Proto.source_path c r)
            (FS.create_directories (sources c) (files w)) = true) as Hex'.
  { eapply exists_keeps; [apply create_directories_keeps|done]. }
  unfold Proto.cmd_fetch, spinner, bind, modify_fs, get_fs, log, emit, ret. simpl.
  rewrite Hvcs, andb_false_r.
  destruct (negb (bool_decide (url r = ""))); simpl; [|by intros [= <- <-]].
  rewrite Hex'. simpl.
  destruct (negb (bool_decide (sha256 r = ""))); simpl.
  - destruct (decide (_ ≠ sha256 r)); simpl; intros [= <- <-]; (split; [|done]);
      unfold spawned; simpl; rewrite !omap_app; simpl; by rewrite !app_nil_r.
  - intros [= <- <-]. split; [|done].
    unfold spawned; simpl; rewrite !omap_app; simpl; by rewrite !app_nil_r.
Qed.

(** * The scripted worlds, run *)



Lemma patch_first_failure_aborts_witness :
  patch_loop DemoPatch.E Demo.cfg DemoPatch.r (work_dir Demo.cfg DemoPatch.r)
    (["a.patch"] ++ "b.patch" :: ["c.patch"]) RunPatch.w0 = (Done 1, RunPatch.w2)
  ∧ patch_loop DemoPatch.E Demo.cfg DemoPatch.r (work_dir Demo.cfg DemoPatch.r)
      (["a.patch"] ++ ["b.patch"]) RunPatch.w0 = (Done 1, RunPatch.w2)
  ∧ cmd_patch DemoPatch.E Demo.cfg DemoPatch.r (Demo.world DemoPatch.fs0)
    = (Aborted, RunPatch.w2)
  ∧ exit_status (fst (cmd_patch DemoPatch.E Demo.cfg DemoPatch.r (Demo.world DemoPatch.fs0)))
    = 134.
Proof.
  assert (patches DemoPatch.r ≠ "") as H1 by done.
  assert (FS.exists_ (work_dir Demo.cfg DemoPatch.r) (files (Demo.world DemoPatch.fs0)) = true)
    as H2 by (vm_compute; reflexivity).
  assert (patch_entries DemoPatch.r = ["a.patch"] ++ "b.patch" :: ["c.patch"])
    as H3 by (vm_compute; reflexivity).
  assert (ensure_git_repo DemoPatch.E (work_dir Demo.cfg DemoPatch.r) (Demo.world DemoPatch.fs0)
          = (Done tt, RunPatch.w0)) as H4 by (vm_compute; reflexivity).
  assert (patch_loop DemoPatch.E Demo.cfg DemoPatch.r (work_dir Demo.cfg DemoPatch.r)
            ["a.patch"] RunPatch.w0 = (Done 0, RunPatch.w1)) as H5 by (vm_compute; reflexivity).
  assert (patch_entry DemoPatch.E Demo.cfg DemoPatch.r (work_dir Demo.cfg DemoPatch.r)
            "b.patch" RunPatch.w1 = (Done 1, RunPatch.w2)) as H6 by (vm_compute; reflexivity).
  assert (Done 1 ≠ Done 0) as H7 by done.
  exact (patch_first_failure_aborts DemoPatch.E Demo.cfg DemoPatch.r ["a.patch"] ["c.patch"]
           "b.patch" (Demo.world DemoPatch.fs0) RunPatch.w0 RunPatch.w1 RunPatch.w2 (Done 1)
           H1 H2 H3 H4 H5 H6 H7).
Defined.

(** What the run above left: [a.patch] is applied at strip level 1,
    [b.patch] was tried three ways, [c.patch] was never tried. *)
Lemma patch_run_effects :
  files RunPatch.w2 !! "/b/work/hello-2.12/A" = Some (File "patched")
  ∧ files RunPatch.w2 !! "/b/work/hello-2.12/C" = None
  ∧ spawned RunPatch.w2
    = [ git_am_cmd "/b/recipes/hello/a.patch" RunPatch.wd;
        patch_cmd "1" "/b/recipes/hello/a.patch" RunPatch.wd ]
      ++ strategies "/b/recipes/hello/b.patch" RunPatch.wd.
Proof. repeat split; vm_compute; reflexivity. Qed.

Lemma fetch_skips_present_witness :
  ∃ o w', fetch_one DemoFetch.E Demo.cfg DemoFetch.r_ok [DemoFetch.digest] 0 DemoFetch.url0
            (Demo.world DemoFetch.present) = (Done o, w')
          ∧ files w' = files (Demo.world DemoFetch.present)
          ∧ spawned w' = spawned (Demo.world DemoFetch.present).
Proof.
  assert (source_paths Demo.cfg DemoFetch.r_ok !! 0%nat = Some DemoFetch.artifact)
    as H1 by (vm_compute; reflexivity).
  assert (FS.exists_ DemoFetch.artifact (files (Demo.world DemoFetch.present)) = true)
    as H2 by (vm_compute; reflexivity).
  exact (proj1 (fetch_skips_present DemoFetch.E Demo.cfg DemoFetch.r_ok)
           [DemoFetch.digest] 0%nat DemoFetch.url0 DemoFetch.artifact
           (Demo.world DemoFetch.present) H1 H2).
Defined.

Lemma checksum_compared_exactly_witness :
  verify DemoFetch.E [DemoFetch.shouting] 0 DemoFetch.artifact (Demo.world DemoFetch.present)
  = (Done (Some 3),
     noted ERR ("sha256 diferente: "
                +:+ sha256_file DemoFetch.E DemoFetch.artifact (files (Demo.world DemoFetch.present))
                +:+ " != " +:+ DemoFetch.shouting)
           (Demo.world DemoFetch.present)).
Proof.
  assert ([DemoFetch.shouting] !! 0%nat = Some DemoFetch.shouting) as H1 by reflexivity.
  assert (DemoFetch.shouting ≠ "") as H2 by done.
  pose proof (checksum_compared_exactly DemoFetch.E [DemoFetch.shouting] 0 DemoFetch.artifact
                DemoFetch.shouting (Demo.world DemoFetch.present) H1 H2) as H.
  cbv zeta in H. destruct H as (_ & _ & _ & _ & H).
  apply H.
  - vm_compute; reflexivity.
  - vm_compute. discriminate.
Defined.

Lemma checksum_mismatch_stops_fetch_witness :
  let w3 := noted ERR ("sha256 diferente: "
                       +:+ sha256_file DemoFetch.E DemoFetch.artifact (files RunFetch.w2)
                       +:+ " != " +:+ DemoFetch.declared) RunFetch.w2 in
  fetch_loop DemoFetch.E Demo.cfg DemoFetch.r (split_list (sha256 DemoFetch.r)) 0
    (split_list (url DemoFetch.r))
    (mkWorld (FS.create_directories (sources Demo.cfg) (files (Demo.world Demo.layout)))
             (events (Demo.world Demo.layout))) = (Done (Some 3), w3)
  ∧ cmd_fetch DemoFetch.E Demo.cfg DemoFetch.r (Demo.world Demo.layout) = (Aborted, w3)
  ∧ exit_status (fst (cmd_fetch DemoFetch.E Demo.cfg DemoFetch.r (Demo.world Demo.layout)))
    = 134
  ∧ files w3 = files RunFetch.w2 ∧ spawned w3 = spawned RunFetch.w2
  ∧ (∀ sums' w0, cmd_extract DemoFetch.E Demo.cfg (with_sha256 sums' DemoFetch.r) w0
                 = cmd_extract DemoFetch.E Demo.cfg DemoFetch.r w0).
Proof.
  assert (creatable (sources Demo.cfg) (files (Demo.world Demo.layout))) as H0
    by (apply (bool_decide_unpack _); vm_compute; exact I).
  assert (check_tools DemoFetch.E true required_tools (Demo.world Demo.layout)
          = (Done tt, Demo.world Demo.layout)) as H1 by (vm_compute; reflexivity).
  assert (split_list (url DemoFetch.r) = [] ++ DemoFetch.url0 :: [])
    as H2 by (vm_compute; reflexivity).
  assert (fetch_loop DemoFetch.E Demo.cfg DemoFetch.r (split_list (sha256 DemoFetch.r)) 0 []
            (mkWorld (FS.create_directories (sources Demo.cfg) (files (Demo.world Demo.layout)))
                     (events (Demo.world Demo.layout)))
          = (Done None, RunFetch.w1)) as H3 by (vm_compute; reflexivity).
  assert (source_paths Demo.cfg DemoFetch.r !! List.length (@nil string) = Some DemoFetch.artifact)
    as H4 by (vm_compute; reflexivity).
  assert (obtain DemoFetch.E DemoFetch.artifact DemoFetch.url0 RunFetch.w1
          = (Done None, RunFetch.w2)) as H5 by (vm_compute; reflexivity).
  assert (split_list (sha256 DemoFetch.r) !! List.length (@nil string) = Some DemoFetch.declared)
    as H6 by (vm_compute; reflexivity).
  assert (sha256_file DemoFetch.E DemoFetch.artifact (files RunFetch.w2) ≠ DemoFetch.declared)
    as H7 by (vm_compute; discriminate).
  exact (checksum_mismatch_stops_fetch DemoFetch.E Demo.cfg DemoFetch.r [] [] DemoFetch.url0
           DemoFetch.artifact DemoFetch.declared (Demo.world Demo.layout) RunFetch.w1 RunFetch.w2
           H0 H1 H2 H3 H4 H5 H6 H7).
Defined.

(** What the failing input of C3 leaves: fetch logs the two digests and
    the process is aborted; the artifact stays in the sources directory,
    and the next extract unpacks it successfully. *)
Lemma extraction_runs_after_mismatch :
  cmd_fetch DemoFetch.E Demo.cfg DemoFetch.r (Demo.world Demo.layout)
  = (Aborted, RunFetch.rejected)
  ∧ logged ERR RunFetch.rejected
    = ["sha256 diferente: " +:+ DemoFetch.digest +:+ " != " +:+ DemoFetch.declared]
  ∧ files RunFetch.rejected !! DemoFetch.artifact = Some (File "corrupted bytes")
  ∧ cmd_extract DemoFetch.E Demo.cfg DemoFetch.r RunFetch.rejected
    = (Done 0, RunFetch.unpacked)
  ∧ spawned RunFetch.unpacked
    = [ curl_cmd DemoFetch.artifact DemoFetch.url0;
        "tar -xzf '/b/sources/hello-2.12.tar.gz' -C '/b/work/hello-2.12' --strip-components=1" ]
  ∧ files RunFetch.unpacked !! "/b/work/hello-2.12/README" = Some (File "unpacked")
  ∧ split_list (" ," +:+ DemoFetch.declared) = [DemoFetch.declared].
Proof. repeat split; vm_compute; reflexivity. Qed.

Lemma demo_snapshots_outside (r : Recipe) :
  name r = "hello" → version r = "2.12" → snapshots_outside Demo.cfg r.
Proof.
  intros Hn Hv. unfold snapshots_outside, destdir_pkg, snapshot_tar, name_version.
  rewrite Hn, Hv. vm_compute. repeat constructor.
Qed.

Lemma install_snapshot_is_skipped_witness :
  cmd_install DemoInstall.E Demo.cfg DemoInstall.r_good (Demo.world DemoInstall.installed)
  = install_body DemoInstall.E Demo.cfg DemoInstall.r_good
      (mkWorld (recreated Demo.cfg DemoInstall.r_good (files (Demo.world DemoInstall.installed)))
               (events (Demo.world DemoInstall.installed)))
  ∧ root_content (destdir_pkg Demo.cfg DemoInstall.r_good)
      (recreated Demo.cfg DemoInstall.r_good (files (Demo.world DemoInstall.installed))) = ∅.
Proof.
  assert (creatable (destdir_pkg Demo.cfg DemoInstall.r_good)
            (FS.remove_all (destdir_pkg Demo.cfg DemoInstall.r_good)
               (files (Demo.world DemoInstall.installed)))) as H1
    by (apply (bool_decide_unpack _); vm_compute; exact I).
  assert (creatable (Path.parent_path (snapshot_tar Demo.cfg DemoInstall.r_good))
            (files (Demo.world DemoInstall.installed))) as H2
    by (apply (bool_decide_unpack _); vm_compute; exact I).
  assert (snapshots_outside Demo.cfg DemoInstall.r_good) as Hout
    by (by apply demo_snapshots_outside).
  pose proof (install_snapshot_is_skipped DemoInstall.E Demo.cfg DemoInstall.r_good
                (Demo.world DemoInstall.installed) H1 H2 Hout) as (Ha & Hb & _).
  exact (conj Ha Hb).
Defined.

(** The failing input of C2: a previous generation is installed,
    install succeeds, and afterwards there is no snapshot archive,
    neither the zstd one nor its gzip sibling, and the previous
    generation is gone; the only command run was the hook. *)
Lemma install_makes_no_archive :
  cmd_install DemoInstall.E Demo.cfg DemoInstall.r_good (Demo.world DemoInstall.installed)
  = (Done 0, RunInstall.done)
  ∧ files RunInstall.done !! snapshot_tar Demo.cfg DemoInstall.r_good = None
  ∧ files RunInstall.done !! gz_of (snapshot_tar Demo.cfg DemoInstall.r_good) = None
  ∧ spawned RunInstall.done
    = [hook_cmd DemoInstall.E Demo.cfg DemoInstall.r_good DemoInstall.installed]
  ∧ DemoInstall.installed !! "/b/destdir/hello-2.12/old" = Some (File "v1")
  ∧ files RunInstall.done !! "/b/destdir/hello-2.12/old" = None.
Proof. repeat split; vm_compute; reflexivity. Qed.

(** The failing input of C1: a previous generation ([old]) is installed
    and the hook writes half a binary before it exits with status 2.
    The root then holds the half binary: neither the previous generation
    nor an empty root. *)
Lemma failed_install_not_rolled_back :
  cmd_install DemoInstall.E Demo.cfg DemoInstall.r_bad (Demo.world DemoInstall.installed)
  = (Done 2, RunInstall.failed)
  ∧ root_content DemoInstall.dest (files RunInstall.failed)
    = {[ "/b/destdir/hello-2.12/bin" := Dir;
         "/b/destdir/hello-2.12/bin/hello" := File "half" ]}
  ∧ root_content DemoInstall.dest DemoInstall.installed
    = {[ "/b/destdir/hello-2.12/old" := File "v1" ]}.
Proof.
  split; [|split; vm_compute; reflexivity].
  assert (snapshots_outside Demo.cfg DemoInstall.r_bad) as Hout
    by (by apply demo_snapshots_outside).
  pose proof (failed_install_keeps_partial_root DemoInstall.E Demo.cfg DemoInstall.r_bad
                (Demo.world DemoInstall.installed)) as H.
  cbv zeta in H. rewrite H.
  - vm_compute; reflexivity.
  - exact Hout.
  - vm_compute. discriminate.
  - vm_compute; reflexivity.
  - vm_compute; reflexivity.
Defined.



(** Remove a first generation, then let an install fail: the rollback
    unpacks the archive remove wrote, and the root ends up with what
    remove archived. *)
Lemma snapshot_path_is_shared_witness :
  ∃ res w', cmd_install DemoInstall.E Demo.cfg DemoInstall.r_bad RunInstall.removed = (res, w')
            ∧ spawned w'
              = spawned RunInstall.removed
                ++ [ hook_cmd DemoInstall.E Demo.cfg DemoInstall.r_bad
                       (files (mkWorld (recreated Demo.cfg DemoInstall.r_bad
                                          (files RunInstall.removed))
                                       (events RunInstall.removed)));
                     restore_zstd_cmd (destdir_pkg Demo.cfg DemoInstall.r_bad)
                                      (snapshot_tar Demo.cfg DemoInstall.r_bad) ].
Proof.
  assert (snapshots_outside Demo.cfg DemoInstall.r_bad) as Hout
    by (by apply demo_snapshots_outside).
  pose proof (proj2 (proj2 (proj2 (snapshot_path_is_shared DemoInstall.E Demo.cfg
                                     DemoInstall.r_bad))) RunInstall.removed) as H.
  cbv zeta in H. apply H.
  - apply (bool_decide_unpack _); vm_compute; exact I.
  - apply (bool_decide_unpack _); vm_compute; exact I.
  - apply (bool_decide_unpack _); vm_compute; exact I.
  - exact Hout.
  - vm_compute. discriminate.
  - vm_compute; reflexivity.
  - vm_compute; reflexivity.
  - vm_compute; reflexivity.
Defined.

(** The failing input of C9.  A previous generation is installed and
    install runs: no archive is at the shared path afterwards, so there
    is no install snapshot for remove to overwrite.  Remove of that
    generation then creates the archive at the path. *)
Lemma install_leaves_nothing_to_overwrite :
  cmd_install DemoInstall.E Demo.cfg DemoInstall.r_good (Demo.world DemoInstall.installed)
  = (Done 0, RunInstall.done)
  ∧ files RunInstall.done !! snapshot_tar Demo.cfg DemoInstall.r_good = None
  ∧ files RunInstall.done !! gz_of (snapshot_tar Demo.cfg DemoInstall.r_good) = None
  ∧ cmd_remove DemoInstall.E Demo.cfg DemoInstall.r_good RunInstall.done
    = (Done 0, RunInstall.done_removed)
  ∧ files RunInstall.done_removed !! snapshot_tar Demo.cfg DemoInstall.r_good
    = Some (File "archive of v1").
Proof. repeat split; vm_compute; reflexivity. Qed.

Lemma remove_then_failed_install :
  cmd_remove DemoInstall.E Demo.cfg DemoInstall.r_bad (Demo.world DemoInstall.installed)
  = (Done 0, RunInstall.removed)
  ∧ files RunInstall.removed !! DemoInstall.snap = Some (File "archive of v1")
  ∧ root_content DemoInstall.dest (files RunInstall.removed) = ∅
  ∧ cmd_install DemoInstall.E Demo.cfg DemoInstall.r_bad RunInstall.removed
    = (Done 2, RunInstall.rolled_back)
  ∧ root_content DemoInstall.dest (files RunInstall.rolled_back)
    = {[ "/b/destdir/hello-2.12/old" := File "v1" ]}.
Proof. repeat split; vm_compute; reflexivity. Qed.


(** The two iterators do differ on this root, and the report is the
    sorted one. *)
Lemma revdep_demo_report :
  walk DemoRevdep.E1 DemoInstall.dest DemoRevdep.root
  ≠ walk DemoRevdep.E2 DemoInstall.dest DemoRevdep.root
  ∧ report (dep2bins DemoRevdep.E2 DemoInstall.dest DemoRevdep.root
              (walk DemoRevdep.E2 DemoInstall.dest DemoRevdep.root))
    = [("libc.so.6", ["bin/hello"; "bin/hi"]); ("libm.so.6", ["bin/hello"])]
  ∧ fst (cmd_revdep DemoRevdep.E2 Demo.cfg DemoRevdep.r (Demo.world DemoRevdep.root)) = Done 0
  ∧ events (snd (cmd_revdep DemoRevdep.E2 Demo.cfg DemoRevdep.r (Demo.world DemoRevdep.root)))
    = [ Stdout (Str.esc +:+ "[1mlibc.so.6" +:+ Str.esc +:+ "[0m <- bin/hello, bin/hi" +:+ Str.nl);
        Stdout (Str.esc +:+ "[1mlibm.so.6" +:+ Str.esc +:+ "[0m <- bin/hello" +:+ Str.nl) ].
Proof. split; [vm_compute; discriminate|repeat split; vm_compute; reflexivity]. Qed.

(** * Further properties of the code *)

(** ** Command names *)

Lemma resolve_cmd_command m : m ∈ commands → resolve_cmd m = m.
Proof.
  intros Hm. apply list_elem_of_In in Hm. simpl in Hm.
  repeat (destruct Hm as [<-|Hm]; [vm_compute; reflexivity|]). done.
Qed.

Lemma alias_of_Some a full : alias_of a = Some full ↔ (a, full) ∈ aliases.
Proof.
  split.
  - unfold alias_of. destruct (List.find _ aliases) as [[k v]|] eqn:Hf; [|done].
    simpl. intros [= <-]. apply find_some in Hf as [Hin Hk].
    apply bool_decide_eq_true in Hk. simpl in Hk. subst k. by apply list_elem_of_In.
  - intros Hin. apply list_elem_of_In in Hin. simpl in Hin.
    repeat (destruct Hin as [[= <- <-]|Hin]; [vm_compute; reflexivity|]). done.
Qed.

Lemma aliases_name_commands a full : (a, full) ∈ aliases → full ∈ commands.
Proof.
  intros Hin. apply list_elem_of_In in Hin. simpl in Hin.
  repeat (destruct Hin as [[= <- <-]|Hin];
          [apply list_elem_of_In; vm_compute; tauto|]). done.
Qed.

(** [resolve_cmd] maps every alias to a command name and every command
    name to itself; whatever the input, the result is a command name or
    the input unchanged, and resolving twice is resolving once. *)
Theorem resolve_cmd_idempotent (c : string) :
  resolve_cmd (resolve_cmd c) = resolve_cmd c
  ∧ (resolve_cmd c ∈ commands ∨ resolve_cmd c = c)
  ∧ (∀ m, m ∈ commands → resolve_cmd m = m)
  ∧ (∀ a full, (a, full) ∈ aliases → resolve_cmd a = full ∧ full ∈ commands).
Proof.
  assert (resolve_cmd c ∈ commands ∨ resolve_cmd c = c) as Hres.
  { unfold resolve_cmd. destruct (alias_of c) as [full|] eqn:Ha.
    - left. apply alias_of_Some in Ha. by eapply aliases_name_commands.
    - destruct (List.filter _ commands) as [|m [|m' ms]] eqn:Hf; auto.
      left. assert (In m (List.filter (Str.starts_with c) commands)) as Hin
        by (rewrite Hf; by left).
      apply filter_In in Hin as [Hin _]. by apply list_elem_of_In. }
  split; [|split; [done|split]].
  - destruct Hres as [Hm|Hc]; [by apply resolve_cmd_command|by rewrite !Hc].
  - apply resolve_cmd_command.
  - intros a full Hin. split; [|by eapply aliases_name_commands].
    unfold resolve_cmd. apply alias_of_Some in Hin. by rewrite Hin.
Qed.

(** ** Tool probing *)

Lemma check_tools_strict_missing (E : Env) (ts : list string) (w : World) :
  check_tools E true ts w
  = (match missing_tools E (files w) ts with
     | [] => Done tt
     | t :: _ => Thrown (missing_msg t)
     end, w).
Proof.
  induction ts as [|t ts IH]; [done|].
  simpl. unfold bind, probe, get_fs, ret. simpl. fold (tool_probe t).
  destruct (decide (system_rc E (tool_probe t) (files w) ≠ 0)) as [Hm|Hp]; simpl.
  - by rewrite bool_decide_eq_false_2.
  - apply dec_stable in Hp. rewrite bool_decide_eq_true_2 by done. simpl. apply IH.
Qed.

(** [check_tools] never touches the filesystem.  In strict mode it
    throws for the first missing tool of the list, naming it, and returns
    normally exactly when none is missing; in lenient mode it never
    throws and logs one warning per missing tool, in list order. *)
Theorem check_tools_outcome (E : Env) (ts : list string) (w : World) :
  check_tools E true ts w
  = (match missing_tools E (files w) ts with
     | [] => Done tt
     | t :: _ => Thrown (missing_msg t)
     end, w)
  ∧ check_tools E false ts w
    = (Done tt, mkWorld (files w)
                  (events w ++ ((λ t, Log WARN (missing_msg t)) <$> missing_tools E (files w) ts))).
Proof.
  split; [apply check_tools_strict_missing|].
  revert w. induction ts as [|t ts IH]; intros w.
  - simpl. unfold ret. rewrite app_nil_r. by destruct w.
  - simpl. unfold bind, probe, get_fs, ret. simpl. fold (tool_probe t).
    destruct (decide (system_rc E (tool_probe t) (files w) ≠ 0)) as [Hm|Hp]; simpl.
    + rewrite bool_decide_eq_false_2 by done. simpl.
      unfold log, emit. simpl. rewrite IH. simpl. by rewrite <- app_assoc.
    + apply dec_stable in Hp. rewrite bool_decide_eq_true_2 by done. simpl. apply IH.
Qed.

(** ** Cherry-picking a remote ref *)

(** [cherry_pick_ref] fetches into the temporary ref first.  If the
    fetch fails it throws and runs nothing else; otherwise it runs the
    cherry-pick and then always deletes the temporary ref, and its
    status is the cherry-pick's, whatever the deletion returns. *)
Theorem cherry_pick_ref_cleans_up (E : Env) (repo_url refspec wd : string) (w : World) :
  let fetched := ran E (cp_fetch_cmd repo_url refspec wd) w in
  let picked := ran E (cp_pick_cmd wd) fetched in
  ∃ res w',
    cherry_pick_ref E repo_url refspec wd w = (res, w')
    ∧ ((rc_of E (cp_fetch_cmd repo_url refspec wd) w ≠ 0
        ∧ (∃ e, res = Thrown e) ∧ w' = fetched
        ∧ spawned w' = spawned w ++ [cp_fetch_cmd repo_url refspec wd])
       ∨ (rc_of E (cp_fetch_cmd repo_url refspec wd) w = 0
          ∧ res = Done (rc_of E (cp_pick_cmd wd) fetched)
          ∧ w' = ran E (cp_drop_cmd wd) picked
          ∧ spawned w' = spawned w ++ [cp_fetch_cmd repo_url refspec wd;
                                       cp_pick_cmd wd; cp_drop_cmd wd])).
Proof.
  intros fetched picked. unfold cherry_pick_ref, bind.
  fold (cp_fetch_cmd repo_url refspec wd) (cp_pick_cmd wd) (cp_drop_cmd wd).
  rewrite exec_cmd_strict_eq. fold fetched.
  destruct (decide (rc_of E (cp_fetch_cmd repo_url refspec wd) w ≠ 0)) as [Hf|Hf].
  - eexists _, _. split; [done|]. left. repeat split; eauto. apply spawned_ran.
  - apply dec_stable in Hf. rewrite !exec_cmd_eq. fold picked.
    eexists _, _. split; [done|]. right. repeat split; [done|].
    unfold picked, fetched. rewrite !spawned_ran. by rewrite <- !app_assoc.
Qed.

(** ** Synchronising the recipes *)

(** [cmd_sync] fails (status 1, nothing run) only when the recipes
    directory is missing.  Otherwise it returns 0 whatever git answers:
    it runs init, add and commit, and pushes exactly when the probe for
    an [origin] remote succeeds on the filesystem the commit left. *)
Theorem cmd_sync_statuses_discarded (E : Env) (c : Config) (w : World) :
  let w3 := ran E ("git -C '" +:+ recipes c
                   +:+ "' -c user.email=cbuild@local -c user.name=cbuild commit -m 'cbuild sync' || true")
              (ran E ("git -C '" +:+ recipes c +:+ "' add -A")
                 (ran E ("git -C '" +:+ recipes c +:+ "' init") w)) in
  cmd_sync E c w
  = if FS.exists_ (recipes c) (files w)
    then (Done 0,
          if decide (system_rc E ("git -C '" +:+ recipes c
                                  +:+ "' remote get-url origin >/dev/null 2>&1") (files w3) = 0)
          then ran E ("git -C '" +:+ recipes c +:+ "' push origin HEAD") w3
          else w3)
    else (Done 1, noted ERR "recipes/ não existe" w).
Proof.
  intros w3. unfold cmd_sync, probe, bind, get_fs, ret.
  destruct (FS.exists_ (recipes c) (files w)); cbn beta iota delta [negb]; [|reflexivity].
  repeat (rewrite exec_cmd_eq; cbn beta iota). fold w3.
  destruct (decide (system_rc E _ (files w3) = 0)); cbn beta iota; [|done].
  by rewrite exec_cmd_eq.
Qed.

(** ** The destination override of the install hook *)

Lemma substring_0_append (b c : string) :
  String.substring 0 (String.length b) (b +:+ c) = b.
Proof.
  induction b as [|x b IH].
  - by destruct c.
  - rewrite append_cons. cbn [String.length String.substring]. by rewrite IH.
Qed.

Lemma substring_append (a b c : string) :
  String.substring (String.length a) (String.length b) (a +:+ b +:+ c) = b.
Proof.
  induction a as [|x a IH].
  - exact (substring_0_append b c).
  - rewrite append_cons. cbn [String.length String.substring]. apply IH.
Qed.

Lemma contains_intro (sub l r : string) :
  sub ≠ "" → Str.contains sub (l +:+ sub +:+ r) = true.
Proof.
  intros Hne. unfold Str.contains.
  destruct (String.index 0 sub (l +:+ sub +:+ r)) eqn:Hi; [done|].
  exfalso. eapply (index_correct3 0 (String.length l)); [exact Hi|done|lia|].
  apply substring_append.
Qed.

(** [ensure_destdir_in_install] leaves a hook that mentions [DESTDIR=]
    as it is and otherwise appends the override; its result always
    mentions [DESTDIR=], so applying it twice changes nothing more, and
    the hook [cmd_install] runs (the default [make install] included)
    always carries the override. *)
Theorem ensure_destdir_once (cmd : string) :
  Str.contains "DESTDIR=" (ensure_destdir_in_install cmd) = true
  ∧ ensure_destdir_in_install (ensure_destdir_in_install cmd) = ensure_destdir_in_install cmd
  ∧ (Str.contains "DESTDIR=" cmd = true → ensure_destdir_in_install cmd = cmd)
  ∧ (Str.contains "DESTDIR=" cmd = false →
     ensure_destdir_in_install cmd = cmd +:+ " DESTDIR=${DESTDIR}")
  ∧ (∀ r, Str.contains "DESTDIR=" (install_hook r) = true).
Proof.
  assert (∀ s, Str.contains "DESTDIR=" (ensure_destdir_in_install s) = true) as Hall.
  { intros s. unfold ensure_destdir_in_install.
    destruct (Str.contains "DESTDIR=" s) eqn:Hc; [done|].
    change (s +:+ " DESTDIR=${DESTDIR}") with (s +:+ " " +:+ "DESTDIR=" +:+ "${DESTDIR}").
    rewrite <- append_assoc. by apply contains_intro. }
  split; [apply Hall|]. split; [|split; [|split]].
  - unfold ensure_destdir_in_install at 1. by rewrite Hall.
  - intros Hc. unfold ensure_destdir_in_install. by rewrite Hc.
  - intros Hc. unfold ensure_destdir_in_install. by rewrite Hc.
  - intros r. apply Hall.
Qed.

(** ** The build stage *)

Lemma run_step_eq E label wd hook w :
  run_step E label wd hook w
  = if bool_decide (hook = "")
    then (Done 0, noted INFO (label +:+ ": (vazio)") w)
    else (Done (rc_of E (step_cmd wd hook) w), ran E (step_cmd wd hook) w).
Proof.
  unfold run_step. destruct (bool_decide (hook = "")); [done|].
  fold (step_cmd wd hook). apply exec_cmd_eq.
Qed.

Lemma cmd_build_all_eq E c r w :
  FS.exists_ (work_dir c r) (files w) = true →
  cmd_build_all E c r w = run_hooks E (work_dir c r) (build_stage r) w.
Proof.
  intros Hex. unfold cmd_build_all, bind at 1, get_fs. by rewrite Hex.
Qed.

Lemma run_step_hook E wd lh w :
  run_step E lh.1 wd lh.2 w = (Done (hook_rc E wd lh w), hook_run E wd lh w).
Proof.
  rewrite run_step_eq. unfold hook_rc, hook_run. by destruct (bool_decide (lh.2 = "")).
Qed.

Lemma spawned_hook_run E wd lh w :
  spawned (hook_run E wd lh w)
  = spawned w ++ (step_cmd wd <$> List.filter (λ h, negb (bool_decide (h = ""))) [lh.2]).
Proof.
  unfold hook_run. simpl. destruct (bool_decide (lh.2 = "")); simpl.
  - unfold noted. by rewrite spawned_log, app_nil_r.
  - apply spawned_ran.
Qed.

Lemma run_hooks_first_failure E wd hooks w :
  ∃ n, (∀ i lh, (i < n)%nat → hooks !! i = Some lh →
                hook_rc E wd lh (after_hooks E wd hooks i w) = 0)
       ∧ match hooks !! n with
         | Some lh =>
             hook_rc E wd lh (after_hooks E wd hooks n w) ≠ 0
             ∧ run_hooks E wd hooks w
               = (Done (hook_rc E wd lh (after_hooks E wd hooks n w)),
                  hook_run E wd lh (after_hooks E wd hooks n w))
         | None => run_hooks E wd hooks w = (Done 0, after_hooks E wd hooks n w)
         end
       ∧ spawned (snd (run_hooks E wd hooks w))
         = spawned w ++ (step_cmd wd <$> List.filter (λ h, negb (bool_decide (h = "")))
                                           (take (S n) hooks).*2).
Proof.
  revert w. induction hooks as [|[label hook] hooks IH]; intros w.
  - exists 0%nat. split; [intros; lia|]. split; [done|]. simpl. by rewrite app_nil_r.
  - cbn [run_hooks]. unfold bind.
    pose proof (run_step_hook E wd (label, hook) w) as Hstep.
    cbn [fst snd] in Hstep. rewrite Hstep. clear Hstep.
    destruct (decide (hook_rc E wd (label, hook) w ≠ 0)) as [Hf|Hok].
    + exists 0%nat. split; [intros; lia|]. split; [by split|].
      cbn [snd take fmap list_fmap]. apply (spawned_hook_run E wd (label, hook) w).
    + apply dec_stable in Hok.
      destruct (IH (hook_run E wd (label, hook) w)) as (n & Hbefore & Hat & Hsp).
      exists (S n). split; [|split].
      * intros i lh Hi Hl. destruct i as [|i]; simpl in Hl.
        -- injection Hl as <-. exact Hok.
        -- apply (Hbefore i lh); [lia|done].
      * exact Hat.
      * rewrite Hsp, (spawned_hook_run E wd (label, hook) w). rewrite <- app_assoc.
        f_equal. change (take (S (S n)) ((label, hook) :: hooks))
          with ((label, hook) :: take (S n) hooks).
        rewrite fmap_cons. cbn [snd List.filter].
        destruct (negb (bool_decide (hook = ""))); simpl; done.
Qed.

(** The build stage.  Without work tree it returns 7 and runs nothing.
    Otherwise it runs the hooks prebuild, prepare, configure, build in
    that order, each on the world the one before it left, up to the
    first hook whose status is not 0: every hook before that one has
    returned 0, its status is the stage's status, the world is the one
    it left, and no later hook is run.  When no hook fails the status
    is 0 after all four.  An empty hook counts as a success and runs no
    command; a declared one runs [bash -lc 'cd <work> && set -e; <hook>']. *)
Theorem build_stage_is_fail_fast (E : Env) (c : Config) (r : Recipe) (w : World) :
  let wd := work_dir c r in
  let after n := after_hooks E wd (build_stage r) n w in
  (FS.exists_ wd (files w) = false →
   cmd_build_all E c r w = (Done 7, noted ERR "work inexistente, rode extract/patch" w))
  ∧ (FS.exists_ wd (files w) = true →
     ∃ n, (∀ i lh, (i < n)%nat → build_stage r !! i = Some lh →
                   hook_rc E wd lh (after i) = 0)
          ∧ match build_stage r !! n with
            | Some lh =>
                hook_rc E wd lh (after n) ≠ 0
                ∧ cmd_build_all E c r w
                  = (Done (hook_rc E wd lh (after n)), hook_run E wd lh (after n))
            | None => cmd_build_all E c r w = (Done 0, after n)
            end
          ∧ spawned (snd (cmd_build_all E c r w))
            = spawned w ++ (step_cmd wd <$> List.filter (λ h, negb (bool_decide (h = "")))
                                              (take (S n) (build_stage r)).*2))
  ∧ build_stage r = [("prebuild", prebuild r); ("prepare", prepare r);
                     ("configure", configure r); ("build", build r)]
  ∧ (∀ hook, step_cmd wd hook = "bash -lc 'cd " +:+ wd +:+ " && set -e; " +:+ hook +:+ "'").
Proof.
  intros wd after. split; [|split; [|done]].
  - intros Hex. unfold cmd_build_all, bind at 1, get_fs. fold wd. by rewrite Hex.
  - intros Hex. rewrite cmd_build_all_eq by done. apply run_hooks_first_failure.
Qed.

(** A stage whose second hook fails: the first hook ran, the failing
    one gives the status, the two hooks after it are not run. *)
Lemma build_stage_is_fail_fast_example :
  cmd_build_all DemoBuild.E Demo.cfg DemoBuild.r (Demo.world DemoPatch.fs0)
  = (Done 2, DemoBuild.stopped)
  ∧ spawned DemoBuild.stopped
    = [ "bash -lc 'cd /b/work/hello-2.12 && set -e; autoreconf -fi'";
        "bash -lc 'cd /b/work/hello-2.12 && set -e; ./configure-broken'" ].
Proof. split; vm_compute; reflexivity. Qed.

(** ** Fetch: exceptions and the live VCS source *)

Lemma obtain_returns E dst u w : ∃ o w', obtain E dst u w = (Done o, w').
Proof.
  unfold obtain, bind, get_fs. destruct (negb (FS.exists_ dst (files w))).
  - rewrite exec_cmd_eq. eauto.
  - unfold log, emit, ret. eauto.
Qed.

Lemma verify_returns E sums i dst w : ∃ o w', verify E sums i dst w = (Done o, w').
Proof.
  destruct (verify E sums i dst w) as [res w'] eqn:Hv.
  apply verify_quiet in Hv as (_ & _ & [-> | ->]); eauto.
Qed.

Lemma fetch_loop_returns E c r sums urls i w :
  (∀ j u, urls !! j = Some u → is_Some (source_paths c r !! (i + j)%nat)) →
  ∃ o w', fetch_loop E c r sums i urls w = (Done o, w').
Proof.
  revert i w. induction urls as [|u urls IH]; intros i w Hall; simpl; [unfold ret; eauto|].
  destruct (Hall 0%nat u eq_refl) as [dst Hdst]. rewrite Nat.add_0_r in Hdst.
  unfold bind, fetch_one. rewrite Hdst. unfold bind.
  destruct (obtain_returns E dst u w) as (o & w1 & ->).
  destruct o as [rc|]; [unfold ret; eauto|].
  destruct (verify_returns E sums i dst w1) as (o & w2 & ->).
  destruct o as [rc|]; [unfold ret; eauto|].
  apply IH. intros j u' Hj.
  replace (S i + j)%nat with (i + S j)%nat by lia. by apply (Hall (S j) u').
Qed.

Lemma spinner_never_throws {A} (body : M (leave A)) w e w' :
  spinner body w ≠ (Thrown e, w').
Proof. unfold spinner. by destruct (body w) as [[[a|a]|?|] ?]. Qed.

(** Where the sources directory can be created, the source loop of
    [cmd_fetch] always returns ([source_paths(c,r).at(i)] is never out
    of range), and the only exception [cmd_fetch] raises is the
    missing-tool one of [check_tools]: it names a required tool whose
    probe failed, and nothing has been done when it is raised. *)
Theorem cmd_fetch_throws_only_for_tools (E : Env) (c : Config) (r : Recipe) (w : World) :
  creatable (sources c) (files w) →
  (∃ o w1, fetch_loop E c r (split_list (sha256 r)) 0 (split_list (url r)) (with_sources c w)
           = (Done o, w1))
  ∧ (∀ e w', cmd_fetch E c r w = (Thrown e, w') →
             w' = w
             ∧ ∃ t, t ∈ required_tools ∧ e = missing_msg t
                    ∧ system_rc E (tool_probe t) (files w) ≠ 0).
Proof.
  intros _. split.
  { apply fetch_loop_returns. intros j u Hj. simpl.
    destruct (source_paths_lookup c r j u Hj) as (dst & -> & _). eauto. }
  intros e w'. unfold cmd_fetch, bind at 1.
  rewrite (check_tools_strict_missing E required_tools w).
  destruct (missing_tools E (files w) required_tools) as [|t ts] eqn:Hm.
  - unfold bind at 1, modify_fs at 1. intros H. by apply spinner_never_throws in H.
  - intros [= <- <-]. split; [done|]. exists t.
    assert (In t (missing_tools E (files w) required_tools)) as Hin by (rewrite Hm; by left).
    apply filter_In in Hin as [Hin Hp].
    apply negb_true_iff, bool_decide_eq_false in Hp.
    split; [by apply list_elem_of_In|done].
Qed.

Lemma cmd_fetch_throws_only_for_tools_witness :
  ∃ t, t ∈ required_tools ∧ "Ferramenta ausente: curl" = missing_msg t
       ∧ system_rc DemoTools.E (tool_probe t) (files (Demo.world Demo.layout)) ≠ 0.
Proof.
  assert (creatable (sources Demo.cfg) (files (Demo.world Demo.layout))) as Hdir
    by (apply (bool_decide_unpack _); vm_compute; exact I).
  assert (cmd_fetch DemoTools.E Demo.cfg DemoFetch.r (Demo.world Demo.layout)
          = (Thrown "Ferramenta ausente: curl", Demo.world Demo.layout)) as Hrun
    by (vm_compute; reflexivity).
  exact (proj2 (proj2 (cmd_fetch_throws_only_for_tools DemoTools.E Demo.cfg DemoFetch.r
                         (Demo.world Demo.layout) Hdir)
                  "Ferramenta ausente: curl" (Demo.world Demo.layout) Hrun)).
Defined.

(** The live VCS source, once the sources directory can be created,
    the tools are there and the source loop has passed.  On first use
    fetch clones, and runs no submodule update even when [submodules] is
    set; on reuse it fetches all refs and tags and then, if [submodules]
    is set, updates the submodules, whose status is discarded.  When the
    clone or the fetch succeeds [cmd_fetch] returns 0; when it fails
    [cmd_fetch] leaves by [return rc] with the spinner still running,
    and the process ends in [std::terminate]. *)
Theorem cmd_fetch_vcs (E : Env) (c : Config) (r : Recipe) (w w1 : World) :
  creatable (sources c) (files w) →
  missing_tools E (files w) required_tools = [] →
  fetch_loop E c r (split_list (sha256 r)) 0 (split_list (url r)) (with_sources c w)
  = (Done None, w1) →
  Str.starts_with "git:" (vcs r) = true →
  cmd_fetch E c r w
  = if FS.exists_ (git_dir c r) (files w1)
    then (if decide (rc_of E (git_fetch_cmd c r) w1 = 0) then Done 0 else Aborted,
          if submodules r
          then ran E (git_submodule_cmd (git_dir c r)) (ran E (git_fetch_cmd c r) w1)
          else ran E (git_fetch_cmd c r) w1)
    else (if decide (rc_of E (git_clone_cmd c r) w1 = 0) then Done 0 else Aborted,
          ran E (git_clone_cmd c r) w1).
Proof.
  intros _ Htools Hloop Hgit.
  assert (vcs r ≠ "") as Hne by (intros Hv; by rewrite Hv in Hgit).
  unfold cmd_fetch, bind at 1.
  rewrite (check_tools_strict_missing E required_tools w), Htools.
  unfold bind at 1, modify_fs at 1. unfold spinner. unfold bind at 1.
  fold (with_sources c w). rewrite Hloop.
  rewrite bool_decide_eq_false_2 by done. rewrite Hgit. cbn [negb andb].
  unfold bind at 1, get_fs.
  fold (git_clone_cmd c r) (git_fetch_cmd c r) (git_submodule_cmd (git_dir c r)).
  destruct (FS.exists_ (git_dir c r) (files w1)); cbn [negb].
  - unfold bind. rewrite exec_cmd_eq. destruct (submodules r).
    + rewrite exec_cmd_eq. unfold ret.
      destruct (decide (rc_of E (git_fetch_cmd c r) w1 = 0)) as [->|Hrc]; [done|].
      by rewrite decide_True by done.
    + unfold ret.
      destruct (decide (rc_of E (git_fetch_cmd c r) w1 = 0)) as [->|Hrc]; [done|].
      by rewrite decide_True by done.
  - unfold bind. rewrite exec_cmd_eq. unfold ret.
    destruct (decide (rc_of E (git_clone_cmd c r) w1 = 0)) as [->|Hrc]; [done|].
    by rewrite decide_True by done.
Qed.

Lemma cmd_fetch_vcs_witness :
  cmd_fetch DemoTools.E_git Demo.cfg DemoTools.r_git (Demo.world Demo.layout)
  = if FS.exists_ (git_dir Demo.cfg DemoTools.r_git) (files (with_sources Demo.cfg (Demo.world Demo.layout)))
    then (if decide (rc_of DemoTools.E_git (git_fetch_cmd Demo.cfg DemoTools.r_git)
                       (with_sources Demo.cfg (Demo.world Demo.layout)) = 0)
          then Done 0 else Aborted,
          if submodules DemoTools.r_git
          then ran DemoTools.E_git (git_submodule_cmd (git_dir Demo.cfg DemoTools.r_git))
                 (ran DemoTools.E_git (git_fetch_cmd Demo.cfg DemoTools.r_git)
                    (with_sources Demo.cfg (Demo.world Demo.layout)))
          else ran DemoTools.E_git (git_fetch_cmd Demo.cfg DemoTools.r_git)
                 (with_sources Demo.cfg (Demo.world Demo.layout)))
    else (if decide (rc_of DemoTools.E_git (git_clone_cmd Demo.cfg DemoTools.r_git)
                       (with_sources Demo.cfg (Demo.world Demo.layout)) = 0)
          then Done 0 else Aborted,
          ran DemoTools.E_git (git_clone_cmd Demo.cfg DemoTools.r_git)
            (with_sources Demo.cfg (Demo.world Demo.layout))).
Proof.
  assert (creatable (sources Demo.cfg) (files (Demo.world Demo.layout))) as H0
    by (apply (bool_decide_unpack _); vm_compute; exact I).
  assert (missing_tools DemoTools.E_git (files (Demo.world Demo.layout)) required_tools = [])
    as H1 by (vm_compute; reflexivity).
  assert (fetch_loop DemoTools.E_git Demo.cfg DemoTools.r_git
            (split_list (sha256 DemoTools.r_git)) 0 (split_list (url DemoTools.r_git))
            (with_sources Demo.cfg (Demo.world Demo.layout))
          = (Done None, with_sources Demo.cfg (Demo.world Demo.layout))) as H2
    by (vm_compute; reflexivity).
  assert (Str.starts_with "git:" (vcs DemoTools.r_git) = true) as H3 by reflexivity.
  exact (cmd_fetch_vcs DemoTools.E_git Demo.cfg DemoTools.r_git (Demo.world Demo.layout)
           (with_sources Demo.cfg (Demo.world Demo.layout)) H0 H1 H2 H3).
Defined.

(** The first fetch of that recipe clones and stops: one command, no
    submodule update although [submodules] is set. *)
Lemma first_clone_skips_submodules :
  submodules DemoTools.r_git = true
  ∧ spawned (snd (cmd_fetch DemoTools.E_git Demo.cfg DemoTools.r_git (Demo.world Demo.layout)))
    = ["git clone 'https://example.org/hello.git' '/b/sources/hello-git'"]
  ∧ fst (cmd_fetch DemoTools.E_git Demo.cfg DemoTools.r_git (Demo.world Demo.layout)) = Done 0
  ∧ fst (cmd_fetch DemoTools.E_nogit Demo.cfg DemoTools.r_git (Demo.world Demo.layout))
    = Aborted.
Proof. split; [reflexivity|repeat split; vm_compute; reflexivity]. Qed.

(** ** Extract: failing without unpacking *)

Lemma fresh_tree_empty c r fs :
  FS.exists_ (work_dir c r) (FS.create_directories (work c) fs) = true →
  root_content (work_dir c r) (fresh_tree c r fs) = ∅.
Proof.
  intros Hex. unfold fresh_tree. rewrite Hex.
  apply map_eq. intros k. rewrite lookup_empty.
  apply eq_None_not_Some. intros [n Hn].
  apply map_lookup_filter_Some in Hn as [Hn Hu]. simpl in Hu.
  apply (recreated_nodes _ _ [] k n) in Hn as [Hn _]; [congruence|constructor].
Qed.

Lemma extract_loop_missing E dst src rest w1 :
  FS.exists_ src (files w1) = false →
  extract_loop E dst (src :: rest) w1
  = (Done (Some 4), noted ERR ("Fonte não encontrada: " +:+ src) w1).
Proof. intros Hm. simpl. unfold bind, get_fs. by rewrite Hm. Qed.

(** Where the work tree can be created (and its path and the first
    source's are normalised): when the first source artifact is
    missing, or there is neither an artifact nor a git source, extract
    logs the error and leaves by [return 4] with the spinner still
    running, so the process ends in [std::terminate].  No command has
    been run, but the work tree has been prepared: a work tree that
    existed has been emptied. *)
Theorem cmd_extract_fails_after_wiping (E : Env) (c : Config) (r : Recipe) (w : World) :
  creatable (work c) (files w) →
  creatable (work_dir c r) (FS.remove_all (work_dir c r) (files w)) →
  Path.normal (work_dir c r) = true →
  (match source_paths c r with
   | src :: _ => Path.normal src = true
                 ∧ FS.exists_ src (fresh_tree c r (files w)) = false
   | [] => negb (bool_decide (vcs r = "")) && Str.starts_with "git:" (vcs r) = false
   end) →
  ∃ w', cmd_extract E c r w = (Aborted, w')
        ∧ files w' = fresh_tree c r (files w)
        ∧ spawned w' = spawned w
        ∧ logged ERR w'
          = logged ERR w ++ [match source_paths c r with
                             | src :: _ => "Fonte não encontrada: " +:+ src
                             | [] => "Nada para extrair (sem arquivo fonte nem VCS)"
                             end]
        ∧ (FS.exists_ (work_dir c r) (FS.create_directories (work c) (files w)) = true →
           root_content (work_dir c r) (files w') = ∅).
Proof.
  intros _ _ _ Hfail.
  set (w1 := mkWorld (fresh_tree c r (files w)) (fresh_events c r w)).
  assert (spawned w1 = spawned w) as Hs1.
  { unfold w1, fresh_events, spawned. simpl.
    destruct (FS.exists_ _ _); [|done]. rewrite omap_app. simpl. by rewrite app_nil_r. }
  assert (logged ERR w1 = logged ERR w) as Hl1.
  { unfold w1, fresh_events, logged. simpl.
    destruct (FS.exists_ _ _); [|done]. rewrite omap_app. simpl. by rewrite app_nil_r. }
  assert (cmd_extract E c r w
          = (Aborted, noted ERR (match source_paths c r with
                                 | src :: _ => "Fonte não encontrada: " +:+ src
                                 | [] => "Nada para extrair (sem arquivo fonte nem VCS)"
                                 end) w1)) as Hrun.
  { unfold cmd_extract, bind at 1, modify_fs at 1. unfold bind at 1, get_fs at 1.
    cbn [files events].
    assert (∀ k : M Z,
              ((if FS.exists_ (work_dir c r) (FS.create_directories (work c) (files w))
                then log WARN ("Removendo work antigo: " +:+ work_dir c r) ;;;
                     modify_fs (FS.remove_all (work_dir c r))
                else ret tt) ;;;
               modify_fs (FS.create_directories (work_dir c r)) ;;; k)
                {| files := FS.create_directories (work c) (files w); events := events w |}
              = k w1) as Hprep.
    { intros k. unfold w1, fresh_tree, fresh_events, bind, modify_fs, log, emit, ret.
      by destruct (FS.exists_ _ _). }
    rewrite Hprep. unfold spinner.
    destruct (source_paths c r) as [|src rest].
    - rewrite Hfail. reflexivity.
    - unfold bind. rewrite extract_loop_missing by apply Hfail. reflexivity. }
  rewrite Hrun. eexists. split; [done|]. split; [done|].
  split; [unfold noted; by rewrite spawned_log|].
  split.
  { unfold noted. by rewrite logged_app, Hl1. }
  intros Hex. by apply fresh_tree_empty.
Qed.

Lemma cmd_extract_fails_after_wiping_witness :
  ∃ w', cmd_extract DemoFetch.E Demo.cfg DemoFetch.r (Demo.world DemoPatch.fs0) = (Aborted, w')
        ∧ files w' = fresh_tree Demo.cfg DemoFetch.r (files (Demo.world DemoPatch.fs0))
        ∧ spawned w' = spawned (Demo.world DemoPatch.fs0)
        ∧ logged ERR w'
          = logged ERR (Demo.world DemoPatch.fs0)
            ++ [match source_paths Demo.cfg DemoFetch.r with
                | src :: _ => "Fonte não encontrada: " +:+ src
                | [] => "Nada para extrair (sem arquivo fonte nem VCS)"
                end]
        ∧ (FS.exists_ (work_dir Demo.cfg DemoFetch.r)
             (FS.create_directories (work Demo.cfg) (files (Demo.world DemoPatch.fs0))) = true →
           root_content (work_dir Demo.cfg DemoFetch.r) (files w') = ∅).
Proof.
  assert (match source_paths Demo.cfg DemoFetch.r with
          | src :: _ => Path.normal src = true
                        ∧ FS.exists_ src (fresh_tree Demo.cfg DemoFetch.r
                                            (files (Demo.world DemoPatch.fs0))) = false
          | [] => negb (bool_decide (vcs DemoFetch.r = ""))
                  && Str.starts_with "git:" (vcs DemoFetch.r) = false
          end) as H by (vm_compute; split; reflexivity).
  assert (creatable (work Demo.cfg) (files (Demo.world DemoPatch.fs0))) as Hw
    by (apply (bool_decide_unpack _); vm_compute; exact I).
  assert (creatable (work_dir Demo.cfg DemoFetch.r)
            (FS.remove_all (work_dir Demo.cfg DemoFetch.r) (files (Demo.world DemoPatch.fs0))))
    as Hwd by (apply (bool_decide_unpack _); vm_compute; exact I).
  assert (Path.normal (work_dir Demo.cfg DemoFetch.r) = true) as Hn
    by (vm_compute; reflexivity).
  exact (cmd_extract_fails_after_wiping DemoFetch.E Demo.cfg DemoFetch.r
           (Demo.world DemoPatch.fs0) Hw Hwd Hn H).
Defined.

(** ** Rollback without the compressor *)

(** When [restore_snapshot] finds the zstd archive but zstd is not
    installed and there is no gzip sibling, it has already wiped the root
    and then unpacks nothing: no command runs, no error is raised, and
    the root is left empty. *)
Theorem restore_without_zstd_empties_root (E : Env) (dest snap : string) (w : World) :
  let fs' := FS.create_directories dest (FS.remove_all dest (files w)) in
  creatable dest (FS.remove_all dest (files w)) →
  FS.exists_ snap (files w) = true →
  system_rc E zstd_probe fs' ≠ 0 →
  FS.exists_ (gz_of snap) fs' = false →
  restore_snapshot E dest snap w = (Done tt, mkWorld fs' (events w))
  ∧ root_content dest fs' = ∅.
Proof.
  intros fs' _ Hs Hz Hg. split.
  - unfold restore_snapshot, bind, get_fs, modify_fs, probe, ret. simpl.
    rewrite Hs. simpl. fold fs'.
    rewrite bool_decide_eq_false_2 by done. simpl. by rewrite Hg.
  - apply map_eq. intros k. rewrite lookup_empty.
    apply eq_None_not_Some. intros [n Hn].
    apply map_lookup_filter_Some in Hn as [Hn Hu]. simpl in Hu.
    apply (recreated_nodes _ _ [] k n) in Hn as [Hn _]; [congruence|constructor].
Qed.

Lemma restore_without_zstd_empties_root_witness :
  restore_snapshot DemoPost.E_nozstd DemoInstall.dest DemoInstall.snap
    (Demo.world DemoPost.archived)
  = (Done tt,
     mkWorld (FS.create_directories DemoInstall.dest
                (FS.remove_all DemoInstall.dest (files (Demo.world DemoPost.archived))))
             (events (Demo.world DemoPost.archived)))
  ∧ root_content DemoInstall.dest
      (FS.create_directories DemoInstall.dest
         (FS.remove_all DemoInstall.dest (files (Demo.world DemoPost.archived)))) = ∅.
Proof.
  assert (creatable DemoInstall.dest
            (FS.remove_all DemoInstall.dest (files (Demo.world DemoPost.archived))))
    as H0 by (apply (bool_decide_unpack _); vm_compute; exact I).
  assert (FS.exists_ DemoInstall.snap (files (Demo.world DemoPost.archived)) = true)
    as H1 by (vm_compute; reflexivity).
  assert (system_rc DemoPost.E_nozstd zstd_probe
            (FS.create_directories DemoInstall.dest
               (FS.remove_all DemoInstall.dest (files (Demo.world DemoPost.archived)))) ≠ 0)
    as H2 by (vm_compute; discriminate).
  assert (FS.exists_ (gz_of DemoInstall.snap)
            (FS.create_directories DemoInstall.dest
               (FS.remove_all DemoInstall.dest (files (Demo.world DemoPost.archived)))) = false)
    as H3 by (vm_compute; reflexivity).
  exact (restore_without_zstd_empties_root DemoPost.E_nozstd DemoInstall.dest DemoInstall.snap
           (Demo.world DemoPost.archived) H0 H1 H2 H3).
Defined.

(** ** Install: a failing postinstall hook *)

Lemma install_body_succeeded E c r w1 :
  rc_of E (hook_cmd E c r (files w1)) w1 = 0 →
  install_body E c r w1
  = match run_step E "postinstall" (work_dir c r) (postinstall r) (installed_world E c r w1) with
    | (Done rc, w') =>
        if decide (rc ≠ 0) then (Done rc, w')
        else (Done 0, noted OK ("Instalado em DESTDIR: " +:+ destdir_pkg c r) w')
    | (Thrown e, w') => (Thrown e, w')
    | (Aborted, w') => (Aborted, w')
    end.
Proof.
  intros Hrc. unfold install_body, bind at 1, fakeroot_if_available.
  unfold bind at 1, probe, bind at 1, get_fs, ret. cbn [files].
  fold (fakeroot_of E (files w1)). fold (hook_cmd E c r (files w1)).
  unfold bind at 1. rewrite exec_cmd_eq, Hrc.
  rewrite decide_False by (intros H; by apply H).
  unfold installed_world.
  set (w2 := ran E (hook_cmd E c r (files w1)) w1).
  assert (∃ rs ws, strip_binaries E (destdir_pkg c r) w2 = (Done rs, ws)) as (rs & ws & Hstrip).
  { unfold strip_binaries, bind, get_fs.
    generalize (walk E (destdir_pkg c r) (files w2)). generalize 0 as acc. generalize w2 as w0.
    intros w0 acc ps. revert w0 acc. induction ps as [|p ps IH]; intros w0 acc; simpl.
    - unfold ret. eauto.
    - unfold bind, get_fs.
      destruct (FS.is_regular_file p (files w0) && is_elf p (files w0)).
      + rewrite exec_cmd_eq. apply IH.
      + apply IH. }
  assert (∀ w0, ∃ m, collect_manifest E (destdir_pkg c r) (install_manifest c r) w0
                     = (Done m, snd (collect_manifest E (destdir_pkg c r)
                                       (install_manifest c r) w0))) as Hcollect.
  { intros w0. unfold collect_manifest, bind, get_fs, modify_fs, ret.
    destruct (FS.write_file _ _ _); eauto. }
  assert (∀ w0,
            (collect_manifest E (destdir_pkg c r) (install_manifest c r) ;;;
             rc <- run_step E "postinstall" (work_dir c r) (postinstall r) ;;
             (if decide (rc ≠ 0) then ret rc
              else log OK ("Instalado em DESTDIR: " +:+ destdir_pkg c r) ;;; ret 0)) w0
            = match run_step E "postinstall" (work_dir c r) (postinstall r)
                      (snd (collect_manifest E (destdir_pkg c r) (install_manifest c r) w0)) with
              | (Done rc, w') =>
                  if decide (rc ≠ 0) then (Done rc, w')
                  else (Done 0, noted OK ("Instalado em DESTDIR: " +:+ destdir_pkg c r) w')
              | (Thrown e, w') => (Thrown e, w')
              | (Aborted, w') => (Aborted, w')
              end) as Htail.
  { intros w0. destruct (Hcollect w0) as [m Hm]. unfold bind at 1. rewrite Hm.
    unfold bind at 1. destruct (run_step _ _ _ _ _) as [[rc|e|] w']; [|done|done].
    by destruct (decide (rc ≠ 0)). }
  unfold bind at 1.
  destruct (strip r).
  - unfold bind at 1. rewrite Hstrip. cbn [snd]. exact (Htail ws).
  - exact (Htail w2).
Qed.

(** A failing postinstall hook makes install fail with the hook's
    status, but nothing is rolled back: no restore command runs and the
    world is the one the installed files, the manifest and the failed
    hook left.  (The root and the snapshot directory can be created, and
    the root is still a directory when it is walked for stripping and
    for the manifest.) *)
Theorem postinstall_failure_is_not_rolled_back (E : Env) (c : Config) (r : Recipe) (w : World) :
  let w1 := mkWorld (recreated c r (files w)) (events w) in
  let wi := installed_world E c r w1 in
  let post := step_cmd (work_dir c r) (postinstall r) in
  let w2 := ran E (hook_cmd E c r (files w1)) w1 in
  let w3 := if strip r then snd (strip_binaries E (destdir_pkg c r) w2) else w2 in
  creatable (destdir_pkg c r) (FS.remove_all (destdir_pkg c r) (files w)) →
  creatable (Path.parent_path (snapshot_tar c r)) (files w) →
  FS.is_directory (destdir_pkg c r) (files w2) = true →
  FS.is_directory (destdir_pkg c r) (files w3) = true →
  snapshots_outside c r →
  rc_of E (hook_cmd E c r (files w1)) w1 = 0 →
  postinstall r ≠ "" →
  rc_of E post wi ≠ 0 →
  cmd_install E c r w = (Done (rc_of E post wi), ran E post wi).
Proof.
  intros w1 wi post w2 w3 _ _ _ _ Hout Hhook Hpost Hfail. clear w2 w3.
  rewrite cmd_install_prelude by done. fold w1.
  rewrite install_body_succeeded by done. fold wi.
  rewrite run_step_eq. rewrite bool_decide_eq_false_2 by done. fold post.
  by rewrite decide_True.
Qed.

Lemma postinstall_failure_is_not_rolled_back_witness :
  cmd_install DemoInstall.E Demo.cfg DemoPost.r (Demo.world DemoInstall.installed)
  = (Done 1, RunPost.failed_post)
  ∧ files RunPost.failed_post !! "/b/destdir/hello-2.12/bin/hello" = Some (File "whole")
  ∧ manifest_lines (install_manifest Demo.cfg DemoPost.r) (files RunPost.failed_post)
    = ["bin/hello"]
  ∧ spawned RunPost.failed_post
    = [ hook_cmd DemoInstall.E Demo.cfg DemoPost.r DemoInstall.installed;
        step_cmd (work_dir Demo.cfg DemoPost.r) "exit 1" ].
Proof.
  split; [|repeat split; vm_compute; reflexivity].
  assert (snapshots_outside Demo.cfg DemoPost.r) as Hout
    by (by apply demo_snapshots_outside).
  pose proof (postinstall_failure_is_not_rolled_back DemoInstall.E Demo.cfg DemoPost.r
                (Demo.world DemoInstall.installed)) as H.
  cbv zeta in H. rewrite H.
  - vm_compute; reflexivity.
  - apply (bool_decide_unpack _); vm_compute; exact I.
  - apply (bool_decide_unpack _); vm_compute; exact I.
  - vm_compute; reflexivity.
  - vm_compute; reflexivity.
  - exact Hout.
  - vm_compute; reflexivity.
  - done.
  - vm_compute. discriminate.
Defined.

(** ** Creating and loading recipes *)

Lemma keeps_trans (a b c : gmap string node) : keeps a b → keeps b c → keeps a c.
Proof. intros H1 H2 p n Hp. by apply H2, H1. Qed.

(** Where its directories can be created, [cmd_init] succeeds, runs no
    command, and never changes or deletes a node that exists:
    directories are only added, and a recipe that is already there is
    left as it is. *)
Theorem cmd_init_keeps_everything (c : Config) (nm : string) (w : World) :
  Forall (λ d, creatable d (files w))
         [recipe_dir c nm; sources c; work c; destroot c; logs c; repo c; snapshots c] →
  ∃ w', cmd_init c nm w = (Done 0, w')
        ∧ keeps (files w) (files w')
        ∧ spawned w' = spawned w
        ∧ (FS.exists_ (recipe_ini c nm) (files w) = true →
           files w' !! recipe_ini c nm = files w !! recipe_ini c nm).
Proof.
  intros _.
  set (fs7 := FS.create_directories (snapshots c)
                (FS.create_directories (repo c)
                   (FS.create_directories (logs c)
                      (FS.create_directories (destroot c)
                         (FS.create_directories (work c)
                            (FS.create_directories (sources c)
                               (FS.create_directories (recipe_dir c nm) (files w)))))))).
  assert (keeps (files w) fs7) as Hk7.
  { unfold fs7. repeat (eapply keeps_trans; [|apply create_directories_keeps]). by intros ??. }
  assert (∃ w', cmd_init c nm w = (Done 0, w') ∧ keeps fs7 (files w')
                ∧ spawned w' = spawned w) as (w' & Hrun & Hk & Hs).
  { unfold cmd_init, bind, modify_fs, get_fs, log, emit, ret. cbn [files events]. fold fs7.
    destruct (FS.exists_ (recipe_ini c nm) fs7) eqn:Hex; cbn [negb].
    - eexists. split; [done|]. cbn [files events]. split; [by intros ??|apply spawned_log].
    - eexists. split; [done|]. cbn [files events]. split; [|apply spawned_log].
      unfold FS.write_file. destruct (_ && _); [|by intros ??]. simpl.
      intros p n Hp. rewrite lookup_insert_ne; [done|]. intros <-.
      unfold FS.exists_ in Hex. apply bool_decide_eq_false in Hex. apply Hex. eauto. }
  exists w'. split; [done|]. split; [by eapply keeps_trans|]. split; [done|].
  intros Hex. unfold FS.exists_ in Hex. apply bool_decide_eq_true in Hex as [n Hn].
  rewrite Hn. by apply Hk, Hk7.
Qed.

Lemma cmd_init_keeps_everything_witness :
  ∃ w', cmd_init Demo.cfg "zlib" (Demo.world Demo.layout) = (Done 0, w')
        ∧ keeps (files (Demo.world Demo.layout)) (files w')
        ∧ spawned w' = spawned (Demo.world Demo.layout)
        ∧ (FS.exists_ (recipe_ini Demo.cfg "zlib") (files (Demo.world Demo.layout)) = true →
           files w' !! recipe_ini Demo.cfg "zlib"
           = files (Demo.world Demo.layout) !! recipe_ini Demo.cfg "zlib").
Proof.
  assert (Forall (λ d, creatable d (files (Demo.world Demo.layout)))
            [recipe_dir Demo.cfg "zlib"; sources Demo.cfg; work Demo.cfg; destroot Demo.cfg;
             logs Demo.cfg; repo Demo.cfg; snapshots Demo.cfg]) as H
    by (apply (bool_decide_unpack _); vm_compute; exact I).
  exact (cmd_init_keeps_everything Demo.cfg "zlib" (Demo.world Demo.layout) H).
Defined.

Lemma came_from_app k v seen line :
  came_from seen k v → came_from (seen ++ [line]) k v.
Proof.
  intros [->|(l & Hl & Ha)]; [by left|]. right. exists l. split; [|done].
  apply elem_of_app. by left.
Qed.

Lemma came_from_last k kraw vraw seen line :
  Str.split_at_first "=" line = Some (kraw, vraw) → Str.trim kraw = k →
  came_from (seen ++ [line]) k (Str.trim vraw).
Proof.
  intros Hs Hk. right. exists line. split; [apply elem_of_app; right; by left|].
  by exists kraw, vraw.
Qed.

Lemma read_from_step seen sec r line :
  read_from seen r → read_from (seen ++ [line]) (snd (Ini.step (sec, r) line)).
Proof.
  intros Hr.
  assert (read_from (seen ++ [line]) r) as Hkeep.
  { unfold read_from in *. eapply Forall_impl; [exact Hr|].
    intros [k f]. apply came_from_app. }
  unfold Ini.step. destruct line as [|ch line']; [done|].
  destruct (bool_decide (ch = "#"%char) || bool_decide (ch = ";"%char)); [done|].
  destruct (Ini.section_header (String ch line')); [done|].
  destruct (Str.split_at_first "=" (String ch line')) as [[kraw vraw]|] eqn:Hs; [|done].
  assert (∀ k, Str.trim kraw = k → came_from (seen ++ [String ch line']) k (Str.trim vraw))
    as Hnew by (intros k Hk; by eapply came_from_last).
  cbv zeta. pose proof Hkeep as Hall.
  unfold read_from, text_fields in Hkeep.
  repeat match goal with
         | H : Forall _ (_ :: _) |- _ => apply Forall_cons in H as [? H]
         end.
  cbn [fst snd] in *.
  destruct (bool_decide (sec = "package")); [|destruct (bool_decide (sec = "options"))];
    cbn [snd]; [| |exact Hall].
  - unfold Ini.set_package.
    repeat case_bool_decide; try exact Hall;
      unfold read_from, text_fields;
      repeat first [apply List.Forall_nil | apply List.Forall_cons];
      cbn [fst snd name version url sha256 vcs patches postremove prebuild configure
           prepare build install postinstall];
      first [assumption | by apply Hnew].
  - unfold Ini.set_options.
    repeat case_bool_decide; try exact Hall;
      unfold read_from, text_fields;
      repeat first [apply List.Forall_nil | apply List.Forall_cons];
      cbn [fst snd name version url sha256 vcs patches postremove prebuild configure
           prepare build install postinstall];
      first [assumption | by apply Hnew].
Qed.

Lemma read_from_foldl seen rest st :
  read_from seen (snd st) → read_from (seen ++ rest) (snd (foldl Ini.step st rest)).
Proof.
  revert seen st. induction rest as [|line rest IH]; intros seen st Hst; simpl.
  - by rewrite app_nil_r.
  - replace (seen ++ line :: rest) with ((seen ++ [line]) ++ rest)
      by (by rewrite <- app_assoc).
    apply IH. destruct st as [sec r]. by apply read_from_step.
Qed.

Lemma read_from_parse text :
  read_from (Str.getlines "010" "" text) (Ini.parse text).
Proof.
  unfold Ini.parse. apply (read_from_foldl [] _ ("", Ini.blank)).
  unfold read_from, text_fields. repeat constructor; by left.
Qed.

(** Whatever [Recipe::load] returns was read from the file: the file
    exists as a regular file, the name is not empty and is the value
    some line [name = ...] of the file assigns; the version is such a
    value too, or the default 1.0.0; and every other text field is
    empty or the value a line of the file assigns to its key.  So a
    file without a [name] line with a value is refused with an exception,
    and so is a file that cannot be opened. *)
Theorem load_invariants (file : string) (fs : gmap string node) (r : Recipe) :
  Ini.load file fs = Done r →
  ∃ text, fs !! file = Some (File text)
    ∧ name r ≠ "" ∧ version r ≠ ""
    ∧ (∃ line, line ∈ Str.getlines "010" "" text ∧ assigns "name" (name r) line)
    ∧ (version r = "1.0.0"
       ∨ ∃ line, line ∈ Str.getlines "010" "" text ∧ assigns "version" (version r) line)
    ∧ Forall (λ kf, kf.1 = "version" ∨ came_from (Str.getlines "010" "" text) kf.1 (kf.2 r))
             text_fields.
Proof.
  unfold Ini.load.
  assert (∀ text, Ini.finish (Ini.parse text) = Done r →
            name r ≠ "" ∧ version r ≠ ""
            ∧ name r = name (Ini.parse text)
            ∧ (version r = "1.0.0" ∨ version r = version (Ini.parse text))
            ∧ Forall (λ kf : string * (Recipe → string),
                        kf.1 = "version" ∨ kf.2 r = kf.2 (Ini.parse text)) text_fields)
    as Hfin.
  { intros text. unfold Ini.finish.
    destruct (bool_decide (name (Ini.parse text) = "")) eqn:Hn; [done|].
    apply bool_decide_eq_false in Hn.
    destruct (bool_decide (version (Ini.parse text) = "")) eqn:Hv; intros [= <-]; simpl.
    - split; [done|]. split; [done|]. split; [done|]. split; [by left|].
      unfold text_fields.
      repeat first [apply List.Forall_nil | apply List.Forall_cons]; simpl; auto.
    - apply bool_decide_eq_false in Hv.
      split; [done|]. split; [done|]. split; [done|]. split; [by right|].
      unfold text_fields.
      repeat first [apply List.Forall_nil | apply List.Forall_cons]; simpl; auto. }
  assert (∀ text, Ini.finish (Ini.parse text) = Done r →
            name r ≠ "" ∧ version r ≠ ""
            ∧ (∃ line, line ∈ Str.getlines "010" "" text ∧ assigns "name" (name r) line)
            ∧ (version r = "1.0.0"
               ∨ ∃ line, line ∈ Str.getlines "010" "" text ∧ assigns "version" (version r) line)
            ∧ Forall (λ kf, kf.1 = "version"
                            ∨ came_from (Str.getlines "010" "" text) kf.1 (kf.2 r))
                     text_fields) as Hread.
  { intros text Hdone. destruct (Hfin text Hdone) as (Hn & Hv & Hne & Hve & Hall).
    pose proof (read_from_parse text) as Hp. unfold read_from in Hp.
    split; [done|]. split; [done|]. split; [|split].
    - rewrite Forall_forall in Hp.
      destruct (Hp ("name", name)) as [He|Hl]; [unfold text_fields; set_solver| |].
      + simpl in He. congruence.
      + simpl in Hl. by rewrite Hne.
    - destruct Hve as [?|Hve]; [by left|].
      rewrite Forall_forall in Hp.
      destruct (Hp ("version", version)) as [He|Hl]; [unfold text_fields; set_solver| |].
      + simpl in He. congruence.
      + right. simpl in Hl. by rewrite Hve.
    - rewrite Forall_forall in Hp, Hall. apply Forall_forall. intros kf Hin.
      destruct (Hall kf Hin) as [?|Heq]; [by left|]. right. rewrite Heq. by apply Hp. }
  destruct (fs !! file) as [[|text]|] eqn:Hf; [| |done].
  - intros Hdone. exfalso. destruct (Hfin "" Hdone) as (Hn & _ & Hne & _).
    apply Hn. rewrite Hne. reflexivity.
  - intros Hdone. exists text. split; [done|]. by apply Hread.
Qed.

Lemma load_invariants_witness :
  ∃ text, DemoIni.fs !! "/b/recipes/hello/recipe.ini" = Some (File text)
    ∧ name DemoIni.loaded ≠ "" ∧ version DemoIni.loaded ≠ ""
    ∧ (∃ line, line ∈ Str.getlines "010" "" text ∧ assigns "name" (name DemoIni.loaded) line)
    ∧ (version DemoIni.loaded = "1.0.0"
       ∨ ∃ line, line ∈ Str.getlines "010" "" text
                 ∧ assigns "version" (version DemoIni.loaded) line)
    ∧ Forall (λ kf, kf.1 = "version"
                    ∨ came_from (Str.getlines "010" "" text) kf.1 (kf.2 DemoIni.loaded))
             text_fields.
Proof.
  assert (Ini.load "/b/recipes/hello/recipe.ini" DemoIni.fs = Done DemoIni.loaded) as H
    by (vm_compute; reflexivity).
  exact (load_invariants "/b/recipes/hello/recipe.ini" DemoIni.fs DemoIni.loaded H).
Defined.

(** A name given in the [options] section, or only in a comment, is no
    name; a file that holds nothing else is refused. *)
Lemma load_refuses_without_name :
  Ini.load "/r" {[ "/r" := File ("[options]" +:+ Str.nl +:+ "name=x" +:+ Str.nl
                                 +:+ "# name=y" +:+ Str.nl) ]}
  = Thrown "Campo [package].name ausente na receita"
  ∧ Ini.load "/r" (∅ : gmap string node) = Thrown "Não foi possível abrir receita: /r".
Proof. split; vm_compute; reflexivity. Qed.

(** ** Manifests *)

Lemma chars_cons (a : ascii) (s : string) : chars (String a s) = a :: chars s.
Proof. reflexivity. Qed.

Lemma getlines_app_nosep sep cur x rest :
  sep ∉ chars x → Str.getlines sep cur (x +:+ rest) = Str.getlines sep (cur +:+ x) rest.
Proof.
  revert cur. induction x as [|a x IH]; intros cur Hx.
  - by rewrite append_nil_r.
  - rewrite chars_cons in Hx. apply not_elem_of_cons in Hx as [Ha Hx].
    rewrite append_cons. cbn [Str.getlines]. rewrite decide_False by done.
    rewrite IH by done. f_equal. by rewrite append_assoc.
Qed.

Lemma getlines_sep sep cur rest :
  Str.getlines sep cur (String sep rest) = cur :: Str.getlines sep "" rest.
Proof. cbn [Str.getlines]. by rewrite decide_True. Qed.

Lemma concat_empty_cons (x : string) (l : list string) :
  String.concat "" (x :: l) = x +:+ String.concat "" l.
Proof. destruct l; simpl; [by rewrite append_nil_r|done]. Qed.

(** Lines written one per entry read back as the entries. *)
Lemma getlines_lines sep (ls : list string) :
  Forall (λ l, sep ∉ chars l) ls →
  Str.getlines sep "" (String.concat "" ((λ l, l +:+ String sep "") <$> ls)) = ls.
Proof.
  induction 1 as [|l ls Hl _ IH]; [done|].
  rewrite fmap_cons, concat_empty_cons, append_assoc.
  rewrite getlines_app_nosep by done.
  change (String sep "" +:+ ?r) with (String sep r).
  rewrite getlines_sep. by rewrite IH.
Qed.

(** [collect_manifest], when it can create the manifest and the root is
    a directory, returns 0 and changes that one file only; read back
    line by line, the manifest is the list of the relative paths of the
    regular files below the root, provided none of them contains a
    newline (the format has no escaping). *)
Theorem manifest_round_trip (E : Env) (dest manifest : string) (w : World)
    (fs0 : gmap string node) :
  FS.write_file manifest "" (files w) = Some fs0 →
  FS.is_directory dest fs0 = true →
  Forall (λ l, "010"%char ∉ chars l) (listed E dest fs0) →
  ∃ w', collect_manifest E dest manifest w = (Done 0, w')
        ∧ manifest_lines manifest (files w') = listed E dest fs0
        ∧ (∀ p, p ≠ manifest → files w' !! p = files w !! p)
        ∧ events w' = events w.
Proof.
  intros Hw _ Hnl. unfold collect_manifest, bind, get_fs, modify_fs, ret. rewrite Hw.
  eexists. split; [done|]. cbn [files events].
  split; [|split; [|done]].
  - unfold manifest_lines. rewrite lookup_insert_eq.
    assert (manifest_text E dest fs0
            = String.concat "" ((λ l, l +:+ String "010"%char "") <$> listed E dest fs0)) as ->.
    { unfold manifest_text, listed. by rewrite <- list_fmap_compose. }
    by apply getlines_lines.
  - intros p Hp. rewrite lookup_insert_ne by done.
    unfold FS.write_file in Hw. destruct (_ && _); [|done].
    injection Hw as <-. by rewrite lookup_insert_ne.
Qed.

Lemma collect_manifest_unwritable (E : Env) (dest manifest : string) (w : World) :
  FS.write_file manifest "" (files w) = None →
  collect_manifest E dest manifest w = (Done 1, w).
Proof. intros Hw. unfold collect_manifest, bind, get_fs, ret. by rewrite Hw. Qed.

Lemma manifest_round_trip_witness :
  ∃ w', collect_manifest DemoInstall.E DemoInstall.dest "/b/logs/hello-2.12.manifest"
          (Demo.world DemoManifest.staged) = (Done 0, w')
        ∧ manifest_lines "/b/logs/hello-2.12.manifest" (files w')
          = listed DemoInstall.E DemoInstall.dest DemoManifest.staged0
        ∧ (∀ p, p ≠ "/b/logs/hello-2.12.manifest" →
                files w' !! p = files (Demo.world DemoManifest.staged) !! p)
        ∧ events w' = events (Demo.world DemoManifest.staged).
Proof.
  assert (FS.write_file "/b/logs/hello-2.12.manifest" "" (files (Demo.world DemoManifest.staged))
          = Some DemoManifest.staged0) as Hw by (vm_compute; reflexivity).
  assert (Forall (λ l, "010"%char ∉ chars l)
            (listed DemoInstall.E DemoInstall.dest DemoManifest.staged0)) as Hnl.
  { apply (bool_decide_unpack _). vm_compute. exact I. }
  assert (FS.is_directory DemoInstall.dest DemoManifest.staged0 = true) as Hd
    by (vm_compute; reflexivity).
  exact (manifest_round_trip DemoInstall.E DemoInstall.dest "/b/logs/hello-2.12.manifest"
           (Demo.world DemoManifest.staged) DemoManifest.staged0 Hw Hd Hnl).
Defined.

Lemma manifest_round_trip_listing :
  listed DemoInstall.E DemoInstall.dest DemoManifest.staged0 = ["old"; "bin/hello"].
Proof. vm_compute. reflexivity. Qed.

Lemma remove_lookup_ne p fs k : k ≠ p → FS.remove p fs !! k = fs !! k.
Proof.
  intros Hne. unfold FS.remove.
  destruct (fs !! p) as [[|content]|]; [destruct (FS.has_entries p fs)| |];
    try done; by rewrite lookup_delete_ne.
Qed.

Lemma remove_lookup_None p fs k : fs !! k = None → FS.remove p fs !! k = None.
Proof.
  intros Hk. destruct (decide (k = p)) as [->|Hne]; [|by rewrite remove_lookup_ne].
  unfold FS.remove. by rewrite Hk.
Qed.

Lemma remove_file p fs content : fs !! p = Some (File content) → FS.remove p fs !! p = None.
Proof. intros Hp. unfold FS.remove. rewrite Hp. apply lookup_delete_eq. Qed.

Lemma foldl_remove_None dest lines fs k :
  fs !! k = None →
  foldl (λ acc rel, FS.remove (Path.join dest rel) acc) fs lines !! k = None.
Proof.
  revert fs. induction lines as [|l lines IH]; intros fs Hk; simpl; [done|].
  by apply IH, remove_lookup_None.
Qed.

Lemma foldl_remove_outside dest lines fs k :
  (∀ l, l ∈ lines → Path.join dest l ≠ k) →
  foldl (λ acc rel, FS.remove (Path.join dest rel) acc) fs lines !! k = fs !! k.
Proof.
  revert fs. induction lines as [|l lines IH]; intros fs Hall; simpl; [done|].
  rewrite IH by (intros l' Hl'; apply Hall; by right).
  apply remove_lookup_ne. intros ->. by apply (Hall l); [left|].
Qed.

Lemma foldl_remove_file dest lines fs l content :
  l ∈ lines →
  fs !! Path.join dest l = Some (File content) →
  foldl (λ acc rel, FS.remove (Path.join dest rel) acc) fs lines !! Path.join dest l = None.
Proof.
  revert fs. induction lines as [|x lines IH]; intros fs Hin Hf; [by apply elem_of_nil in Hin|].
  simpl. destruct (decide (Path.join dest x = Path.join dest l)) as [Heq|Hne].
  - apply foldl_remove_None. rewrite Heq. by eapply remove_file.
  - apply elem_of_cons in Hin as [->|Hin]; [done|].
    apply IH; [done|]. by rewrite remove_lookup_ne.
Qed.

Lemma remove_all_lookup_None d fs k : fs !! k = None → FS.remove_all d fs !! k = None.
Proof.
  intros Hk. apply eq_None_not_Some. intros [n Hn].
  apply remove_all_lookup in Hn as [Hn _]. congruence.
Qed.

(** Remove trusts the manifest.  A manifest line that is an absolute
    path replaces the installation root in [dest / rel]; so a regular
    file named that way in the manifest is deleted by remove wherever it
    is, outside the root too. *)
Theorem remove_deletes_absolute_manifest_lines (E : Env) (c : Config) (r : Recipe)
    (w w1 : World) (l content : string) :
  creatable (Path.parent_path (snapshot_tar c r)) (files w) →
  make_snapshot E (destdir_pkg c r) (snapshot_tar c r) w = (Done tt, w1) →
  postremove r = "" →
  l ∈ manifest_lines (install_manifest c r) (files w1) →
  Path.is_absolute l = true →
  files w1 !! l = Some (File content) →
  ∃ w', cmd_remove E c r w = (Done 0, w') ∧ files w' !! l = None.
Proof.
  intros _ Hsnap Hpost Hl Habs Hfile.
  rewrite cmd_remove_eq, Hsnap. eexists. split; [done|].
  unfold postremove_run. rewrite bool_decide_eq_true_2 by done.
  unfold swept.
  destruct (FS.exists_ (install_manifest c r) (files w1)) eqn:Hex.
  - cbn [files]. apply remove_all_lookup_None.
    assert (Path.join (destdir_pkg c r) l = l) as Hj by (unfold Path.join; by rewrite Habs).
    rewrite <- Hj. eapply foldl_remove_file; [exact Hl|]. rewrite Hj. exact Hfile.
  - exfalso. unfold manifest_lines, FS.exists_ in *.
    apply bool_decide_eq_false in Hex.
    destruct (files w1 !! install_manifest c r) as [[|t]|] eqn:Hm;
      try by apply elem_of_nil in Hl. apply Hex. eauto.
Qed.

Lemma remove_deletes_absolute_manifest_lines_witness :
  ∃ w', cmd_remove DemoInstall.E Demo.cfg DemoInstall.r_good (Demo.world DemoManifest.fs)
        = (Done 0, w')
        ∧ files w' !! "/b/sources/precious" = None.
Proof.
  assert (creatable (Path.parent_path (snapshot_tar Demo.cfg DemoInstall.r_good))
            (files (Demo.world DemoManifest.fs))) as H0
    by (apply (bool_decide_unpack _); vm_compute; exact I).
  assert (make_snapshot DemoInstall.E (destdir_pkg Demo.cfg DemoInstall.r_good)
            (snapshot_tar Demo.cfg DemoInstall.r_good) (Demo.world DemoManifest.fs)
          = (Done tt, DemoManifest.w1)) as H1 by (vm_compute; reflexivity).
  assert (postremove DemoInstall.r_good = "") as H2 by reflexivity.
  assert ("/b/sources/precious"
          ∈ manifest_lines (install_manifest Demo.cfg DemoInstall.r_good)
              (files DemoManifest.w1)) as H3.
  { apply list_elem_of_In. vm_compute. auto. }
  assert (Path.is_absolute "/b/sources/precious" = true) as H4 by reflexivity.
  assert (files DemoManifest.w1 !! "/b/sources/precious" = Some (File "data")) as H5
    by (vm_compute; reflexivity).
  exact (remove_deletes_absolute_manifest_lines DemoInstall.E Demo.cfg DemoInstall.r_good
           (Demo.world DemoManifest.fs) DemoManifest.w1 "/b/sources/precious" "data"
           H0 H1 H2 H3 H4 H5).
Defined.

Lemma prefix_append (a b : string) : String.prefix a (a +:+ b) = true.
Proof.
  induction a as [|x a IH]; [by destruct b|].
  rewrite append_cons. cbn [String.prefix]. by destruct (ascii_dec x x).
Qed.

Lemma join_under dest l :
  dest ≠ "" → Str.ends_with "/" dest = false → Path.is_absolute l = false →
  Path.under dest (Path.join dest l) = true.
Proof.
  intros Hne Hend Hrel. unfold Path.join, Path.under, Str.starts_with.
  rewrite Hrel, Hend. rewrite bool_decide_eq_false_2 by done.
  rewrite <- append_assoc. apply prefix_append.
Qed.

(** On a tree of normalised paths, with a normalised installation
    root, a manifest of relative lines (none naming a parent directory),
    as [collect_manifest] writes them, and no postremove hook, remove
    succeeds, leaves nothing of the installation root, and changes
    nothing outside of it.  In particular the manifest itself, which
    lives outside the root, is still there afterwards. *)
Theorem remove_stays_inside_root (E : Env) (c : Config) (r : Recipe) (w w1 : World) :
  creatable (Path.parent_path (snapshot_tar c r)) (files w) →
  Path.normal (destdir_pkg c r) = true →
  tidy (files w1) →
  make_snapshot E (destdir_pkg c r) (snapshot_tar c r) w = (Done tt, w1) →
  postremove r = "" →
  destdir_pkg c r ≠ "" →
  Str.ends_with "/" (destdir_pkg c r) = false →
  Forall (λ l, Path.is_absolute l = false ∧ Str.contains ".." l = false)
         (manifest_lines (install_manifest c r) (files w1)) →
  ∃ w', cmd_remove E c r w = (Done 0, w')
        ∧ FS.exists_ (destdir_pkg c r) (files w') = false
        ∧ root_content (destdir_pkg c r) (files w') = ∅
        ∧ (∀ k, k ≠ destdir_pkg c r → Path.under (destdir_pkg c r) k = false →
                files w' !! k = files w1 !! k).
Proof.
  intros _ _ _ Hsnap Hpost Hne Hend Hlines.
  rewrite cmd_remove_eq, Hsnap. eexists. split; [done|].
  unfold postremove_run. rewrite bool_decide_eq_true_2 by done.
  split; [apply swept_root_gone|]. split; [apply swept_root_gone|].
  intros k Hk Hu. unfold swept.
  assert (∀ fs, FS.remove_all (destdir_pkg c r) fs !! k = fs !! k) as Hrm.
  { intros fs. destruct (fs !! k) as [n|] eqn:Hf.
    - by apply remove_all_lookup.
    - by apply remove_all_lookup_None. }
  destruct (FS.exists_ (install_manifest c r) (files w1)); cbn [files]; rewrite Hrm; [|done].
  apply foldl_remove_outside. intros l Hl Hj.
  rewrite Forall_forall in Hlines. destruct (Hlines l Hl) as [Hrel _].
  pose proof (join_under (destdir_pkg c r) l Hne Hend Hrel) as Hin.
  rewrite Hj in Hin. congruence.
Qed.

Lemma remove_stays_inside_root_witness :
  ∃ w', cmd_remove DemoInstall.E Demo.cfg DemoInstall.r_good (Demo.world DemoManifest.fs_ok)
        = (Done 0, w')
        ∧ FS.exists_ (destdir_pkg Demo.cfg DemoInstall.r_good) (files w') = false
        ∧ root_content (destdir_pkg Demo.cfg DemoInstall.r_good) (files w') = ∅
        ∧ (∀ k, k ≠ destdir_pkg Demo.cfg DemoInstall.r_good →
                Path.under (destdir_pkg Demo.cfg DemoInstall.r_good) k = false →
                files w' !! k = files DemoManifest.w1_ok !! k).
Proof.
  assert (creatable (Path.parent_path (snapshot_tar Demo.cfg DemoInstall.r_good))
            (files (Demo.world DemoManifest.fs_ok))) as H0
    by (apply (bool_decide_unpack _); vm_compute; exact I).
  assert (Path.normal (destdir_pkg Demo.cfg DemoInstall.r_good) = true) as Hn
    by (vm_compute; reflexivity).
  assert (tidy (files DemoManifest.w1_ok)) as Ht
    by (apply (bool_decide_unpack _); vm_compute; exact I).
  assert (make_snapshot DemoInstall.E (destdir_pkg Demo.cfg DemoInstall.r_good)
            (snapshot_tar Demo.cfg DemoInstall.r_good) (Demo.world DemoManifest.fs_ok)
          = (Done tt, DemoManifest.w1_ok)) as H1 by (vm_compute; reflexivity).
  assert (postremove DemoInstall.r_good = "") as H2 by reflexivity.
  assert (destdir_pkg Demo.cfg DemoInstall.r_good ≠ "") as H3 by (vm_compute; discriminate).
  assert (Str.ends_with "/" (destdir_pkg Demo.cfg DemoInstall.r_good) = false) as H4
    by (vm_compute; reflexivity).
  assert (Forall (λ l, Path.is_absolute l = false ∧ Str.contains ".." l = false)
            (manifest_lines (install_manifest Demo.cfg DemoInstall.r_good)
               (files DemoManifest.w1_ok))) as H5.
  { vm_compute. repeat constructor. }
  exact (remove_stays_inside_root DemoInstall.E Demo.cfg DemoInstall.r_good
           (Demo.world DemoManifest.fs_ok) DemoManifest.w1_ok H0 Hn Ht H1 H2 H3 H4 H5).
Defined.

(** After that remove the manifest is still on disk, and so is the
    unrelated file. *)
Lemma manifest_survives_remove :
  let w' := snd (cmd_remove DemoInstall.E Demo.cfg DemoInstall.r_good
                   (Demo.world DemoManifest.fs_ok)) in
  files w' !! install_manifest Demo.cfg DemoInstall.r_good
  = Some (File ("old" +:+ Str.nl))
  ∧ files w' !! "/b/sources/precious" = Some (File "data").
Proof. split; vm_compute; reflexivity. Qed.

(** ** Lists in recipe fields *)

Lemma rev_app_acc (s acc : string) : String.rev_app s acc = String.rev_app s "" +:+ acc.
Proof.
  revert acc. induction s as [|a s IH]; intros acc; [done|].
  cbn [String.rev_app]. rewrite (IH (String a acc)), (IH (String a "")).
  by rewrite append_assoc.
Qed.

Lemma rev_cons (a : ascii) (s : string) : String.rev (String a s) = String.rev s +:+ String a "".
Proof. unfold String.rev. cbn [String.rev_app]. apply rev_app_acc. Qed.

Lemma rev_append (a b : string) : String.rev (a +:+ b) = String.rev b +:+ String.rev a.
Proof.
  induction a as [|x a IH].
  - change ("" +:+ b) with b. change (String.rev "") with "". by rewrite append_nil_r.
  - rewrite append_cons, !rev_cons, IH. by rewrite append_assoc.
Qed.

Lemma rev_involutive (s : string) : String.rev (String.rev s) = s.
Proof.
  induction s as [|a s IH]; [done|].
  rewrite rev_cons, rev_append, IH. done.
Qed.

Lemma chars_append (a b : string) : chars (a +:+ b) = chars a ++ chars b.
Proof.
  induction a as [|x a IH]; [done|].
  rewrite append_cons, !chars_cons, IH. done.
Qed.

Lemma chars_rev (s : string) (ch : ascii) : ch ∈ chars (String.rev s) ↔ ch ∈ chars s.
Proof.
  induction s as [|a s IH]; [done|].
  rewrite rev_cons, chars_append, elem_of_app, IH.
  change (chars (String a "")) with [a]. rewrite chars_cons.
  rewrite list_elem_of_singleton, elem_of_cons. tauto.
Qed.

Lemma chars_drop_ws (s : string) (ch : ascii) : ch ∈ chars (Str.drop_ws s) → ch ∈ chars s.
Proof.
  induction s as [|a s IH]; [done|].
  cbn [Str.drop_ws]. destruct (Str.is_trim_ws a); [|done].
  intros H%IH. rewrite chars_cons. by right.
Qed.

Lemma chars_trim (s : string) (ch : ascii) : ch ∈ chars (Str.trim s) → ch ∈ chars s.
Proof.
  unfold Str.trim. intros H. apply (proj1 (chars_rev _ _)) in H.
  apply chars_drop_ws in H. apply (proj1 (chars_rev _ _)) in H. by apply chars_drop_ws.
Qed.

Lemma head_kept_drop_ws (s : string) : head_kept (Str.drop_ws s).
Proof.
  induction s as [|a s IH]; [done|].
  cbn [Str.drop_ws]. by destruct (Str.is_trim_ws a) eqn:Ha.
Qed.

Lemma drop_ws_head_kept (s : string) : head_kept s → Str.drop_ws s = s.
Proof. destruct s as [|a s]; [done|]. simpl. by intros ->. Qed.

Lemma head_kept_append (a b : string) : a ≠ "" → head_kept (a +:+ b) ↔ head_kept a.
Proof. destruct a as [|x a]; [done|]. intros _. by rewrite append_cons. Qed.

Lemma rev_nonempty (s : string) : s ≠ "" → String.rev s ≠ "".
Proof.
  destruct s as [|a s]; [done|]. intros _. rewrite rev_cons.
  destruct (String.rev s); [done|]. by rewrite append_cons.
Qed.

(** Dropping leading blanks does not expose a blank at the end. *)
Lemma last_kept_drop_ws (s : string) :
  head_kept (String.rev s) → head_kept (String.rev (Str.drop_ws s)).
Proof.
  induction s as [|a s IH]; [done|].
  cbn [Str.drop_ws]. destruct (Str.is_trim_ws a) eqn:Ha; [|done].
  rewrite rev_cons. destruct (decide (s = "")) as [->|Hne].
  - simpl. congruence.
  - rewrite head_kept_append by (by apply rev_nonempty). apply IH.
Qed.

Lemma trim_idem (s : string) : Str.trim (Str.trim s) = Str.trim s.
Proof.
  unfold Str.trim.
  set (A := Str.drop_ws s). set (B := Str.drop_ws (String.rev A)).
  assert (head_kept (String.rev B)) as HB.
  { unfold B. apply last_kept_drop_ws. rewrite rev_involutive. apply head_kept_drop_ws. }
  rewrite (drop_ws_head_kept (String.rev B)) by done.
  rewrite rev_involutive.
  by rewrite (drop_ws_head_kept B) by apply head_kept_drop_ws.
Qed.

Lemma getlines_nosep sep cur s x :
  sep ∉ chars cur → x ∈ Str.getlines sep cur s → sep ∉ chars x.
Proof.
  revert cur. induction s as [|a s IH]; intros cur Hcur; cbn [Str.getlines].
  - destruct (decide (cur = "")); [by intros ?%elem_of_nil|].
    by intros ->%list_elem_of_singleton.
  - destruct (decide (a = sep)) as [->|Hne].
    + intros [->|Hin]%elem_of_cons; [done|]. apply (IH ""); [apply not_elem_of_nil|done].
    + apply IH. rewrite chars_append. change (chars (String a "")) with [a].
      rewrite elem_of_app, list_elem_of_singleton. intros [?|?]; [done|congruence].
Qed.

Lemma getlines_concat sep (items : list string) :
  Forall (λ x, x ≠ "" ∧ sep ∉ chars x) items →
  Str.getlines sep "" (String.concat (String sep "") items) = items.
Proof.
  induction 1 as [|x items [Hne Hx] Hitems IH]; [done|].
  destruct items as [|y items].
  - simpl. rewrite <- (append_nil_r x) at 1. rewrite getlines_app_nosep by done.
    simpl. by rewrite decide_False.
  - change (String.concat (String sep "") (x :: y :: items))
      with (x +:+ String sep "" +:+ String.concat (String sep "") (y :: items)).
    rewrite getlines_app_nosep by done.
    change (String sep "" +:+ ?r) with (String sep r).
    rewrite getlines_sep. by rewrite IH.
Qed.

(** [Recipe::split_list] yields canonical items only (non-empty, free of
    commas, with no blank at either end), and it is the inverse of
    joining with commas on lists of canonical items; hence splitting,
    joining and splitting again gives the same list. *)
Theorem split_list_canonical (s : string) (items : list string) :
  Forall canonical_item (split_list s)
  ∧ (Forall canonical_item items → split_list (String.concat "," items) = items)
  ∧ split_list (String.concat "," (split_list s)) = split_list s.
Proof.
  assert (Forall canonical_item (split_list s)) as Hsound.
  { apply Forall_forall. intros x Hx. apply split_list_items in Hx as (Hne & raw & Hraw & ->).
    split; [done|]. split; [|apply trim_idem].
    intros Hc. apply chars_trim in Hc. revert Hc.
    eapply getlines_nosep; [|exact Hraw]. apply not_elem_of_nil. }
  assert (∀ l, Forall canonical_item l → split_list (String.concat "," l) = l) as Hrt.
  { intros l Hl. unfold split_list.
    change "," with (String ","%char "") at 1.
    rewrite getlines_concat
      by (eapply Forall_impl; [exact Hl|]; intros x (? & ? & ?); by split).
    induction Hl as [|x l (Hne & _ & Htrim) _ IH]; [done|].
    rewrite fmap_cons. cbn [List.filter]. rewrite Htrim.
    rewrite bool_decide_eq_false_2 by done. cbn [negb]. by rewrite IH. }
  split; [done|]. split; [apply Hrt|by apply Hrt].
Qed.

Lemma split_list_canonical_example :
  split_list " a.patch ,, git:https://x/y.git@main ,b.diff, "
  = ["a.patch"; "git:https://x/y.git@main"; "b.diff"]
  ∧ split_list "" = [] ∧ split_list " , ," = [].
Proof. repeat split; vm_compute; reflexivity. Qed.

(** ** A fresh recipe *)

Lemma getlines_line sep x rest :
  sep ∉ chars x →
  Str.getlines sep "" (x +:+ String sep rest) = x :: Str.getlines sep "" rest.
Proof. intros Hx. rewrite getlines_app_nosep by done. by rewrite getlines_sep. Qed.

Lemma template_lines (nm : string) :
  Ini.template nm
  = "[package]" +:+ String "010" (("name=" +:+ nm) +:+ String "010" template_rest).
Proof.
  unfold Ini.template, Str.nl. rewrite !append_assoc. reflexivity.
Qed.

Lemma step_name (r : Recipe) (nm : string) :
  Ini.step ("package", r) ("name=" +:+ nm)
  = ("package", Ini.set_package "name" (Str.trim nm) r).
Proof.
  change ("name=" +:+ nm)
    with (String "n" (String "a" (String "m" (String "e" (String "=" nm))))).
  cbv -[Str.trim Ini.set_package].
  change (Str.trim "name") with "name". reflexivity.
Qed.

(** The recipe [cmd_init] writes for a name without line break loads
    back ([Recipe::load]) as the initial recipe of the trimmed name:
    version 1.0.0, stripping on, submodules off, every other field
    empty. A name of blanks only gives a file that cannot be loaded. *)
Theorem template_loads_back (nm file : string) (fs : gmap string node) :
  "010"%char ∉ chars nm →
  fs !! file = Some (File (Ini.template nm)) →
  Ini.load file fs
  = if bool_decide (Str.trim nm = "")
    then Thrown "Campo [package].name ausente na receita"
    else Done (initial_recipe (Str.trim nm)).
Proof.
  intros Hnl Hfile. unfold Ini.load. rewrite Hfile.
  unfold Ini.parse. rewrite template_lines.
  rewrite getlines_line by (apply (bool_decide_unpack _); vm_compute; exact I).
  rewrite getlines_line.
  2:{ rewrite chars_append, not_elem_of_app. split; [|done].
      apply (bool_decide_unpack _); vm_compute; exact I. }
  cbn [foldl].
  change (Ini.step ("", Ini.blank) "[package]") with ("package", Ini.blank).
  rewrite step_name.
  generalize (Str.trim nm). intros v.
  assert (snd (foldl Ini.step ("package", Ini.set_package "name" v Ini.blank)
                 (Str.getlines "010" "" template_rest))
          = initial_recipe v) as -> by (vm_compute; reflexivity).
  unfold Ini.finish, initial_recipe. cbn [name version].
  destruct (bool_decide (v = "")); reflexivity.
Qed.

Lemma template_loads_back_witness :
  ensure_recipe Demo.cfg "zlib" DemoInit.created
  = (Done (Some (initial_recipe "zlib")), DemoInit.created).
Proof.
  assert ("010"%char ∉ chars "zlib") as Hnl
    by (apply (bool_decide_unpack _); vm_compute; exact I).
  assert (files DemoInit.created !! recipe_ini Demo.cfg "zlib" = Some (File (Ini.template "zlib")))
    as Hfile by (vm_compute; reflexivity).
  pose proof (template_loads_back "zlib" (recipe_ini Demo.cfg "zlib") (files DemoInit.created)
                Hnl Hfile) as Hload.
  unfold ensure_recipe, bind, get_fs. unfold FS.exists_. rewrite Hfile. cbn [negb is_Some_dec].
  rewrite Hload. vm_compute. reflexivity.
Defined.

(** ** Fetching without sources *)

(** A recipe that lists no URL and whose [vcs] field is empty or does not
    start with [git:] gives fetch nothing to do: with the tools present
    it runs no command and returns 0 (a [vcs] of another kind is ignored
    without a word).  Extract will nevertheless look for
    [<name>-<version>.tar] when [vcs] is empty, and for nothing at all
    otherwise. *)
Theorem cmd_fetch_without_sources (E : Env) (c : Config) (r : Recipe) (w : World) :
  creatable (sources c) (files w) →
  missing_tools E (files w) required_tools = [] →
  split_list (url r) = [] →
  negb (bool_decide (vcs r = "")) && Str.starts_with "git:" (vcs r) = false →
  cmd_fetch E c r w = (Done 0, with_sources c w)
  ∧ source_paths c r
    = if bool_decide (vcs r = "") then [Path.join (sources c) (name_version r +:+ ".tar")]
      else [].
Proof.
  intros _ Htools Hurls Hvcs. split.
  - unfold cmd_fetch, bind at 1.
    rewrite (check_tools_strict_missing E required_tools w), Htools.
    unfold bind at 1, modify_fs at 1. unfold bind at 1.
    fold (with_sources c w). rewrite Hurls. cbn [fetch_loop]. unfold ret at 1.
    by rewrite Hvcs.
  - unfold source_paths. rewrite Hurls. by destruct (bool_decide (vcs r = "")).
Qed.

Lemma cmd_fetch_without_sources_witness :
  cmd_fetch DemoTools.E_git Demo.cfg DemoInstall.r_good (Demo.world Demo.layout)
  = (Done 0, with_sources Demo.cfg (Demo.world Demo.layout))
  ∧ source_paths Demo.cfg DemoInstall.r_good
    = if bool_decide (vcs DemoInstall.r_good = "")
      then [Path.join (sources Demo.cfg) (name_version DemoInstall.r_good +:+ ".tar")]
      else [].
Proof.
  assert (creatable (sources Demo.cfg) (files (Demo.world Demo.layout))) as H0
    by (apply (bool_decide_unpack _); vm_compute; exact I).
  assert (missing_tools DemoTools.E_git (files (Demo.world Demo.layout)) required_tools = [])
    as H1 by (vm_compute; reflexivity).
  assert (split_list (url DemoInstall.r_good) = []) as H2 by (vm_compute; reflexivity).
  assert (negb (bool_decide (vcs DemoInstall.r_good = ""))
          && Str.starts_with "git:" (vcs DemoInstall.r_good) = false) as H3
    by (vm_compute; reflexivity).
  exact (cmd_fetch_without_sources DemoTools.E_git Demo.cfg DemoInstall.r_good
           (Demo.world Demo.layout) H0 H1 H2 H3).
Defined.

(** ** A directory of patches *)

Lemma exec_cmd_env (E1 E2 : Env) (cmd : string) (w : World) :
  sh E1 = sh E2 → exec_cmd E1 cmd w = exec_cmd E2 cmd w.
Proof. intros Hsh. unfold exec_cmd. by rewrite Hsh. Qed.

Lemma apply_patch_file_env (E1 E2 : Env) (p wd : string) (w : World) :
  sh E1 = sh E2 → apply_patch_file E1 p wd w = apply_patch_file E2 p wd w.
Proof.
  intros Hsh. unfold apply_patch_file, bind.
  rewrite (exec_cmd_env E1 E2 _ w Hsh).
  destruct (exec_cmd E2 _ w) as [[rc|e|] w1]; [|done|done].
  destruct (decide (rc = 0)); [done|].
  rewrite (exec_cmd_env E1 E2 _ w1 Hsh).
  destruct (exec_cmd E2 _ w1) as [[rc1|e|] w2]; [|done|done].
  destruct (decide (rc1 ≠ 0)); [|done].
  by apply exec_cmd_env.
Qed.

Lemma apply_patch_files_env (E1 E2 : Env) (ps : list string) (wd : string) (w : World) :
  sh E1 = sh E2 → apply_patch_files E1 ps wd w = apply_patch_files E2 ps wd w.
Proof.
  intros Hsh. revert w. induction ps as [|p ps IH]; intros w; [done|].
  cbn [apply_patch_files]. unfold bind.
  rewrite (apply_patch_file_env E1 E2 p wd w Hsh).
  destruct (apply_patch_file E2 p wd w) as [[rc|e|] w1]; [|done|done].
  destruct (decide (rc ≠ 0)); [done|]. apply IH.
Qed.

Lemma filter_perm {A} (f : A → bool) (l1 l2 : list A) :
  l1 ≡ₚ l2 → List.filter f l1 ≡ₚ List.filter f l2.
Proof.
  induction 1 as [|x l1 l2 _ IH|x y l|l1 l2 l3 _ IH1 _ IH2]; simpl.
  - done.
  - destruct (f x); [by constructor|done].
  - destruct (f x), (f y); try done. apply perm_swap.
  - by etrans.
Qed.

Lemma is_patch_ext_spec p :
  is_patch_ext p = bool_decide (Path.extension p ∈ [".patch"; ".diff"; ".mbox"]).
Proof.
  unfold is_patch_ext.
  destruct (bool_decide (Path.extension p ∈ [".patch"; ".diff"; ".mbox"])) eqn:Hin.
  - apply bool_decide_eq_true in Hin.
    repeat (apply elem_of_cons in Hin as [->|Hin]; [by rewrite ?orb_true_r|]).
    by apply elem_of_nil in Hin.
  - apply bool_decide_eq_false in Hin.
    rewrite !bool_decide_eq_false_2; [done| | |]; intros Heq; apply Hin; rewrite Heq;
      set_solver.
Qed.

Lemma patch_files_sorted E dir fs :
  (∀ l, iter_order E l ≡ₚ l) → patch_files_of_dir E dir fs = sorted_patches dir fs.
Proof.
  intros Hperm.
  apply (StronglySorted_unique String.le);
    [apply (StronglySorted_merge_sort _)|apply (StronglySorted_merge_sort _)|].
  unfold patch_files_of_dir, sorted_patches. rewrite !merge_sort_Permutation.
  rewrite (filter_perm _ _ _ (Hperm _)).
  assert (∀ l, List.filter (λ p, FS.is_regular_file p fs && is_patch_ext p) l
               = List.filter (λ p, FS.is_regular_file p fs
                                   && bool_decide (Path.extension p
                                                   ∈ [".patch"; ".diff"; ".mbox"])) l) as ->;
    [|done].
  intros l. induction l as [|x l IH]; [done|]. simpl. by rewrite is_patch_ext_spec, IH.
Qed.

Lemma apply_patch_file_starts E p wd w :
  ∃ rc w' tail, apply_patch_file E p wd w = (Done rc, w')
                ∧ spawned w' = spawned w ++ mailbox_cmd wd p :: tail.
Proof.
  rewrite apply_patch_file_eq. change (git_am_cmd p wd) with (mailbox_cmd wd p).
  destruct (decide (rc_of E (mailbox_cmd wd p) w = 0)).
  - eexists _, _, []. split; [done|]. apply spawned_ran.
  - destruct (decide (rc_of E _ (ran E (mailbox_cmd wd p) w) = 0)).
    + eexists _, _, [_]. split; [done|]. by rewrite !spawned_ran, <- app_assoc.
    + eexists _, _, [_; _]. split; [done|]. by rewrite !spawned_ran, <- !app_assoc.
Qed.

Lemma apply_patch_files_extends E ps wd w :
  ∃ rc w' tail, apply_patch_files E ps wd w = (Done rc, w') ∧ spawned w' = spawned w ++ tail.
Proof.
  revert w. induction ps as [|p ps IH]; intros w.
  - exists 0, w, []. split; [done|]. by rewrite app_nil_r.
  - cbn [apply_patch_files]. unfold bind.
    destruct (apply_patch_file_starts E p wd w) as (rc & w1 & tail & -> & Hs).
    destruct (decide (rc ≠ 0)).
    + by eexists _, _, _.
    + destruct (IH w1) as (rc2 & w2 & tail2 & -> & Hs2).
      eexists _, _, _. split; [done|]. by rewrite Hs2, Hs, <- app_assoc.
Qed.

Lemma apply_patch_files_all_first E ps wd w :
  (∀ p w0, p ∈ ps → rc_of E (mailbox_cmd wd p) w0 = 0) →
  apply_patch_files E ps wd w = (Done 0, foldl (λ w0 p, ran E (mailbox_cmd wd p) w0) w ps)
  ∧ spawned (foldl (λ w0 p, ran E (mailbox_cmd wd p) w0) w ps)
    = spawned w ++ (mailbox_cmd wd <$> ps).
Proof.
  revert w. induction ps as [|p ps IH]; intros w Hall.
  - split; [done|]. simpl. by rewrite app_nil_r.
  - cbn [apply_patch_files foldl]. unfold bind. rewrite apply_patch_file_eq.
    change (git_am_cmd p wd) with (mailbox_cmd wd p).
    rewrite decide_True by (apply Hall; by left).
    rewrite decide_False by (intros H; by apply H).
    destruct (IH (ran E (mailbox_cmd wd p) w)) as [Hrun Hsp].
    { intros q w0 Hq. apply Hall. by right. }
    split; [done|]. rewrite Hsp, spawned_ran, fmap_cons. by rewrite <- app_assoc.
Qed.

(** [apply_patches_from_dir] does not depend on the order in which the
    directory is listed.  It applies, with the single-file procedure
    and in ascending order of their paths, exactly the regular files
    directly in the directory whose extension is [.patch], [.diff] or
    [.mbox]: with none it does nothing and returns 0; otherwise its
    first command is the mailbox apply of the first of them; a first
    file that fails ends it with that file's status; and when each
    file applies at the first attempt, the commands run are the
    mailbox applies of all of them, in that order. *)
Theorem patch_dir_is_order_independent (E1 E2 : Env) (dir wd : string) (w : World) :
  sh E1 = sh E2 →
  (∀ l, iter_order E1 l ≡ₚ l) →
  (∀ l, iter_order E2 l ≡ₚ l) →
  FS.is_directory dir (files w) = true →
  let ps := sorted_patches dir (files w) in
  apply_patches_from_dir E2 dir wd w = apply_patches_from_dir E1 dir wd w
  ∧ apply_patches_from_dir E1 dir wd w = apply_patch_files E1 ps wd w
  ∧ StronglySorted String.le ps
  ∧ (∀ p, p ∈ ps ↔ p ∈ FS.children dir (files w)
                   ∧ FS.is_regular_file p (files w) = true
                   ∧ Path.extension p ∈ [".patch"; ".diff"; ".mbox"])
  ∧ (ps = [] → apply_patches_from_dir E1 dir wd w = (Done 0, w))
  ∧ (∀ p rest, ps = p :: rest →
       ∃ rc w' tail, apply_patches_from_dir E1 dir wd w = (Done rc, w')
                     ∧ spawned w' = spawned w ++ mailbox_cmd wd p :: tail)
  ∧ (∀ p rest rc w1, ps = p :: rest → apply_patch_file E1 p wd w = (Done rc, w1) → rc ≠ 0 →
       apply_patches_from_dir E1 dir wd w = (Done rc, w1))
  ∧ ((∀ p w0, p ∈ ps → rc_of E1 (mailbox_cmd wd p) w0 = 0) →
     ∃ w', apply_patches_from_dir E1 dir wd w = (Done 0, w')
           ∧ spawned w' = spawned w ++ (mailbox_cmd wd <$> ps)).
Proof.
  intros Hsh H1 H2 _ ps.
  assert (∀ E, (∀ l, iter_order E l ≡ₚ l) →
               apply_patches_from_dir E dir wd w = apply_patch_files E ps wd w) as Hrun.
  { intros E HE. unfold apply_patches_from_dir, bind, get_fs.
    by rewrite (patch_files_sorted E dir (files w) HE). }
  split; [|split; [by apply Hrun|split; [|split; [|split; [|split; [|split]]]]]].
  - rewrite (Hrun E1 H1), (Hrun E2 H2). symmetry. by apply apply_patch_files_env.
  - apply (StronglySorted_merge_sort _).
  - intros p. unfold ps, sorted_patches. rewrite merge_sort_Permutation.
    rewrite list_elem_of_In, filter_In, <- list_elem_of_In, andb_true_iff.
    by rewrite bool_decide_eq_true.
  - intros Hps. rewrite (Hrun E1 H1), Hps. done.
  - intros p rest Hps. rewrite (Hrun E1 H1), Hps.
    cbn [apply_patch_files]. unfold bind.
    destruct (apply_patch_file_starts E1 p wd w) as (rc & w1 & tail & -> & Hs).
    destruct (decide (rc ≠ 0)).
    + by eexists _, _, _.
    + destruct (apply_patch_files_extends E1 rest wd w1) as (rc2 & w2 & tail2 & -> & Hs2).
      eexists _, _, _. split; [done|]. by rewrite Hs2, Hs, <- app_assoc.
  - intros p rest rc w1 Hps Hp Hrc. rewrite (Hrun E1 H1), Hps.
    cbn [apply_patch_files]. unfold bind. rewrite Hp. by rewrite decide_True by done.
  - intros Hall. rewrite (Hrun E1 H1).
    destruct (apply_patch_files_all_first E1 ps wd w Hall) as [-> Hsp]. eauto.
Qed.

Lemma patch_dir_is_order_independent_witness :
  apply_patches_from_dir DemoPatchDir.E_rev "/b/recipes/hello" "/b/work/hello-2.12"
    (Demo.world DemoPatchDir.tree)
  = apply_patches_from_dir DemoPatch.E "/b/recipes/hello" "/b/work/hello-2.12"
      (Demo.world DemoPatchDir.tree)
  ∧ sorted_patches "/b/recipes/hello" DemoPatchDir.tree
    = ["/b/recipes/hello/a.patch"; "/b/recipes/hello/b.patch"; "/b/recipes/hello/c.patch"]
  ∧ FS.children "/b/recipes/hello" DemoPatchDir.tree
    ≠ rev (FS.children "/b/recipes/hello" DemoPatchDir.tree).
Proof.
  assert (sh DemoPatch.E = sh DemoPatchDir.E_rev) as Hsh by reflexivity.
  assert (∀ l, iter_order DemoPatch.E l ≡ₚ l) as H1 by done.
  assert (∀ l, iter_order DemoPatchDir.E_rev l ≡ₚ l) as H2
    by (intros l; symmetry; apply Permutation_rev).
  assert (FS.is_directory "/b/recipes/hello" (files (Demo.world DemoPatchDir.tree)) = true)
    as Hd by (vm_compute; reflexivity).
  split; [|split; [vm_compute; reflexivity|vm_compute; discriminate]].
  exact (proj1 (patch_dir_is_order_independent DemoPatch.E DemoPatchDir.E_rev
                  "/b/recipes/hello" "/b/work/hello-2.12" (Demo.world DemoPatchDir.tree)
                  Hsh H1 H2 Hd)).
Defined.
